(** * FunASR websocket server: the streaming session driver

    A shallow embedding of [runtime/python/websocket/funasr_wss_server.py]:
    the per-connection handler [ws_serve] and the three helpers it calls,
    [process_vad], [process_asr_offline] and [process_asr_online].

    The inference engines are black boxes.  Every received message comes
    together with what the engines would answer if they were called while
    that message is handled ([Engines]); the handler decides whether they
    are called at all.  What the handler does (entering a recognition pass,
    engine calls, messages sent to the client, the log lines of the error
    and flush paths) is recorded as a list of [Event]s, in program order.

    Two things are taken from outside.  [websocket.send] is taken to
    succeed (the transport is not part of the driver).  The values of a
    decoded control message have the types the specification gives them
    (section 4.4): [is_speaking] a boolean, [chunk_interval] an integer,
    [mode] and [wav_name] strings. *)

From Stdlib Require Import ZArith List String Bool Lia.
From Stdlib.Strings Require Import Byte.
Import ListNotations.

Local Open Scope string_scope.
Local Open Scope list_scope.
Local Open Scope Z_scope.

(** ** Data *)

(** A binary websocket message, and [b"".join(frames)]. *)
Definition bytes := list byte.

Definition join (fs : list bytes) : bytes := List.concat fs.

(** [len(x)] as a Python integer. *)
Definition len {A : Type} (l : list A) : Z := Z.of_nat (List.length l).

Definition str_len (s : string) : Z := Z.of_nat (String.length s).

(** An engine cache: the dict stored under the key ["cache"], opaque to the
    driver.  The literal [{}] is [empty_cache]. *)
Definition Cache := list Z.

Definition empty_cache : Cache := [].

(** [needle in s] on Python strings. *)
Fixpoint contains (needle s : string) : bool :=
  String.prefix needle s ||
  match s with
  | EmptyString => false
  | String _ s' => contains needle s'
  end.

(** [m in [a, b, ...]] on strings. *)
Definition mode_in (m : string) (l : list string) : bool :=
  existsb (String.eqb m) l.

(** [l[-20:]] *)
Definition last20 {A : Type} (l : list A) : list A :=
  skipn (List.length l - 20)%nat l.

(** The attributes [ws_serve] hangs on the connection object.  The status
    dicts are flattened: [asr_hotword] is [status_dict_asr] (empty, or the
    single key ["hotword"]); [online_*] are the three keys of
    [status_dict_asr_online]; [vad_cache] and [punc_cache] are the ["cache"]
    entries of [status_dict_vad] and [status_dict_punc]. *)
Record Websocket := {
  asr_hotword : option string;
  online_cache : Cache;
  online_is_final : bool;
  online_chunk_size : list Z;
  vad_cache : Cache;
  punc_cache : Cache;
  chunk_interval : Z;
  vad_pre_idx : Z;
  wav_name : string;
  mode : string;
  is_speaking : bool
}.

(** The local variables of [ws_serve].  [speech_start_i] is bound only by
    the first successful [process_vad] call: [None] is "not yet bound". *)
Record Locals := {
  speech_start : bool;
  speech_start_i : option Z;
  speech_end_i : Z;
  frames : list bytes;
  frames_asr : list bytes;
  frames_asr_online : list bytes
}.

Record Session := { ws : Websocket; loc : Locals }.

(** *** Inbound messages *)

(** The value under ["chunk_size"] after
    [[int(x) for x in chunk_size]] (the string form already split on the
    commas): the integers, or [ChunkBad] when the conversion raises. *)
Inductive ChunkSize :=
| ChunkInts (l : list Z)
| ChunkBad.

(** A decoded control message; a key that is absent is [None].  Values have
    the types section 4.4 of the specification gives them. *)
Record ControlMsg := {
  m_type : option string;
  m_is_speaking : option bool;
  m_chunk_interval : option Z;
  m_wav_name : option string;
  m_chunk_size : option ChunkSize;
  m_hotwords : option string;
  m_mode : option string
}.

(** What [json.loads(message)] does on a text message (line 210): it raises
    [json.JSONDecodeError]; it raises another exception ([RecursionError] on
    a text nested deeper than the interpreter's recursion limit, a plain
    [ValueError] on an integer literal longer than the limit of the
    conversion to [int]); it returns a value that is not a dict; or it
    returns a dict. *)
Inductive Decoded :=
| JSONDecodeError
| OtherError
| NotADict
| Dict (m : ControlMsg).

Inductive Message :=
| Str (j : Decoded)
| Bytes (b : bytes).

(** *** Engines *)

(** The answer of an engine that is handed a cache dict: the value it
    returns ([None]: it raises) and the contents it leaves in the dict. *)
Record Reply (A : Type) := {
  value : option A;
  cache_after : Cache
}.
Arguments value {A} _.
Arguments cache_after {A} _.

(** What each engine answers if it is called while one message is handled.
    [asr], [asr_streaming] and [punc] give the ["text"] of the first result
    (the empty string when the key is missing); [vad] gives the segment list
    under ["value"]. *)
Record Engines := {
  asr : option string;
  punc : Reply string;
  asr_streaming : Reply string;
  vad : Reply (list (Z * Z))
}.

(** *** Outbound messages and events *)

(** The result message of lines 143-148 and 163-168, before
    [json.dumps]. *)
Record ResultMsg := {
  r_mode : string;
  r_text : string;
  r_wav_name : string;
  r_is_final : bool
}.

(** The [print] calls that tell what the handler did: the three error
    handlers of the passes, the two flush blocks (with [len(frames_asr)]),
    the invalid-JSON branch and the generic handler at the end of
    [ws_serve].  The other [print]s are left out. *)
Inductive LogLine :=
| InvalidJSON
| OfflineOnStop (n : Z)
| OfflineOnVadEnd (n : Z)
| ErrorOffline
| ErrorStreaming
| ErrorVad
| ExceptionLine.

(** What the handler does, as seen from outside: [AsrOffline] and
    [AsrOnline] are the calls of [process_asr_offline] and
    [process_asr_online] with their [audio_in]; the [Generate*] events are
    the [generate] calls on the four models; the [Send*] events are the
    three [websocket.send] sites. *)
Inductive Event :=
| AsrOffline (audio_in : bytes)
| AsrOnline (audio_in : bytes)
| GenerateAsr (audio : bytes)
| GeneratePunc (text : string)
| GenerateAsrStreaming (audio : bytes)
| GenerateVad (audio : bytes)
| SendPong
| SendOffline (m : ResultMsg)
| SendOnline (m : ResultMsg)
| Log (l : LogLine).

(** Whether the receive loop goes on to the next message, or an exception
    reached the handlers at the end of [ws_serve]. *)
Inductive Status := Running | Ended.

Record Result := {
  st : Session;
  out : list Event;
  status : Status
}.

(** ** Record updates *)

Definition set_online_cache (w : Websocket) (c : Cache) : Websocket :=
  {| asr_hotword := asr_hotword w; online_cache := c;
     online_is_final := online_is_final w;
     online_chunk_size := online_chunk_size w; vad_cache := vad_cache w;
     punc_cache := punc_cache w; chunk_interval := chunk_interval w;
     vad_pre_idx := vad_pre_idx w; wav_name := wav_name w; mode := mode w;
     is_speaking := is_speaking w |}.

Definition set_online_is_final (w : Websocket) (b : bool) : Websocket :=
  {| asr_hotword := asr_hotword w; online_cache := online_cache w;
     online_is_final := b;
     online_chunk_size := online_chunk_size w; vad_cache := vad_cache w;
     punc_cache := punc_cache w; chunk_interval := chunk_interval w;
     vad_pre_idx := vad_pre_idx w; wav_name := wav_name w; mode := mode w;
     is_speaking := is_speaking w |}.

Definition set_online_chunk_size (w : Websocket) (l : list Z) : Websocket :=
  {| asr_hotword := asr_hotword w; online_cache := online_cache w;
     online_is_final := online_is_final w;
     online_chunk_size := l; vad_cache := vad_cache w;
     punc_cache := punc_cache w; chunk_interval := chunk_interval w;
     vad_pre_idx := vad_pre_idx w; wav_name := wav_name w; mode := mode w;
     is_speaking := is_speaking w |}.

Definition set_vad_cache (w : Websocket) (c : Cache) : Websocket :=
  {| asr_hotword := asr_hotword w; online_cache := online_cache w;
     online_is_final := online_is_final w;
     online_chunk_size := online_chunk_size w; vad_cache := c;
     punc_cache := punc_cache w; chunk_interval := chunk_interval w;
     vad_pre_idx := vad_pre_idx w; wav_name := wav_name w; mode := mode w;
     is_speaking := is_speaking w |}.

Definition set_punc_cache (w : Websocket) (c : Cache) : Websocket :=
  {| asr_hotword := asr_hotword w; online_cache := online_cache w;
     online_is_final := online_is_final w;
     online_chunk_size := online_chunk_size w; vad_cache := vad_cache w;
     punc_cache := c; chunk_interval := chunk_interval w;
     vad_pre_idx := vad_pre_idx w; wav_name := wav_name w; mode := mode w;
     is_speaking := is_speaking w |}.

Definition set_chunk_interval (w : Websocket) (n : Z) : Websocket :=
  {| asr_hotword := asr_hotword w; online_cache := online_cache w;
     online_is_final := online_is_final w;
     online_chunk_size := online_chunk_size w; vad_cache := vad_cache w;
     punc_cache := punc_cache w; chunk_interval := n;
     vad_pre_idx := vad_pre_idx w; wav_name := wav_name w; mode := mode w;
     is_speaking := is_speaking w |}.

Definition set_vad_pre_idx (w : Websocket) (n : Z) : Websocket :=
  {| asr_hotword := asr_hotword w; online_cache := online_cache w;
     online_is_final := online_is_final w;
     online_chunk_size := online_chunk_size w; vad_cache := vad_cache w;
     punc_cache := punc_cache w; chunk_interval := chunk_interval w;
     vad_pre_idx := n; wav_name := wav_name w; mode := mode w;
     is_speaking := is_speaking w |}.

Definition set_wav_name (w : Websocket) (s : string) : Websocket :=
  {| asr_hotword := asr_hotword w; online_cache := online_cache w;
     online_is_final := online_is_final w;
     online_chunk_size := online_chunk_size w; vad_cache := vad_cache w;
     punc_cache := punc_cache w; chunk_interval := chunk_interval w;
     vad_pre_idx := vad_pre_idx w; wav_name := s; mode := mode w;
     is_speaking := is_speaking w |}.

Definition set_mode (w : Websocket) (s : string) : Websocket :=
  {| asr_hotword := asr_hotword w; online_cache := online_cache w;
     online_is_final := online_is_final w;
     online_chunk_size := online_chunk_size w; vad_cache := vad_cache w;
     punc_cache := punc_cache w; chunk_interval := chunk_interval w;
     vad_pre_idx := vad_pre_idx w; wav_name := wav_name w; mode := s;
     is_speaking := is_speaking w |}.

Definition set_is_speaking (w : Websocket) (b : bool) : Websocket :=
  {| asr_hotword := asr_hotword w; online_cache := online_cache w;
     online_is_final := online_is_final w;
     online_chunk_size := online_chunk_size w; vad_cache := vad_cache w;
     punc_cache := punc_cache w; chunk_interval := chunk_interval w;
     vad_pre_idx := vad_pre_idx w; wav_name := wav_name w; mode := mode w;
     is_speaking := b |}.

Definition set_asr_hotword (w : Websocket) (h : string) : Websocket :=
  {| asr_hotword := Some h; online_cache := online_cache w;
     online_is_final := online_is_final w;
     online_chunk_size := online_chunk_size w; vad_cache := vad_cache w;
     punc_cache := punc_cache w; chunk_interval := chunk_interval w;
     vad_pre_idx := vad_pre_idx w; wav_name := wav_name w; mode := mode w;
     is_speaking := is_speaking w |}.

(** [x = v if key in messagejson] *)
Definition update {A B : Type} (f : A -> B -> A) (a : A) (o : option B) : A :=
  match o with
  | Some b => f a b
  | None => a
  end.

Definition set_frames_asr_online (l : Locals) (q : list bytes) : Locals :=
  {| speech_start := speech_start l; speech_start_i := speech_start_i l;
     speech_end_i := speech_end_i l; frames := frames l;
     frames_asr := frames_asr l; frames_asr_online := q |}.

(** ** The driver *)

Section Driver.

(** The module-level [model_punc]: whether a punctuation model is loaded
    ([--punc_model] not empty). *)
Variable model_punc : bool.

(** The session as [ws_serve] sets it up (lines 189-203). *)
Definition initial : Session :=
  {| ws := {| asr_hotword := None; online_cache := empty_cache;
              online_is_final := false; online_chunk_size := [5; 10; 5];
              vad_cache := empty_cache; punc_cache := empty_cache;
              chunk_interval := 10; vad_pre_idx := 0;
              wav_name := "microphone"; mode := "2pass";
              is_speaking := true |};
     loc := {| speech_start := false; speech_start_i := None;
               speech_end_i := -1; frames := []; frames_asr := [];
               frames_asr_online := [] |} |}.

(** [process_vad] (lines 108-123).  The second component is the returned
    pair [(speech_start, speech_end)], or [None] when the engine raises. *)
Definition process_vad (e : Engines) (w : Websocket) (audio_in : bytes)
  : Websocket * option (Z * Z) :=
  let w' := set_vad_cache w (cache_after (vad e)) in
  match value (vad e) with
  | None => (w', None)
  | Some segments_result =>
      match segments_result with
      | [(s0, s1)] =>
          (w', Some (if negb (s0 =? -1) then s0 else -1,
                     if negb (s1 =? -1) then s1 else -1))
      | _ => (w', Some (-1, -1))
      end
  end.

(** What a recognition pass leaves behind: the connection object, what it
    did, and whether it ended by raising. *)
Record Pass := {
  p_ws : Websocket;
  p_out : list Event;
  p_raised : bool
}.

(** The message built at lines 140-148. *)
Definition offline_message (w : Websocket) (text : string) : ResultMsg :=
  {| r_mode := if contains "2pass" (mode w) then "2pass-offline" else mode w;
     r_text := text;
     r_wav_name := wav_name w;
     r_is_final := if String.eqb (mode w) "offline" then true
                   else is_speaking w |}.

(** The message built at lines 162-168. *)
Definition online_message (w : Websocket) (text : string) : ResultMsg :=
  {| r_mode := if contains "2pass" (mode w) then "2pass-online" else mode w;
     r_text := text;
     r_wav_name := wav_name w;
     r_is_final := is_speaking w |}.

(** [process_asr_offline] (lines 126-149).  [AsrOffline] marks the call
    itself, [GenerateAsr] and [GeneratePunc] the engine calls inside it. *)
Definition process_asr_offline (e : Engines) (w : Websocket)
    (audio_in : bytes) : Pass :=
  if len audio_in =? 0 then
    {| p_ws := w; p_out := [AsrOffline audio_in]; p_raised := false |}
  else
    match asr e with
    | None =>
        {| p_ws := w;
           p_out := [AsrOffline audio_in; GenerateAsr audio_in];
           p_raised := true |}
    | Some text =>
        if model_punc && (0 <? str_len text) then
          let w1 := set_punc_cache w (cache_after (punc e)) in
          match value (punc e) with
          | None =>
              {| p_ws := w1;
                 p_out := [AsrOffline audio_in; GenerateAsr audio_in;
                           GeneratePunc text];
                 p_raised := true |}
          | Some text' =>
              {| p_ws := w1;
                 p_out := [AsrOffline audio_in; GenerateAsr audio_in;
                           GeneratePunc text] ++
                          (if 0 <? str_len text'
                           then [SendOffline (offline_message w1 text')]
                           else []);
                 p_raised := false |}
          end
        else
          {| p_ws := w;
             p_out := [AsrOffline audio_in; GenerateAsr audio_in] ++
                      (if 0 <? str_len text
                       then [SendOffline (offline_message w text)]
                       else []);
             p_raised := false |}
    end.

(** [process_asr_online] (lines 152-169). *)
Definition process_asr_online (e : Engines) (w : Websocket)
    (audio_in : bytes) : Pass :=
  if len audio_in =? 0 then
    {| p_ws := w; p_out := [AsrOnline audio_in]; p_raised := false |}
  else
    let w1 := set_online_cache w (cache_after (asr_streaming e)) in
    match value (asr_streaming e) with
    | None =>
        {| p_ws := w1;
           p_out := [AsrOnline audio_in; GenerateAsrStreaming audio_in];
           p_raised := true |}
    | Some text =>
        {| p_ws := w1;
           p_out := [AsrOnline audio_in; GenerateAsrStreaming audio_in] ++
                    (if 0 <? str_len text
                     then [SendOnline (online_message w1 text)]
                     else []);
           p_raised := false |}
    end.

(** The guarded offline call, written twice in [ws_serve] (lines 226-232
    and 299-305): only in the modes ["2pass"] and ["offline"], over the
    joined [frames_asr], an exception of the pass logged and swallowed. *)
Definition offline_if_mode (e : Engines) (w : Websocket)
    (frames_asr0 : list bytes) : Websocket * list Event :=
  if mode_in (mode w) ["2pass"; "offline"] then
    let p := process_asr_offline e w (join frames_asr0) in
    (p_ws p, p_out p ++ (if p_raised p then [Log ErrorOffline] else []))
  else (w, []).

(** The body of [if not websocket.is_speaking and frames_asr] (lines
    225-240). *)
Definition flush_on_stop (e : Engines) (s : Session)
  : Session * list Event :=
  let '(w, evs) := offline_if_mode e (ws s) (frames_asr (loc s)) in
  ({| ws := set_vad_cache
              (set_vad_pre_idx (set_online_cache w empty_cache) 0)
              empty_cache;
      loc := {| speech_start := false;
                speech_start_i := speech_start_i (loc s);
                speech_end_i := speech_end_i (loc s);
                frames := [];
                frames_asr := [];
                frames_asr_online := [] |} |},
   Log (OfflineOnStop (len (frames_asr (loc s)))) :: evs).

(** [if "is_speaking" in messagejson: ...] (lines 218-240), on the value
    under the key, if any. *)
Definition on_is_speaking (e : Engines) (s : Session) (key : option bool)
  : Session * list Event :=
  match key with
  | None => (s, [])
  | Some v =>
      let s1 :=
        {| ws := set_online_is_final (set_is_speaking (ws s) v) (negb v);
           loc := loc s |} in
      if negb v && negb (len (frames_asr (loc s)) =? 0)
      then flush_on_stop e s1
      else (s1, [])
  end.

(** [messagejson.get("type") == "ping"] (line 214). *)
Definition is_ping (m : ControlMsg) : bool :=
  match m_type m with
  | Some t => String.eqb t "ping"
  | None => false
  end.

(** A text message that decoded to a dict (lines 214-254).  Past the
    decoding, the conversion of ["chunk_size"] is the one place where an
    exception can leave the inner [try]. *)
Definition handle_json (e : Engines) (s : Session) (m : ControlMsg)
  : Result :=
  if is_ping m then {| st := s; out := [SendPong]; status := Running |}
  else
    let '(s1, evs) := on_is_speaking e s (m_is_speaking m) in
    let w1 := update set_chunk_interval (ws s1) (m_chunk_interval m) in
    let w2 := update set_wav_name w1 (m_wav_name m) in
    match m_chunk_size m with
    | Some ChunkBad =>
        {| st := {| ws := w2; loc := loc s1 |};
           out := evs ++ [Log ExceptionLine];
           status := Ended |}
    | cs =>
        let w3 := match cs with
                  | Some (ChunkInts l) => set_online_chunk_size w2 l
                  | _ => w2
                  end in
        let w4 := update set_asr_hotword w3 (m_hotwords m) in
        let w5 := update set_mode w4 (m_mode m) in
        {| st := {| ws := w5; loc := loc s1 |};
           out := evs;
           status := Running |}
    end.

(** Lines 262-270: the frame joins the three lists, the duration counter
    advances, and [is_final] is overwritten from the previous VAD result. *)
Definition accumulate (s : Session) (message : bytes) : Session :=
  {| ws := set_online_is_final
             (set_vad_pre_idx (ws s) (vad_pre_idx (ws s) + len message / 32))
             (negb (speech_end_i (loc s) =? -1));
     loc := {| speech_start := speech_start (loc s);
               speech_start_i := speech_start_i (loc s);
               speech_end_i := speech_end_i (loc s);
               frames := frames (loc s) ++ [message];
               frames_asr := frames_asr (loc s) ++ [message];
               frames_asr_online := frames_asr_online (loc s) ++ [message]
            |} |}.

(** The condition of lines 273-274.  The modulo is the left operand of
    [or], so it is always evaluated: [None] is its [ZeroDivisionError]. *)
Definition online_trigger (s : Session) : option bool :=
  if chunk_interval (ws s) =? 0 then None
  else Some ((len (frames_asr_online (loc s)) mod chunk_interval (ws s) =? 0)
             || online_is_final (ws s)).

(** Lines 275-281, the body under a true trigger. *)
Definition online_pass (e : Engines) (s : Session) : Session * list Event :=
  let '(w, evs) :=
    if mode_in (mode (ws s)) ["2pass"; "online"] then
      let p := process_asr_online e (ws s)
                 (join (frames_asr_online (loc s))) in
      (p_ws p, p_out p ++ (if p_raised p then [Log ErrorStreaming] else []))
    else (ws s, []) in
  ({| ws := w; loc := set_frames_asr_online (loc s) [] |}, evs).

(** Lines 273-281 once the trigger has been evaluated. *)
Definition online_stage (e : Engines) (s : Session) (fire : bool)
  : Session * list Event :=
  if fire then online_pass e s else (s, []).

(** Lines 284-293.  A raising VAD call leaves [speech_start_i] and
    [speech_end_i] as they were; reading [speech_start_i] before any call
    has bound it is an [UnboundLocalError], here [None]. *)
Definition vad_stage (e : Engines) (s : Session) (message : bytes)
  : option Session * list Event :=
  let '(w, r) := process_vad e (ws s) message in
  let '(start_i, end_i, evs) :=
    match r with
    | Some (a, b) => (Some a, b, [GenerateVad message])
    | None => (speech_start_i (loc s), speech_end_i (loc s),
               [GenerateVad message; Log ErrorVad])
    end in
  match start_i with
  | None => (None, evs)
  | Some a =>
      let ss1 := if negb (a =? -1) then true else speech_start (loc s) in
      let ss2 := if negb (end_i =? -1) then false else ss1 in
      (Some {| ws := w;
               loc := {| speech_start := ss2;
                         speech_start_i := Some a;
                         speech_end_i := end_i;
                         frames := frames (loc s);
                         frames_asr := frames_asr (loc s);
                         frames_asr_online := frames_asr_online (loc s) |} |},
       evs)
  end.

(** The body of the last [if speech_end_i != -1] (lines 298-311). *)
Definition flush_on_vad_end (e : Engines) (s : Session)
  : Session * list Event :=
  let '(w, evs) := offline_if_mode e (ws s) (frames_asr (loc s)) in
  ({| ws := set_online_cache w empty_cache;
      loc := {| speech_start := false;
                speech_start_i := speech_start_i (loc s);
                speech_end_i := speech_end_i (loc s);
                frames := last20 (frames (loc s));
                frames_asr := [];
                frames_asr_online := [] |} |},
   Log (OfflineOnVadEnd (len (frames_asr (loc s)))) :: evs).

(** Lines 297-311. *)
Definition offline_stage (e : Engines) (s : Session)
  : Session * list Event :=
  if negb (speech_end_i (loc s) =? -1) then flush_on_vad_end e s
  else (s, []).

(** A binary message (lines 261-311). *)
Definition handle_audio (e : Engines) (s : Session) (message : bytes)
  : Result :=
  let s1 := accumulate s message in
  match online_trigger s1 with
  | None => {| st := s1; out := [Log ExceptionLine]; status := Ended |}
  | Some fire =>
      let '(s2, evs2) := online_stage e s1 fire in
      match vad_stage e s2 message with
      | (None, evs3) =>
          {| st := {| ws := fst (process_vad e (ws s2) message);
                      loc := loc s2 |};
             out := evs2 ++ evs3 ++ [Log ExceptionLine];
             status := Ended |}
      | (Some s3, evs3) =>
          let '(s4, evs4) := offline_stage e s3 in
          {| st := s4; out := evs2 ++ evs3 ++ evs4; status := Running |}
      end
  end.

(** One turn of the receive loop (lines 206-311): a message together with
    the engines' answers during it. *)
Definition step (s : Session) (i : Message * Engines) : Result :=
  match fst i with
  | Str JSONDecodeError =>
      {| st := s; out := [Log InvalidJSON]; status := Running |}
  | Str OtherError | Str NotADict =>
      {| st := s; out := [Log ExceptionLine]; status := Ended |}
  | Str (Dict m) => handle_json (snd i) s m
  | Bytes message => handle_audio (snd i) s message
  end.

(** The receive loop over the messages of a connection; it stops at the
    first exception that reaches the outer handlers. *)
Fixpoint run (s : Session) (inputs : list (Message * Engines)) : Result :=
  match inputs with
  | [] => {| st := s; out := []; status := Running |}
  | i :: rest =>
      let r := step s i in
      match status r with
      | Ended => r
      | Running =>
          let r' := run (st r) rest in
          {| st := st r'; out := out r ++ out r'; status := status r' |}
      end
  end.

End Driver.

(** ** Reading a trace *)

(** The audio of each call of the online pass, of the offline pass, and of
    the offline engine, in order. *)
Definition online_calls (evs : list Event) : list bytes :=
  flat_map (fun ev => match ev with AsrOnline a => [a] | _ => [] end) evs.

Definition offline_calls (evs : list Event) : list bytes :=
  flat_map (fun ev => match ev with AsrOffline a => [a] | _ => [] end) evs.

Definition asr_engine_calls (evs : list Event) : list bytes :=
  flat_map (fun ev => match ev with GenerateAsr a => [a] | _ => [] end) evs.

(** The events each part of the handler can produce. *)
Definition online_event (ev : Event) : bool :=
  match ev with
  | AsrOnline _ | GenerateAsrStreaming _ | SendOnline _
  | Log ErrorStreaming => true
  | _ => false
  end.

Definition offline_event (ev : Event) : bool :=
  match ev with
  | AsrOffline _ | GenerateAsr _ | GeneratePunc _ | SendOffline _
  | Log ErrorOffline => true
  | _ => false
  end.

Definition vad_event (ev : Event) : bool :=
  match ev with
  | GenerateVad _ | Log ErrorVad => true
  | _ => false
  end.

(** What the client has configured; no engine call and no flush touches
    it. *)
Definition settings (w : Websocket) : string * bool * Z * string :=
  (mode w, is_speaking w, chunk_interval w, wav_name w).

(** The trigger of lines 273-274 as a function of the session before the
    frame. *)
Definition fires (s : Session) (b : bytes) : bool :=
  (len (frames_asr_online (loc s) ++ [b]) mod chunk_interval (ws s) =? 0)
  || negb (speech_end_i (loc s) =? -1).

(** The control message [{"is_speaking": false}]. *)
Definition stop_message : ControlMsg :=
  {| m_type := None; m_is_speaking := Some false; m_chunk_interval := None;
     m_wav_name := None; m_chunk_size := None; m_hotwords := None;
     m_mode := None |}.

(** Engines that find nothing: no text, no segment. *)
Definition silent : Engines :=
  {| asr := Some ""; punc := {| value := Some ""; cache_after := [] |};
     asr_streaming := {| value := Some ""; cache_after := [] |};
     vad := {| value := Some []; cache_after := [] |} |}.

(** The conversion of ["chunk_size"], the one exception a decoded control
    message can raise, does not occur in the message. *)
Definition chunk_ok (i : Message * Engines) : Prop :=
  match fst i with
  | Str (Dict m) => m_chunk_size m <> Some ChunkBad
  | _ => True
  end.

(** [frames_asr] and [frames_asr_online] at the moment a flush calls the
    offline pass. *)
Definition queues_at_flush (s : Session) (i : Message * Engines)
  : list bytes * list bytes :=
  match fst i with
  | Bytes b =>
      (frames_asr (loc s) ++ [b],
       if fires s b then [] else frames_asr_online (loc s) ++ [b])
  | _ => (frames_asr (loc s), frames_asr_online (loc s))
  end.

(** C1 as the specification words it: a flush whose offline engine call
    raises leaves the session running, sends nothing for the offline pass,
    and leaves both queues as they were when the pass was called. *)
Definition failed_flush_keeps_queues (model_punc : bool) (s : Session)
    (i : Message * Engines) : Prop :=
  let r := step model_punc s i in
  asr (snd i) = None ->
  (exists a, In (GenerateAsr a) (out r)) ->
  status r = Running /\
  (forall m, ~ In (SendOffline m) (out r)) /\
  (frames_asr (loc (st r)), frames_asr_online (loc (st r))) =
    queues_at_flush s i.

(** C6 as the specification words it: the state both flush paths are said
    to reset. *)
Definition reset_as_specified (s' : Session) : Prop :=
  frames_asr (loc s') = [] /\
  frames_asr_online (loc s') = [] /\
  vad_cache (ws s') = empty_cache /\
  frames (loc s') = [] /\
  speech_start (loc s') = false.

Definition both_paths_reset_as_specified (model_punc : bool) (s : Session)
    (i : Message * Engines) : Prop :=
  let r := step model_punc s i in
  forall n,
    In (Log (OfflineOnStop n)) (out r) \/
    In (Log (OfflineOnVadEnd n)) (out r) ->
    reset_as_specified (st r).

(** Whether, reading a trace from the left, VAD has reported a speech end
    (the flush line of the VAD path) after the last call of the online
    pass. *)
Fixpoint vad_end_pending (evs : list Event) (pending : bool) : bool :=
  match evs with
  | [] => pending
  | AsrOnline _ :: evs' => vad_end_pending evs' false
  | Log (OfflineOnVadEnd _) :: evs' => vad_end_pending evs' true
  | _ :: evs' => vad_end_pending evs' pending
  end.

(** C4 as the specification words it, at the end of a session prefix. *)
Definition is_final_as_specified (model_punc : bool)
    (inputs : list (Message * Engines)) : Prop :=
  let r := run model_punc initial inputs in
  online_is_final (ws (st r)) = true <->
  (is_speaking (ws (st r)) = false \/ vad_end_pending (out r) false = true).

(** A control message that the handler takes as "the client stopped
    speaking". *)
Definition client_stop (i : Message * Engines) : Prop :=
  exists m,
    fst i = Str (Dict m) /\ is_ping m = false /\
    m_is_speaking m = Some false.


Definition is_text (i : Message * Engines) : bool :=
  match fst i with
  | Str _ => true
  | Bytes _ => false
  end.



(** The control message of scenario B,
    [{"mode": "2pass", "chunk_interval": 2}]. *)
Definition scenario_B_control : ControlMsg :=
  {| m_type := None; m_is_speaking := None; m_chunk_interval := Some 2;
     m_wav_name := None; m_chunk_size := None; m_hotwords := None;
     m_mode := Some "2pass" |}.


(** The audio of the binary messages of a run. *)
Definition audio_of (inputs : list (Message * Engines)) : list bytes :=
  flat_map (fun i => match fst i with Bytes b => [b] | Str _ => [] end)
    inputs.


(** One audio frame of a single byte. *)
Definition frame1 : bytes := [x01].

(** Engines as [silent], but the offline engine raises. *)
Definition deaf : Engines :=
  {| asr := None; punc := punc silent;
     asr_streaming := asr_streaming silent; vad := vad silent |}.

(** Engines as [silent], but VAD reports a speech end at 3200 and leaves
    something in its cache. *)
Definition ending : Engines :=
  {| asr := asr silent; punc := punc silent;
     asr_streaming := asr_streaming silent;
     vad := {| value := Some [(-1, 3200)]; cache_after := [1] |} |}.

(** Engines that recognise something. *)
Definition talking : Engines :=
  {| asr := Some "hello";
     punc := {| value := Some "hello."; cache_after := [2] |};
     asr_streaming := {| value := Some "he"; cache_after := [3] |};
     vad := vad silent |}.

(** A fresh session that has received one frame. *)
Definition after_one_frame : Session :=
  st (run true initial [(Bytes frame1, silent)]).

(** The control message [{"chunk_interval": 0}]. *)
Definition zero_interval : ControlMsg :=
  {| m_type := None; m_is_speaking := None; m_chunk_interval := Some 0;
     m_wav_name := None; m_chunk_size := None; m_hotwords := None;
     m_mode := None |}.

(** ** Reading a trace: engines, results and noise *)

(** The audio of each call of the VAD engine and of the streaming engine,
    and the result messages sent, in order. *)
Definition vad_calls (evs : list Event) : list bytes :=
  flat_map (fun ev => match ev with GenerateVad a => [a] | _ => [] end) evs.

Definition streaming_engine_calls (evs : list Event) : list bytes :=
  flat_map
    (fun ev => match ev with GenerateAsrStreaming a => [a] | _ => [] end) evs.

Definition sent_offline (evs : list Event) : list ResultMsg :=
  flat_map (fun ev => match ev with SendOffline m => [m] | _ => [] end) evs.

Definition sent_online (evs : list Event) : list ResultMsg :=
  flat_map (fun ev => match ev with SendOnline m => [m] | _ => [] end) evs.

(** What only a control message can change. *)
Definition config (w : Websocket)
  : string * Z * string * list Z * option string :=
  (mode w, chunk_interval w, wav_name w, online_chunk_size w, asr_hotword w).

(** The messages that are answered or logged and otherwise skipped by a
    [continue] (lines 215-217 and 255-257): a ping, and a text on which
    [json.loads] raises [json.JSONDecodeError]. *)
Definition ignorable (i : Message * Engines) : bool :=
  match fst i with
  | Str JSONDecodeError => true
  | Str (Dict m) => is_ping m
  | _ => false
  end.

Definition heard (i : Message * Engines) : bool := negb (ignorable i).

Definition is_ping_message (i : Message * Engines) : bool :=
  match fst i with
  | Str (Dict m) => is_ping m
  | _ => false
  end.

(** What the handler emits for an ignorable message. *)
Definition chatter (ev : Event) : bool :=
  match ev with
  | SendPong | Log InvalidJSON => true
  | _ => false
  end.

Definition is_pong (ev : Event) : bool :=
  match ev with
  | SendPong => true
  | _ => false
  end.

(** A control message that is handled leaves the key in question alone. *)
Definition keeps_mode (i : Message * Engines) : bool :=
  match fst i with
  | Str (Dict m) =>
      is_ping m || match m_mode m with Some _ => false | None => true end
  | _ => true
  end.

Definition keeps_chunk_interval (i : Message * Engines) : bool :=
  match fst i with
  | Str (Dict m) =>
      is_ping m ||
      match m_chunk_interval m with Some _ => false | None => true end
  | _ => true
  end.

(** A control message that is handled sets the mode, if at all, to one
    with an offline pass. *)
Definition keeps_offline_pass (i : Message * Engines) : bool :=
  match fst i with
  | Str (Dict m) =>
      is_ping m ||
      match m_mode m with
      | Some x => mode_in x ["2pass"; "offline"]
      | None => true
      end
  | _ => true
  end.

(** A control message cut before the key ["chunk_size"]: the keys that
    lines 246-254 handle are dropped. *)
Definition before_chunk_size (m : ControlMsg) : ControlMsg :=
  {| m_type := m_type m; m_is_speaking := m_is_speaking m;
     m_chunk_interval := m_chunk_interval m; m_wav_name := m_wav_name m;
     m_chunk_size := None; m_hotwords := None; m_mode := None |}.

(** Whether the last [if speech_end_i != -1] of a binary message is taken:
    the engine returns one segment with an end, or it raises while the
    locals still hold the end of an earlier call. *)
Definition vad_end_seen (s : Session) (e : Engines) : bool :=
  match value (vad e) with
  | Some [(_, c)] => negb (c =? -1)
  | Some _ => false
  | None =>
      match speech_start_i (loc s) with
      | Some _ => negb (speech_end_i (loc s) =? -1)
      | None => false
      end
  end.

(** The sum of [len(message) // 32] over frames. *)
Fixpoint total_ms (fs : list bytes) : Z :=
  match fs with
  | [] => 0
  | f :: fs' => len f / 32 + total_ms fs'
  end.

(** Engines as [silent], but the VAD engine raises. *)
Definition vad_down : Engines :=
  {| asr := asr silent; punc := punc silent;
     asr_streaming := asr_streaming silent;
     vad := {| value := None; cache_after := [] |} |}.

(** Engines as [talking], but VAD reports a speech end at 3200. *)
Definition talking_end : Engines :=
  {| asr := asr talking; punc := punc talking;
     asr_streaming := asr_streaming talking;
     vad := {| value := Some [(-1, 3200)]; cache_after := [1] |} |}.

(** Engines as [silent], but VAD returns two segments, both ended. *)
Definition two_segments : Engines :=
  {| asr := asr silent; punc := punc silent;
     asr_streaming := asr_streaming silent;
     vad := {| value := Some [(0, 100); (200, 300)];
               cache_after := [] |} |}.

(** The control message [{"type": "ping", "is_speaking": false}]. *)
Definition ping_message : ControlMsg :=
  {| m_type := Some "ping"; m_is_speaking := Some false;
     m_chunk_interval := None; m_wav_name := None; m_chunk_size := None;
     m_hotwords := None; m_mode := None |}.

(** The control message [{"is_speaking": false, "wav_name": "b",
    "chunk_size": "5,x", "mode": "online"}]. *)
Definition stop_bad_chunk : ControlMsg :=
  {| m_type := None; m_is_speaking := Some false; m_chunk_interval := None;
     m_wav_name := Some "b"; m_chunk_size := Some ChunkBad;
     m_hotwords := None; m_mode := Some "online" |}.

(** The control message [{"mode": "online"}]. *)
Definition online_mode : ControlMsg :=
  {| m_type := None; m_is_speaking := None; m_chunk_interval := None;
     m_wav_name := None; m_chunk_size := None; m_hotwords := None;
     m_mode := Some "online" |}.

(** The control message [{"mode": "offline"}]. *)
Definition offline_mode : ControlMsg :=
  {| m_type := None; m_is_speaking := None; m_chunk_interval := None;
     m_wav_name := None; m_chunk_size := None; m_hotwords := None;
     m_mode := Some "offline" |}.

(** The flush lines of a trace, with the queue lengths they print. *)
Definition stop_flushes (evs : list Event) : list Z :=
  flat_map
    (fun ev => match ev with Log (OfflineOnStop n) => [n] | _ => [] end) evs.

Definition vad_flushes (evs : list Event) : list Z :=
  flat_map
    (fun ev => match ev with Log (OfflineOnVadEnd n) => [n] | _ => [] end)
    evs.

(** The condition of line 224, for a control message that is handled: the
    client says it stopped speaking while audio is pending. *)
Definition stop_due (s : Session) (i : Message * Engines) : bool :=
  match fst i with
  | Str (Dict m) =>
      negb (is_ping m) &&
      match m_is_speaking m with Some false => true | _ => false end &&
      negb (len (frames_asr (loc s)) =? 0)
  | _ => false
  end.

(** The condition of line 297, for a binary message that gets there. *)
Definition vad_end_due (s : Session) (i : Message * Engines) : bool :=
  match fst i with
  | Bytes _ => negb (chunk_interval (ws s) =? 0) && vad_end_seen s (snd i)
  | _ => false
  end.

(** The condition of lines 273-274, for a binary message that gets
    there. *)
Definition online_due (s : Session) (i : Message * Engines) : bool :=
  match fst i with
  | Bytes b => negb (chunk_interval (ws s) =? 0) && fires s b
  | _ => false
  end.

(** The frame a message brings, if any. *)
Definition frame_of (i : Message * Engines) : list bytes :=
  match fst i with
  | Bytes b => [b]
  | Str _ => []
  end.

Definition nonempty (a : bytes) : bool := negb (len a =? 0).

(** What makes a message end the receive loop: a text on which
    [json.loads] raises an exception other than [json.JSONDecodeError], a
    text that is JSON but not an object, a handled control message whose
    ["chunk_size"] cannot be converted, a binary message while the chunk
    interval is 0, and a binary message on which the VAD engine raises
    before any VAD call has returned. *)
Definition fatal (s : Session) (i : Message * Engines) : bool :=
  match fst i with
  | Str JSONDecodeError => false
  | Str OtherError => true
  | Str NotADict => true
  | Str (Dict m) =>
      negb (is_ping m) &&
      match m_chunk_size m with Some ChunkBad => true | _ => false end
  | Bytes _ =>
      (chunk_interval (ws s) =? 0) ||
      match value (vad (snd i)), speech_start_i (loc s) with
      | None, None => true
      | _, _ => false
      end
  end.




(** 1 if a speech end is pending, so that line 270 sets [is_final] on the
    next frame, 0 if not. *)
Definition pending (s : Session) : Z :=
  if speech_end_i (loc s) =? -1 then 0 else 1.



(** A text message that [json.loads] does not parse: it raises. *)
Definition unparseable (i : Message * Engines) : bool :=
  match fst i with
  | Str JSONDecodeError | Str OtherError => true
  | _ => false
  end.

(** The three [websocket.send] sites. *)
Definition is_send (ev : Event) : bool :=
  match ev with
  | SendPong | SendOffline _ | SendOnline _ => true
  | _ => false
  end.

(** C8 as the specification words it: a text that is not parseable JSON is
    dropped: nothing is sent to the client, the session state is as it
    was, and the receive loop goes on. *)
Definition unparseable_dropped_as_specified (model_punc : bool)
    (s : Session) (i : Message * Engines) : Prop :=
  unparseable i = true ->
  let r := step model_punc s i in
  filter is_send (out r) = [] /\ st r = s /\ status r = Running.

(** ** The server around the sessions

    The module-level state of the server, [load_models], and the parts of
    [ws_serve] before and after the receive loop. *)

Module Server.

(** The command-line arguments [load_models] reads (lines 21-28).  The
    other keyword arguments of the four [AutoModel] calls are the same in
    each. *)
Record Args := {
  asr_model : string;
  asr_model_revision : string;
  asr_model_online : string;
  asr_model_online_revision : string;
  vad_model : string;
  vad_model_revision : string;
  punc_model : string;
  punc_model_revision : string
}.

(** What an [AutoModel] call is asked to build; a model that was built is
    known by the same two strings. *)
Record Model := {
  model : string;
  model_revision : string
}.

(** One run of [load_models] as seen from outside: whether
    [from funasr import AutoModel] succeeds, and whether each of the
    [AutoModel] calls it gets to returns ([true]) or raises. *)
Record Loading := {
  import_ok : bool;
  asr_ok : bool;
  asr_online_ok : bool;
  vad_ok : bool;
  punc_ok : bool
}.

(** The global variables (lines 39-44).  A connection object is known by
    a number. *)
Record Globals := {
  websocket_users : list nat;
  model_asr : option Model;
  model_asr_streaming : option Model;
  model_vad : option Model;
  model_punc : option Model;
  models_loaded : bool
}.

Definition startup : Globals :=
  {| websocket_users := []; model_asr := None; model_asr_streaming := None;
     model_vad := None; model_punc := None; models_loaded := false |}.

Definition AutoModel (ok : bool) (name revision : string) : option Model :=
  if ok then Some {| model := name; model_revision := revision |} else None.

(** What [load_models] leaves: the globals, the [AutoModel] calls it made,
    in order, and whether it ended by raising. *)
Record Loaded := {
  globals : Globals;
  calls : list Model;
  raised : bool
}.

Definition set_model_asr (g : Globals) (m : option Model) : Globals :=
  {| websocket_users := websocket_users g; model_asr := m;
     model_asr_streaming := model_asr_streaming g; model_vad := model_vad g;
     model_punc := model_punc g; models_loaded := models_loaded g |}.

Definition set_model_asr_streaming (g : Globals) (m : option Model)
  : Globals :=
  {| websocket_users := websocket_users g; model_asr := model_asr g;
     model_asr_streaming := m; model_vad := model_vad g;
     model_punc := model_punc g; models_loaded := models_loaded g |}.

Definition set_model_vad (g : Globals) (m : option Model) : Globals :=
  {| websocket_users := websocket_users g; model_asr := model_asr g;
     model_asr_streaming := model_asr_streaming g; model_vad := m;
     model_punc := model_punc g; models_loaded := models_loaded g |}.

Definition set_model_punc (g : Globals) (m : option Model) : Globals :=
  {| websocket_users := websocket_users g; model_asr := model_asr g;
     model_asr_streaming := model_asr_streaming g; model_vad := model_vad g;
     model_punc := m; models_loaded := models_loaded g |}.

Definition set_models_loaded (g : Globals) (b : bool) : Globals :=
  {| websocket_users := websocket_users g; model_asr := model_asr g;
     model_asr_streaming := model_asr_streaming g; model_vad := model_vad g;
     model_punc := model_punc g; models_loaded := b |}.

Definition set_websocket_users (g : Globals) (u : list nat) : Globals :=
  {| websocket_users := u; model_asr := model_asr g;
     model_asr_streaming := model_asr_streaming g; model_vad := model_vad g;
     model_punc := model_punc g; models_loaded := models_loaded g |}.

(** [load_models] (lines 47-105).  Each global is assigned as soon as its
    model is built; [models_loaded] is set only at the end. *)
Definition load_models (args : Args) (ld : Loading) (g : Globals) : Loaded :=
  let c1 := {| model := asr_model args;
               model_revision := asr_model_revision args |} in
  let c2 := {| model := asr_model_online args;
               model_revision := asr_model_online_revision args |} in
  let c3 := {| model := vad_model args;
               model_revision := vad_model_revision args |} in
  let c4 := {| model := punc_model args;
               model_revision := punc_model_revision args |} in
  if models_loaded g then {| globals := g; calls := []; raised := false |}
  else if negb (import_ok ld) then
    {| globals := g; calls := []; raised := true |}
  else
    match AutoModel (asr_ok ld) (model c1) (model_revision c1) with
    | None => {| globals := g; calls := [c1]; raised := true |}
    | Some m1 =>
        let g1 := set_model_asr g (Some m1) in
        match AutoModel (asr_online_ok ld) (model c2) (model_revision c2)
        with
        | None => {| globals := g1; calls := [c1; c2]; raised := true |}
        | Some m2 =>
            let g2 := set_model_asr_streaming g1 (Some m2) in
            match AutoModel (vad_ok ld) (model c3) (model_revision c3) with
            | None =>
                {| globals := g2; calls := [c1; c2; c3]; raised := true |}
            | Some m3 =>
                let g3 := set_model_vad g2 (Some m3) in
                if negb (String.eqb (punc_model args) "") then
                  match AutoModel (punc_ok ld) (model c4)
                          (model_revision c4) with
                  | None =>
                      {| globals := g3; calls := [c1; c2; c3; c4];
                         raised := true |}
                  | Some m4 =>
                      {| globals :=
                           set_models_loaded (set_model_punc g3 (Some m4))
                             true;
                         calls := [c1; c2; c3; c4]; raised := false |}
                  end
                else
                  {| globals := set_models_loaded (set_model_punc g3 None)
                                  true;
                     calls := [c1; c2; c3]; raised := false |}
            end
        end
    end.

(** [websocket_users.add] and [websocket_users.discard]. *)
Definition add (websocket : nat) (users : list nat) : list nat :=
  if existsb (Nat.eqb websocket) users then users else websocket :: users.

Definition discard (websocket : nat) (users : list nat) : list nat :=
  filter (fun u => negb (Nat.eqb websocket u)) users.

(** The part of [ws_serve] before the receive loop (lines 176-187): the
    models are loaded if they are not; if that raises, the connection is
    closed and the handler returns; otherwise the connection joins
    [websocket_users]. *)
Record Opened := {
  o_globals : Globals;
  o_calls : list Model;
  accepted : bool
}.

Definition ws_serve_open (args : Args) (ld : Loading) (g : Globals)
    (websocket : nat) : Opened :=
  let l := if negb (models_loaded g) then load_models args ld g
           else {| globals := g; calls := []; raised := false |} in
  if raised l then
    {| o_globals := globals l; o_calls := calls l; accepted := false |}
  else
    {| o_globals :=
         set_websocket_users (globals l)
           (add websocket (websocket_users (globals l)));
       o_calls := calls l; accepted := true |}.

(** The [finally] clause of [ws_serve] (lines 317-319). *)
Definition ws_serve_finally (g : Globals) (websocket : nat) : Globals :=
  set_websocket_users g (discard websocket (websocket_users g)).

(** [if model_punc] on the global: an [AutoModel] object is true, [None]
    is false. *)
Definition punctuates (g : Globals) : bool :=
  match model_punc g with
  | Some _ => true
  | None => false
  end.

(** What happens to the server, connection by connection: a connection
    opens (with what loading the models would do then), or the handler of
    an accepted connection reaches its [finally]. *)
Inductive Happening :=
| Opens (websocket : nat) (ld : Loading)
| Ends (websocket : nat).

Definition happen (args : Args) (g : Globals) (h : Happening)
  : Globals * list Model :=
  match h with
  | Opens websocket ld =>
      let o := ws_serve_open args ld g websocket in
      (o_globals o, o_calls o)
  | Ends websocket => (ws_serve_finally g websocket, [])
  end.

(** The globals after a sequence of happenings, and all the [AutoModel]
    calls made. *)
Fixpoint serve (args : Args) (g : Globals) (hs : list Happening)
  : Globals * list Model :=
  match hs with
  | [] => (g, [])
  | h :: hs' =>
      let '(g1, c1) := happen args g h in
      let '(g2, c2) := serve args g1 hs' in
      (g2, c1 ++ c2)
  end.

(** What [ws_serve] leaves for one connection: the globals when the
    handler returns, the [AutoModel] calls it made, whether the connection
    was accepted, and what its receive loop did. *)
Record Served := {
  s_globals : Globals;
  s_calls : list Model;
  s_accepted : bool;
  s_result : option Result
}.

(** [ws_serve] for one connection from its first line to its last.  The
    handler yields at every [await] of the receive loop, so other
    connections open and end while this one is served: [during] is what
    happens to the server between this connection's [websocket_users.add]
    and its [finally].  Between the first line and the [add] there is no
    [await] on the path of an accepted connection, and none in the
    [finally].  The messages the connection receives until it is closed
    are [inputs].  Of the globals the receive loop reads [model_punc]
    (lines 134 and 193); once a connection has been accepted no happening
    assigns it any more, so the loop runs with the value it has then. *)
Definition ws_serve (args : Args) (ld : Loading) (g : Globals)
    (websocket : nat) (during : list Happening)
    (inputs : list (Message * Engines)) : Served :=
  let o := ws_serve_open args ld g websocket in
  if accepted o then
    {| s_globals :=
         ws_serve_finally (fst (serve args (o_globals o) during)) websocket;
       s_calls := o_calls o; s_accepted := true;
       s_result := Some (run (punctuates (o_globals o)) initial inputs) |}
  else
    {| s_globals := o_globals o; s_calls := o_calls o; s_accepted := false;
       s_result := None |}.

(** The connection a happening is about. *)
Definition concerns (h : Happening) : nat :=
  match h with
  | Opens websocket _ => websocket
  | Ends websocket => websocket
  end.

(** The four models. *)
Definition models (g : Globals)
  : option Model * option Model * option Model * option Model :=
  (model_asr g, model_asr_streaming g, model_vad g, model_punc g).

(** The four models as [load_models] builds them from the arguments. *)
Definition expected_models (args : Args)
  : option Model * option Model * option Model * option Model :=
  (Some {| model := asr_model args;
           model_revision := asr_model_revision args |},
   Some {| model := asr_model_online args;
           model_revision := asr_model_online_revision args |},
   Some {| model := vad_model args;
           model_revision := vad_model_revision args |},
   if String.eqb (punc_model args) "" then None
   else Some {| model := punc_model args;
                model_revision := punc_model_revision args |}).

(** The defaults of the argument parser (lines 21-28). *)
Definition defaults : Args :=
  {| asr_model :=
       "iic/speech_paraformer-large_asr_nat-zh-cn-16k-" ++
       "common-vocab8404-pytorch";
     asr_model_revision := "v2.0.4";
     asr_model_online :=
       "iic/speech_paraformer-large_asr_nat-zh-cn-16k-" ++
       "common-vocab8404-online";
     asr_model_online_revision := "v2.0.4";
     vad_model := "iic/speech_fsmn_vad_zh-cn-16k-common-pytorch";
     vad_model_revision := "v2.0.4";
     punc_model :=
       "iic/punc_ct-transformer_zh-cn-common-vad_realtime-vocab272727";
     punc_model_revision := "v2.0.4" |}.

(** A loading in which everything succeeds, and one in which the VAD
    model cannot be built. *)
Definition all_ok : Loading :=
  {| import_ok := true; asr_ok := true; asr_online_ok := true;
     vad_ok := true; punc_ok := true |}.

Definition vad_missing : Loading :=
  {| import_ok := true; asr_ok := true; asr_online_ok := true;
     vad_ok := false; punc_ok := true |}.

End Server.

(** Unfold every reading of a trace. *)
Ltac readings :=
  unfold offline_calls, online_calls, asr_engine_calls,
    streaming_engine_calls, vad_calls, sent_offline, sent_online,
    stop_flushes, vad_flushes in *.

(** Membership in a trace that computes. *)
Ltac member := vm_compute; auto 12.

Ltac break_in H :=
  match type of H with
  | context [match ?x with _ => _ end] => destruct x eqn:?
  | context [if ?x then _ else _] => destruct x eqn:?
  end.

Ltac in_cases H :=
  simpl in H; try contradiction;
  repeat (destruct H as [H | H]; try discriminate H; try contradiction).

(** [H : In ev l] against [F : Forall P l] when [P ev] fails. *)
Ltac clash H F :=
  let F' := fresh in
  pose proof F as F'; rewrite Forall_forall in F'; apply F' in H;
  simpl in H; try discriminate H;
  try (destruct H as [H | H]; discriminate H).

Ltac break_match :=
  match goal with
  | |- context [match ?x with _ => _ end] => destruct x eqn:?
  | |- context [if ?x then _ else _] => destruct x eqn:?
  end.

Section Stages.

Variable model_punc : bool.

Lemma offline_pass_is_final (e : Engines) (w : Websocket) (audio : bytes)
    (m : ResultMsg) :
  In (SendOffline m) (p_out (process_asr_offline model_punc e w audio)) ->
  r_is_final m =
    (if String.eqb (mode w) "offline" then true else is_speaking w).
Proof.
  intros H. unfold process_asr_offline in H.
  repeat break_in H; in_cases H; inversion H; reflexivity.
Qed.

Lemma online_pass_is_final (e : Engines) (w : Websocket) (audio : bytes)
    (m : ResultMsg) :
  In (SendOnline m) (p_out (process_asr_online e w audio)) ->
  r_is_final m = is_speaking w.
Proof.
  intros H. unfold process_asr_online in H.
  repeat break_in H; in_cases H; inversion H; reflexivity.
Qed.

(** The offline pass touches nothing but the punctuation cache. *)
Lemma process_asr_offline_ws (e : Engines) (w : Websocket) (audio : bytes) :
  let w' := p_ws (process_asr_offline model_punc e w audio) in
  w' = set_punc_cache w (punc_cache w').
Proof.
  unfold process_asr_offline. repeat break_match; destruct w; reflexivity.
Qed.

Lemma process_asr_offline_events (e : Engines) (w : Websocket) (audio : bytes) :
  let p := process_asr_offline model_punc e w audio in
  Forall (fun ev => offline_event ev = true)
    (p_out p ++ (if p_raised p then [Log ErrorOffline] else [])) /\
  offline_calls (p_out p ++ (if p_raised p then [Log ErrorOffline] else []))
    = [audio].
Proof.
  unfold process_asr_offline.
  repeat break_match; simpl; split; try reflexivity;
    repeat constructor.
Qed.

(** The online pass touches nothing but the streaming cache. *)
Lemma process_asr_online_ws (e : Engines) (w : Websocket) (audio : bytes) :
  let w' := p_ws (process_asr_online e w audio) in
  w' = set_online_cache w (online_cache w').
Proof.
  unfold process_asr_online. repeat break_match; destruct w; reflexivity.
Qed.

Lemma process_asr_online_events (e : Engines) (w : Websocket) (audio : bytes) :
  let p := process_asr_online e w audio in
  Forall (fun ev => online_event ev = true)
    (p_out p ++ (if p_raised p then [Log ErrorStreaming] else [])) /\
  online_calls (p_out p ++ (if p_raised p then [Log ErrorStreaming] else []))
    = [audio].
Proof.
  unfold process_asr_online.
  repeat break_match; simpl; split; try reflexivity;
    repeat constructor.
Qed.

Lemma offline_if_mode_ws (e : Engines) (w : Websocket) (fa : list bytes) :
  let w' := fst (offline_if_mode model_punc e w fa) in
  w' = set_punc_cache w (punc_cache w').
Proof.
  unfold offline_if_mode. break_match; simpl.
  - apply process_asr_offline_ws.
  - destruct w; reflexivity.
Qed.

Lemma offline_if_mode_events (e : Engines) (w : Websocket) (fa : list bytes) :
  let evs := snd (offline_if_mode model_punc e w fa) in
  Forall (fun ev => offline_event ev = true) evs /\
  offline_calls evs =
    (if mode_in (mode w) ["2pass"; "offline"] then [join fa] else []).
Proof.
  unfold offline_if_mode. break_match; simpl.
  - apply process_asr_offline_events.
  - split; constructor.
Qed.

Lemma online_pass_state (e : Engines) (s : Session) :
  let s' := fst (online_pass e s) in
  ws s' = set_online_cache (ws s) (online_cache (ws s')) /\
  loc s' = set_frames_asr_online (loc s) [].
Proof.
  unfold online_pass. destruct (mode_in _ _); simpl; split; try reflexivity.
  - apply process_asr_online_ws.
  - destruct (ws s); reflexivity.
Qed.

Lemma online_pass_events (e : Engines) (s : Session) :
  let evs := snd (online_pass e s) in
  Forall (fun ev => online_event ev = true) evs /\
  online_calls evs =
    (if mode_in (mode (ws s)) ["2pass"; "online"]
     then [join (frames_asr_online (loc s))] else []).
Proof.
  unfold online_pass. destruct (mode_in _ _); simpl.
  - apply process_asr_online_events.
  - split; constructor.
Qed.

Lemma online_pass_is_final_flag (e : Engines) (s : Session) (m : ResultMsg) :
  In (SendOnline m) (snd (online_pass e s)) ->
  r_is_final m = is_speaking (ws s).
Proof.
  unfold online_pass.
  destruct (mode_in _ _); simpl; intros H; [| contradiction].
  apply in_app_or in H. destruct H as [H | H].
  - eapply online_pass_is_final; eauto.
  - destruct (p_raised _); in_cases H.
Qed.

Lemma vad_stage_events (e : Engines) (s : Session) (b : bytes) :
  Forall (fun ev => vad_event ev = true) (snd (vad_stage e s b)).
Proof.
  unfold vad_stage. destruct (process_vad e (ws s) b) as [w [[a c] |]];
    [| destruct (speech_start_i (loc s))]; simpl; repeat constructor.
Qed.

Lemma vad_stage_state (e : Engines) (s s' : Session) (b : bytes) :
  fst (vad_stage e s b) = Some s' ->
  ws s' = set_vad_cache (ws s) (cache_after (vad e)) /\
  frames (loc s') = frames (loc s) /\
  frames_asr (loc s') = frames_asr (loc s) /\
  frames_asr_online (loc s') = frames_asr_online (loc s).
Proof.
  unfold vad_stage, process_vad.
  destruct (value (vad e)) as [segs |].
  - destruct segs as [| [a c] [| ? ?]]; simpl; intros H; inversion H;
      subst; simpl; auto.
  - simpl. destruct (speech_start_i (loc s)); simpl; intros H;
      inversion H; subst; simpl; auto.
Qed.

(** Both flush blocks end with the same three assignments; the rest
    differs. *)
Lemma flush_on_stop_state (e : Engines) (s : Session) :
  let s' := fst (flush_on_stop model_punc e s) in
  loc s' = {| speech_start := false;
              speech_start_i := speech_start_i (loc s);
              speech_end_i := speech_end_i (loc s);
              frames := []; frames_asr := []; frames_asr_online := [] |} /\
  ws s' = set_vad_cache
            (set_vad_pre_idx
               (set_online_cache
                  (fst (offline_if_mode model_punc e (ws s)
                          (frames_asr (loc s)))) empty_cache) 0)
            empty_cache.
Proof.
  unfold flush_on_stop. destruct (offline_if_mode _ _ _ _); split; reflexivity.
Qed.

Lemma flush_on_stop_events (e : Engines) (s : Session) :
  snd (flush_on_stop model_punc e s) =
    Log (OfflineOnStop (len (frames_asr (loc s)))) ::
    snd (offline_if_mode model_punc e (ws s) (frames_asr (loc s))).
Proof.
  unfold flush_on_stop. destruct (offline_if_mode _ _ _ _); reflexivity.
Qed.

Lemma flush_on_vad_end_state (e : Engines) (s : Session) :
  let s' := fst (flush_on_vad_end model_punc e s) in
  loc s' = {| speech_start := false;
              speech_start_i := speech_start_i (loc s);
              speech_end_i := speech_end_i (loc s);
              frames := last20 (frames (loc s));
              frames_asr := []; frames_asr_online := [] |} /\
  ws s' = set_online_cache
            (fst (offline_if_mode model_punc e (ws s) (frames_asr (loc s))))
            empty_cache.
Proof.
  unfold flush_on_vad_end.
  destruct (offline_if_mode _ _ _ _); split; reflexivity.
Qed.

Lemma flush_on_vad_end_events (e : Engines) (s : Session) :
  snd (flush_on_vad_end model_punc e s) =
    Log (OfflineOnVadEnd (len (frames_asr (loc s)))) ::
    snd (offline_if_mode model_punc e (ws s) (frames_asr (loc s))).
Proof.
  unfold flush_on_vad_end.
  destruct (offline_if_mode _ _ _ _); reflexivity.
Qed.

Lemma last20_length {A : Type} (l : list A) :
  (List.length (last20 l) <= 20)%nat.
Proof. unfold last20. rewrite length_skipn. lia. Qed.

End Stages.

Section Shapes.

Variable model_punc : bool.

(** Whatever the VAD engine answers, [process_vad] leaves the connection
    object with the cache the engine wrote. *)
Lemma process_vad_ws (e : Engines) (w : Websocket) (audio_in : bytes) :
  fst (process_vad e w audio_in) = set_vad_cache w (cache_after (vad e)).
Proof.
  unfold process_vad.
  destruct (value (vad e)) as [[| [a c] [| x l]] |]; reflexivity.
Qed.

(** [handle_audio] with its intermediate pairs named by projections. *)
Lemma handle_audio_eq (e : Engines) (s : Session) (b : bytes) :
  handle_audio model_punc e s b =
  match online_trigger (accumulate s b) with
  | None =>
      {| st := accumulate s b; out := [Log ExceptionLine];
         status := Ended |}
  | Some fire =>
      let p2 := online_stage e (accumulate s b) fire in
      let v := vad_stage e (fst p2) b in
      match fst v with
      | None =>
          {| st := {| ws := set_vad_cache (ws (fst p2)) (cache_after (vad e));
                      loc := loc (fst p2) |};
             out := snd p2 ++ snd v ++ [Log ExceptionLine];
             status := Ended |}
      | Some s3 =>
          let p4 := offline_stage model_punc e s3 in
          {| st := fst p4; out := snd p2 ++ snd v ++ snd p4;
             status := Running |}
      end
  end.
Proof.
  unfold handle_audio. simpl.
  destruct (online_trigger (accumulate s b)) as [fire |]; [| reflexivity].
  destruct (online_stage e (accumulate s b) fire) as [s2 evs2]; simpl.
  destruct (vad_stage e s2 b) as [[s3 |] evs3]; simpl;
    [| rewrite process_vad_ws; reflexivity].
  destruct (offline_stage model_punc e s3); reflexivity.
Qed.

Lemma online_stage_events (e : Engines) (s : Session) (fire : bool) :
  Forall (fun ev => online_event ev = true) (snd (online_stage e s fire)).
Proof.
  unfold online_stage. destruct fire; [apply online_pass_events | constructor].
Qed.

Lemma on_is_speaking_events (e : Engines) (s : Session) (key : option bool) :
  Forall (fun ev => offline_event ev = true \/
                    ev = Log (OfflineOnStop (len (frames_asr (loc s)))))
    (snd (on_is_speaking model_punc e s key)).
Proof.
  unfold on_is_speaking. destruct key as [v |]; [| constructor].
  break_match; [| constructor].
  rewrite flush_on_stop_events. constructor; [right; reflexivity |].
  simpl. eapply Forall_impl; [| apply offline_if_mode_events].
  intros ev H; left; exact H.
Qed.

Lemma offline_stage_events (e : Engines) (s : Session) :
  Forall (fun ev => offline_event ev = true \/
                    ev = Log (OfflineOnVadEnd (len (frames_asr (loc s)))))
    (snd (offline_stage model_punc e s)).
Proof.
  unfold offline_stage. break_match; [| constructor].
  rewrite flush_on_vad_end_events. constructor; [right; reflexivity |].
  eapply Forall_impl; [| apply offline_if_mode_events].
  intros ev H; left; exact H.
Qed.

(** The flush line of the stop path is printed only by [flush_on_stop]. *)
Lemma on_is_speaking_flushed (e : Engines) (s : Session) (key : option bool)
    (n : Z) :
  In (Log (OfflineOnStop n)) (snd (on_is_speaking model_punc e s key)) ->
  key = Some false /\ frames_asr (loc s) <> [] /\
  on_is_speaking model_punc e s key =
    flush_on_stop model_punc e
      {| ws := set_online_is_final (set_is_speaking (ws s) false) true;
         loc := loc s |}.
Proof.
  unfold on_is_speaking. destruct key as [[|] |]; simpl; try contradiction.
  destruct (frames_asr (loc s)) eqn:E; simpl; try contradiction.
  intros _. repeat split; congruence.
Qed.

Lemma offline_stage_flushed (e : Engines) (s : Session) (n : Z) :
  In (Log (OfflineOnVadEnd n)) (snd (offline_stage model_punc e s)) ->
  speech_end_i (loc s) <> -1 /\
  offline_stage model_punc e s = flush_on_vad_end model_punc e s.
Proof.
  unfold offline_stage.
  destruct (speech_end_i (loc s) =? -1) eqn:E; simpl; try contradiction.
  intros _. split; [| reflexivity]. apply Z.eqb_neq. exact E.
Qed.

End Shapes.

Section Flushes.

Variable model_punc : bool.

Lemma handle_json_eq (e : Engines) (s : Session) (m : ControlMsg) :
  is_ping m = false ->
  let p := on_is_speaking model_punc e s (m_is_speaking m) in
  let r := handle_json model_punc e s m in
  loc (st r) = loc (fst p) /\
  (out r = snd p /\ status r = Running /\ m_chunk_size m <> Some ChunkBad \/
   out r = snd p ++ [Log ExceptionLine] /\ status r = Ended /\
   m_chunk_size m = Some ChunkBad).
Proof.
  unfold handle_json. simpl. intros ->.
  destruct (on_is_speaking model_punc e s (m_is_speaking m)) as [s1 evs].
  simpl.
  destruct (m_chunk_size m) as [[l |] |]; simpl; split; auto;
    left; repeat split; congruence.
Qed.

(** The keys handled after ["is_speaking"] leave these attributes alone. *)
Lemma handle_json_ws (e : Engines) (s : Session) (m : ControlMsg) :
  is_ping m = false ->
  let p := on_is_speaking model_punc e s (m_is_speaking m) in
  let w := ws (st (handle_json model_punc e s m)) in
  is_speaking w = is_speaking (ws (fst p)) /\
  online_is_final w = online_is_final (ws (fst p)) /\
  online_cache w = online_cache (ws (fst p)) /\
  vad_cache w = vad_cache (ws (fst p)) /\
  vad_pre_idx w = vad_pre_idx (ws (fst p)) /\
  chunk_interval w = match m_chunk_interval m with
                     | Some n => n
                     | None => chunk_interval (ws (fst p))
                     end.
Proof.
  unfold handle_json. simpl. intros ->.
  destruct (on_is_speaking model_punc e s (m_is_speaking m)) as [s1 evs].
  simpl.
  destruct (m_chunk_interval m), (m_wav_name m),
    (m_chunk_size m) as [[l |] |], (m_hotwords m), (m_mode m);
    simpl; repeat split; reflexivity.
Qed.

(** A step that prints the stop path's flush line is a non-ping control
    message with [is_speaking] false, received with [frames_asr] not empty,
    and its final locals are those [flush_on_stop] leaves. *)
Lemma step_stop_flush (s : Session) (i : Message * Engines) (n : Z) :
  In (Log (OfflineOnStop n)) (out (step model_punc s i)) ->
  exists m,
    fst i = Str (Dict m) /\ is_ping m = false /\
    m_is_speaking m = Some false /\ frames_asr (loc s) <> [] /\
    on_is_speaking model_punc (snd i) s (m_is_speaking m) =
      flush_on_stop model_punc (snd i)
        {| ws := set_online_is_final (set_is_speaking (ws s) false) true;
           loc := loc s |}.
Proof.
  destruct i as [[[| | | m] | b] e]; unfold step; simpl; intros H.
  - in_cases H.
  - in_cases H.
  - in_cases H.
  - exists m. destruct (is_ping m) eqn:P.
    + unfold handle_json in H. rewrite P in H. in_cases H.
    + destruct (handle_json_eq e s m P) as [_ C].
      assert (In (Log (OfflineOnStop n))
                (snd (on_is_speaking model_punc e s (m_is_speaking m)))) as K.
      { destruct C as [(E & _) | (E & _)]; rewrite E in H; auto.
        apply in_app_or in H. destruct H as [H | H]; auto. in_cases H. }
      apply on_is_speaking_flushed in K. destruct K as (K1 & K2 & K3).
      repeat split; auto.
  - rewrite handle_audio_eq in H.
    destruct (online_trigger (accumulate s b)) as [fire |]; [| in_cases H].
    cbv zeta in H.
    set (p2 := online_stage e (accumulate s b) fire) in *.
    destruct (fst (vad_stage e (fst p2) b)) as [s3 |]; simpl in H;
      (apply in_app_or in H; destruct H as [H | H];
       [clash H (online_stage_events e (accumulate s b) fire) |];
       apply in_app_or in H; destruct H as [H | H];
       [clash H (vad_stage_events e (fst p2) b) |]).
    + clash H (offline_stage_events model_punc e s3).
    + in_cases H.
Qed.

(** A step that prints the VAD path's flush line is a binary message whose
    trigger check and VAD stage went through, with [speech_end_i] set, and
    its result is assembled from [flush_on_vad_end]. *)
Lemma step_vad_flush (s : Session) (i : Message * Engines) (n : Z) :
  In (Log (OfflineOnVadEnd n)) (out (step model_punc s i)) ->
  exists b fire s3,
    fst i = Bytes b /\
    online_trigger (accumulate s b) = Some fire /\
    let p2 := online_stage (snd i) (accumulate s b) fire in
    fst (vad_stage (snd i) (fst p2) b) = Some s3 /\
    speech_end_i (loc s3) <> -1 /\
    step model_punc s i =
      {| st := fst (flush_on_vad_end model_punc (snd i) s3);
         out := snd p2 ++ snd (vad_stage (snd i) (fst p2) b) ++
                snd (flush_on_vad_end model_punc (snd i) s3);
         status := Running |}.
Proof.
  destruct i as [[[| | | m] | b] e]; unfold step; simpl; intros H.
  - in_cases H.
  - in_cases H.
  - in_cases H.
  - exfalso. destruct (is_ping m) eqn:P.
    + unfold handle_json in H. rewrite P in H. in_cases H.
    + destruct (handle_json_eq e s m P) as [_ C].
      assert (In (Log (OfflineOnVadEnd n))
                (snd (on_is_speaking model_punc e s (m_is_speaking m)))) as K.
      { destruct C as [(E & _) | (E & _)]; rewrite E in H; auto.
        apply in_app_or in H. destruct H as [H | H]; auto. in_cases H. }
      clash K (on_is_speaking_events model_punc e s (m_is_speaking m)).
  - rewrite handle_audio_eq in *.
    destruct (online_trigger (accumulate s b)) as [fire |] eqn:T;
      [| in_cases H].
    exists b, fire. cbv zeta in *.
    set (p2 := online_stage e (accumulate s b) fire) in *.
    destruct (fst (vad_stage e (fst p2) b)) as [s3 |]; simpl in H;
      (apply in_app_or in H; destruct H as [H | H];
       [clash H (online_stage_events e (accumulate s b) fire) |];
       apply in_app_or in H; destruct H as [H | H];
       [clash H (vad_stage_events e (fst p2) b) |]).
    + exists s3. apply offline_stage_flushed in H. destruct H as [H1 H2].
      rewrite H2. repeat split; auto.
    + in_cases H.
Qed.

(** Whenever a flush block has run (its log line is in the trace of the
    step), whether entered from a client stop or from a VAD speech end, the
    step leaves [frames_asr] and [frames_asr_online] empty and at most 20
    entries in [frames]. *)
Lemma flushed_step_queues (s : Session) (i : Message * Engines) (n : Z) :
  let r := step model_punc s i in
  In (Log (OfflineOnStop n)) (out r) \/
  In (Log (OfflineOnVadEnd n)) (out r) ->
  frames_asr (loc (st r)) = [] /\
  frames_asr_online (loc (st r)) = [] /\
  (List.length (frames (loc (st r))) <= 20)%nat.
Proof.
  intros r [H | H]; subst r.
  - apply step_stop_flush in H.
    destruct H as (m & E & P & K & _ & F).
    destruct i as [msg e]; simpl in *; subst msg. unfold step; simpl.
    destruct (handle_json_eq e s m P) as [-> _]. rewrite F.
    destruct (flush_on_stop_state model_punc e
                {| ws := set_online_is_final (set_is_speaking (ws s) false)
                           true;
                   loc := loc s |}) as [-> _].
    simpl. repeat split; auto. lia.
  - apply step_vad_flush in H.
    destruct H as (b & fire & s3 & _ & _ & _ & _ & ->). simpl.
    destruct (flush_on_vad_end_state model_punc (snd i) s3) as [-> _].
    simpl. repeat split; auto. apply last20_length.
Qed.

End Flushes.

Section Settings.

Variable model_punc : bool.

Lemma offline_if_mode_settings (e : Engines) (w : Websocket)
    (fa : list bytes) :
  settings (fst (offline_if_mode model_punc e w fa)) = settings w.
Proof. rewrite offline_if_mode_ws. reflexivity. Qed.

Lemma online_stage_settings (e : Engines) (s : Session) (fire : bool) :
  settings (ws (fst (online_stage e s fire))) = settings (ws s).
Proof.
  unfold online_stage. destruct fire; [| reflexivity].
  destruct (online_pass_state e s) as [-> _]. reflexivity.
Qed.

Lemma online_stage_loc (e : Engines) (s : Session) (fire : bool) :
  loc (fst (online_stage e s fire)) =
    if fire then set_frames_asr_online (loc s) [] else loc s.
Proof.
  unfold online_stage. destruct fire; [| reflexivity].
  apply online_pass_state.
Qed.

Lemma vad_stage_settings (e : Engines) (s s' : Session) (b : bytes) :
  fst (vad_stage e s b) = Some s' -> settings (ws s') = settings (ws s).
Proof.
  intros H. apply vad_stage_state in H. destruct H as [-> _]. reflexivity.
Qed.

Lemma flush_on_vad_end_settings (e : Engines) (s : Session) :
  settings (ws (fst (flush_on_vad_end model_punc e s))) = settings (ws s).
Proof.
  destruct (flush_on_vad_end_state model_punc e s) as [_ ->].
  rewrite <- (offline_if_mode_settings e (ws s) (frames_asr (loc s))).
  reflexivity.
Qed.

Lemma offline_if_mode_off (e : Engines) (w : Websocket) (fa : list bytes) :
  mode_in (mode w) ["2pass"; "offline"] = false ->
  offline_if_mode model_punc e w fa = (w, []).
Proof. unfold offline_if_mode. intros ->. reflexivity. Qed.

(** What the VAD stage does when the engine returns a single segment. *)
Lemma vad_stage_segment (e : Engines) (s : Session) (b : bytes) (a c : Z) :
  value (vad e) = Some [(a, c)] ->
  exists s3, fst (vad_stage e s b) = Some s3 /\ speech_end_i (loc s3) = c.
Proof.
  unfold vad_stage, process_vad. intros ->.
  destruct (Z.eqb_spec a (-1)), (Z.eqb_spec c (-1)); subst; simpl;
    eexists; split; reflexivity.
Qed.

Lemma online_events_not_offline (evs : list Event) :
  Forall (fun ev => online_event ev = true) evs ->
  offline_calls evs = [] /\ asr_engine_calls evs = [].
Proof.
  induction 1 as [| ev evs H _ [IH1 IH2]]; [split; reflexivity |].
  destruct ev; try discriminate H; simpl; auto.
Qed.

Lemma vad_events_not_offline (evs : list Event) :
  Forall (fun ev => vad_event ev = true) evs ->
  offline_calls evs = [] /\ asr_engine_calls evs = [] /\
  online_calls evs = [].
Proof.
  induction 1 as [| ev evs H _ (IH1 & IH2 & IH3)];
    [repeat split; reflexivity |].
  destruct ev; try discriminate H; simpl; auto.
Qed.

End Settings.

Section Resets.

Variable model_punc : bool.

Lemma online_trigger_accumulate (s : Session) (b : bytes) :
  chunk_interval (ws s) <> 0 ->
  online_trigger (accumulate s b) = Some (fires s b).
Proof.
  intros N. unfold online_trigger, fires. simpl.
  destruct (Z.eqb_spec (chunk_interval (ws s)) 0); [contradiction |].
  reflexivity.
Qed.

(** The shape of a step on a frame where VAD reports a speech end. *)
Lemma step_vad_end (s : Session) (b : bytes) (e : Engines) (a c : Z) :
  chunk_interval (ws s) <> 0 ->
  value (vad e) = Some [(a, c)] ->
  c <> -1 ->
  exists s3,
    let p2 := online_stage e (accumulate s b) (fires s b) in
    fst (vad_stage e (fst p2) b) = Some s3 /\
    step model_punc s (Bytes b, e) =
      {| st := fst (flush_on_vad_end model_punc e s3);
         out := snd p2 ++ snd (vad_stage e (fst p2) b) ++
                snd (flush_on_vad_end model_punc e s3);
         status := Running |}.
Proof.
  intros N V C. unfold step; simpl. rewrite handle_audio_eq.
  rewrite online_trigger_accumulate by exact N. cbv zeta.
  set (p2 := online_stage e (accumulate s b) (fires s b)).
  destruct (vad_stage_segment e (fst p2) b a c V) as (s3 & V3 & E3).
  exists s3. rewrite V3. split; [reflexivity |]. unfold offline_stage.
  destruct (Z.eqb_spec (speech_end_i (loc s3)) (-1)) as [|_]; [congruence |].
  reflexivity.
Qed.

(** C9.  In every mode, an audio frame on which VAD reports a speech end
    (one segment whose end is not -1) clears [frames_asr] and
    [frames_asr_online], resets the streaming cache to [{}] and keeps the
    last 20 entries of [frames]; in a mode other than ["2pass"] and
    ["offline"] this happens with no offline pass. *)
Theorem vad_end_resets_in_every_mode (s : Session) (b : bytes) (e : Engines)
    (a c : Z) :
  chunk_interval (ws s) <> 0 ->
  value (vad e) = Some [(a, c)] ->
  c <> -1 ->
  let r := step model_punc s (Bytes b, e) in
  status r = Running /\
  frames_asr (loc (st r)) = [] /\
  frames_asr_online (loc (st r)) = [] /\
  online_cache (ws (st r)) = empty_cache /\
  frames (loc (st r)) = last20 (frames (loc s) ++ [b]) /\
  (mode_in (mode (ws s)) ["2pass"; "offline"] = false ->
   offline_calls (out r) = [] /\ asr_engine_calls (out r) = []).
Proof.
  intros N V C r.
  destruct (step_vad_end s b e a c N V C)
    as (s3 & V3 & E). subst r. rewrite E. clear E. simpl.
  set (fire := fires s b) in *.
  set (p2 := online_stage e (accumulate s b) fire) in *.
  destruct (flush_on_vad_end_state model_punc e s3) as [-> ->]. simpl.
  pose proof (vad_stage_state e (fst p2) s3 b V3) as (_ & F & _ & _).
  assert (mode (ws s3) = mode (ws s)) as M.
  { assert (settings (ws s3) = settings (ws s)) as S.
    { rewrite (vad_stage_settings e (fst p2) s3 b V3). subst p2.
      rewrite online_stage_settings. reflexivity. }
    inversion S. congruence. }
  pose proof (online_events_not_offline _
                (online_stage_events e (accumulate s b) fire)) as [O1 O2].
  pose proof (vad_events_not_offline _ (vad_stage_events e (fst p2) b))
    as (V1 & V2 & _).
  fold p2 in O1, O2.
  repeat split; auto.
  - rewrite F. subst p2. rewrite online_stage_loc.
    destruct fire; reflexivity.
  - unfold offline_calls in *.
    rewrite !flat_map_app, flush_on_vad_end_events, O1, V1.
    rewrite offline_if_mode_off; [reflexivity | rewrite M; assumption].
  - unfold asr_engine_calls in *.
    rewrite !flat_map_app, flush_on_vad_end_events, O2, V2.
    rewrite offline_if_mode_off; [reflexivity | rewrite M; assumption].
Qed.

End Resets.

Section Origins.

Variable model_punc : bool.

(** Where an event of the offline pass can come from: one of the two
    flush blocks, which then shapes the whole step. *)
Lemma step_offline_event (s : Session) (i : Message * Engines) (ev : Event) :
  offline_event ev = true ->
  In ev (out (step model_punc s i)) ->
  (exists m,
     fst i = Str (Dict m) /\ is_ping m = false /\
     m_is_speaking m = Some false /\
     let s1 := {| ws := set_online_is_final (set_is_speaking (ws s) false)
                          true;
                  loc := loc s |} in
     on_is_speaking model_punc (snd i) s (m_is_speaking m) =
       flush_on_stop model_punc (snd i) s1 /\
     In ev (snd (offline_if_mode model_punc (snd i) (ws s1)
                   (frames_asr (loc s))))) \/
  (exists b s3,
     fst i = Bytes b /\
     let p2 := online_stage (snd i) (accumulate s b) (fires s b) in
     fst (vad_stage (snd i) (fst p2) b) = Some s3 /\
     step model_punc s i =
       {| st := fst (flush_on_vad_end model_punc (snd i) s3);
          out := snd p2 ++ snd (vad_stage (snd i) (fst p2) b) ++
                 snd (flush_on_vad_end model_punc (snd i) s3);
          status := Running |} /\
     In ev (snd (offline_if_mode model_punc (snd i) (ws s3)
                   (frames_asr (loc s3))))).
Proof.
  intros O H. destruct i as [[[| | | m] | b] e]; unfold step in *; simpl in *.
  - in_cases H; subst ev; discriminate O.
  - in_cases H; subst ev; discriminate O.
  - in_cases H; subst ev; discriminate O.
  - left. exists m. destruct (is_ping m) eqn:P.
    + unfold handle_json in H. rewrite P in H. in_cases H.
      subst ev; discriminate O.
    + destruct (handle_json_eq model_punc e s m P) as [_ C].
      assert (In ev (snd (on_is_speaking model_punc e s (m_is_speaking m))))
        as K.
      { destruct C as [(E & _) | (E & _)]; rewrite E in H; auto.
        apply in_app_or in H. destruct H as [H | H]; auto.
        in_cases H. subst ev; discriminate O. }
      clear H C. unfold on_is_speaking in *.
      destruct (m_is_speaking m) as [[|] |]; simpl in K; try contradiction.
      destruct (frames_asr (loc s)) eqn:F; simpl in K; try contradiction.
      rewrite flush_on_stop_events in K. simpl in K.
      destruct K as [K | K]; [subst ev; discriminate O |].
      repeat split; auto. rewrite <- F. exact K.
  - right. exists b. rewrite handle_audio_eq in *.
    unfold online_trigger in *. simpl in *. fold (fires s b) in *.
    destruct (chunk_interval (ws s) =? 0);
      [in_cases H; subst ev; discriminate O |].
    cbv zeta in *.
    set (p2 := online_stage e (accumulate s b) (fires s b)) in *.
    destruct (fst (vad_stage e (fst p2) b)) as [s3 |]; simpl in H;
      (apply in_app_or in H; destruct H as [H | H];
       [clash H (online_stage_events e (accumulate s b) (fires s b));
        destruct ev as [| | | | | | | | | []]; discriminate |];
       apply in_app_or in H; destruct H as [H | H];
       [clash H (vad_stage_events e (fst p2) b);
        destruct ev as [| | | | | | | | | []]; discriminate |]).
    + exists s3. unfold offline_stage in *.
      destruct (speech_end_i (loc s3) =? -1); simpl in H; try contradiction.
      rewrite flush_on_vad_end_events in H. simpl in H.
      destruct H as [H | H]; [subst ev; discriminate O |].
      repeat split; auto.
    + in_cases H. subst ev; discriminate O.
Qed.

(** An event of the online pass comes from the online stage of a binary
    message. *)
Lemma step_online_event (s : Session) (i : Message * Engines) (ev : Event) :
  online_event ev = true ->
  In ev (out (step model_punc s i)) ->
  exists b fire,
    fst i = Bytes b /\ In ev (snd (online_stage (snd i) (accumulate s b) fire)).
Proof.
  intros O H. destruct i as [[[| | | m] | b] e]; unfold step in *; simpl in *.
  - in_cases H; subst ev; discriminate O.
  - in_cases H; subst ev; discriminate O.
  - in_cases H; subst ev; discriminate O.
  - exfalso. destruct (is_ping m) eqn:P.
    + unfold handle_json in H. rewrite P in H. in_cases H.
      subst ev; discriminate O.
    + destruct (handle_json_eq model_punc e s m P) as [_ C].
      assert (In ev (snd (on_is_speaking model_punc e s (m_is_speaking m))))
        as K.
      { destruct C as [(E & _) | (E & _)]; rewrite E in H; auto.
        apply in_app_or in H. destruct H as [H | H]; auto.
        in_cases H. subst ev; discriminate O. }
      clash K (on_is_speaking_events model_punc e s (m_is_speaking m)).
      destruct K as [K | K].
      * destruct ev as [| | | | | | | | | []]; discriminate.
      * subst ev; discriminate O.
  - exists b. rewrite handle_audio_eq in *.
    destruct (online_trigger (accumulate s b)) as [fire |];
      [| in_cases H; subst ev; discriminate O].
    exists fire. split; [reflexivity |]. cbv zeta in *.
    set (p2 := online_stage e (accumulate s b) fire) in *.
    destruct (fst (vad_stage e (fst p2) b)) as [s3 |]; simpl in H;
      (apply in_app_or in H; destruct H as [H | H]; [exact H |];
       exfalso; apply in_app_or in H; destruct H as [H | H];
       [clash H (vad_stage_events e (fst p2) b);
        destruct ev as [| | | | | | | | | []]; discriminate |]).
    + clash H (offline_stage_events model_punc e s3).
      destruct H as [H | H].
      * destruct ev as [| | | | | | | | | []]; discriminate.
      * subst ev; discriminate O.
    + in_cases H. subst ev; discriminate O.
Qed.

End Origins.

Section FailedFlush.

Variable model_punc : bool.

Lemma offline_if_mode_failed (e : Engines) (w : Websocket)
    (fa : list bytes) :
  asr e = None ->
  let evs := snd (offline_if_mode model_punc e w fa) in
  (forall m, ~ In (SendOffline m) evs) /\
  (forall a, In (GenerateAsr a) evs -> In (Log ErrorOffline) evs).
Proof.
  unfold offline_if_mode, process_asr_offline. intros ->.
  destruct (mode_in _ _), (len (join fa) =? 0); simpl; split;
    intros x H; in_cases H; auto.
Qed.

(** C1, amended.  When the offline engine call of a flush raises, the
    exception is logged and swallowed: no offline result is sent, a control
    message without a bad [chunk_size] (and every binary message) leaves
    the session running, and the flush goes on to empty [frames_asr] and
    [frames_asr_online] as after a successful call. *)
Theorem failed_flush_clears_queues (s : Session) (i : Message * Engines)
    (a : bytes) :
  let r := step model_punc s i in
  asr (snd i) = None ->
  In (GenerateAsr a) (out r) ->
  chunk_ok i ->
  status r = Running /\
  (forall m, ~ In (SendOffline m) (out r)) /\
  In (Log ErrorOffline) (out r) /\
  frames_asr (loc (st r)) = [] /\
  frames_asr_online (loc (st r)) = [].
Proof.
  intros r A G W. subst r.
  assert (forall m, ~ In (SendOffline m) (out (step model_punc s i))) as NS.
  { intros m H. apply step_offline_event in H; [| reflexivity].
    destruct H as [(m0 & _ & _ & _ & _ & H) | (b & s3 & _ & _ & _ & H)];
      eapply offline_if_mode_failed; eauto. }
  pose proof G as G'.
  apply step_offline_event in G; [| reflexivity].
  destruct G as [(m & E & P & K & F & H) | (b & s3 & E & V & S & H)].
  - apply offline_if_mode_failed in H; [| exact A].
    destruct i as [msg e]; simpl in *; subst msg.
    unfold chunk_ok in W; simpl in W. unfold step in *; simpl in *.
    destruct (handle_json_eq model_punc e s m P) as [L C].
    rewrite L, F.
    destruct (flush_on_stop_state model_punc e
                {| ws := set_online_is_final (set_is_speaking (ws s) false)
                           true;
                   loc := loc s |}) as [-> _].
    destruct C as [(O & R & _) | (_ & _ & B)]; [| contradiction].
    repeat split; auto.
    rewrite O, F, flush_on_stop_events. right. exact H.
  - apply offline_if_mode_failed in H; [| exact A].
    rewrite S in *. simpl in *.
    destruct (flush_on_vad_end_state model_punc (snd i) s3) as [-> _].
    repeat split; auto.
    rewrite flush_on_vad_end_events.
    apply in_or_app; right. apply in_or_app; right. right. exact H.
Qed.

End FailedFlush.

Section FlushPaths.

Variable model_punc : bool.

Lemma settings_inv (w w' : Websocket) :
  settings w' = settings w ->
  mode w' = mode w /\ is_speaking w' = is_speaking w /\
  chunk_interval w' = chunk_interval w /\ wav_name w' = wav_name w.
Proof. unfold settings. intros H. injection H. auto. Qed.

Lemma offline_if_mode_caches (e : Engines) (w : Websocket)
    (fa : list bytes) :
  let w' := fst (offline_if_mode model_punc e w fa) in
  vad_cache w' = vad_cache w /\ vad_pre_idx w' = vad_pre_idx w /\
  online_cache w' = online_cache w /\ online_is_final w' = online_is_final w.
Proof. rewrite offline_if_mode_ws. repeat split; reflexivity. Qed.

Lemma online_stage_caches (e : Engines) (s : Session) (fire : bool) :
  let w' := ws (fst (online_stage e s fire)) in
  vad_cache w' = vad_cache (ws s) /\ vad_pre_idx w' = vad_pre_idx (ws s) /\
  online_is_final w' = online_is_final (ws s).
Proof.
  unfold online_stage. destruct fire; [| repeat split; reflexivity].
  destruct (online_pass_state e s) as [-> _]. repeat split; reflexivity.
Qed.

(** C6, amended.  Both flush paths empty [frames_asr] and
    [frames_asr_online], reset the streaming cache to [{}] and set
    [speech_start] to false.  Only the client-stop path also resets the VAD
    cache, the frame history [frames] and [vad_pre_idx]; the VAD path keeps
    the VAD cache as the engine left it, keeps the last 20 frames and keeps
    the duration counter. *)
Theorem flush_paths_reset (s : Session) (i : Message * Engines) (n : Z) :
  let r := step model_punc s i in
  (In (Log (OfflineOnStop n)) (out r) ->
   frames_asr (loc (st r)) = [] /\
   frames_asr_online (loc (st r)) = [] /\
   online_cache (ws (st r)) = empty_cache /\
   speech_start (loc (st r)) = false /\
   vad_cache (ws (st r)) = empty_cache /\
   frames (loc (st r)) = [] /\
   vad_pre_idx (ws (st r)) = 0) /\
  (In (Log (OfflineOnVadEnd n)) (out r) ->
   frames_asr (loc (st r)) = [] /\
   frames_asr_online (loc (st r)) = [] /\
   online_cache (ws (st r)) = empty_cache /\
   speech_start (loc (st r)) = false /\
   vad_cache (ws (st r)) = cache_after (vad (snd i)) /\
   exists b,
     fst i = Bytes b /\
     frames (loc (st r)) = last20 (frames (loc s) ++ [b]) /\
     vad_pre_idx (ws (st r)) = vad_pre_idx (ws s) + len b / 32).
Proof.
  intros r. subst r. split; intros H.
  - apply step_stop_flush in H.
    destruct H as (m & E & P & K & _ & F).
    destruct i as [msg e]; simpl in *; subst msg. unfold step; simpl.
    destruct (handle_json_eq model_punc e s m P) as [L _].
    destruct (handle_json_ws model_punc e s m P)
      as (_ & _ & W1 & W2 & W3 & _).
    rewrite L, W1, W2, W3, F.
    destruct (flush_on_stop_state model_punc e
                {| ws := set_online_is_final (set_is_speaking (ws s) false)
                           true;
                   loc := loc s |}) as [-> ->].
    simpl. repeat split; reflexivity.
  - apply step_vad_flush in H.
    destruct H as (b & fire & s3 & E & _ & V & _ & ->). simpl.
    set (p2 := online_stage (snd i) (accumulate s b) fire) in *.
    destruct (flush_on_vad_end_state model_punc (snd i) s3) as [-> ->].
    simpl.
    destruct (offline_if_mode_caches (snd i) (ws s3) (frames_asr (loc s3)))
      as (C1 & C2 & _).
    destruct (vad_stage_state (snd i) (fst p2) s3 b V) as (W & F & _ & _).
    destruct (online_stage_caches (snd i) (accumulate s b) fire)
      as (_ & D2 & _).
    repeat split; auto.
    + rewrite C1, W. reflexivity.
    + exists b. repeat split; auto.
      * rewrite F. subst p2. rewrite online_stage_loc.
        destruct fire; reflexivity.
      * rewrite C2, W. simpl. fold p2 in D2. rewrite D2. reflexivity.
Qed.

(** C3.  An offline result carries [is_final = true] in mode ["offline"]
    and the session's [is_speaking] in mode ["2pass"]; an online result
    always carries the session's [is_speaking].  This holds of the two
    passes, for the connection object they are called with, and of every
    message a step of the receive loop sends, for the value of
    [is_speaking] the step leaves (a control message that flushes has
    already stored its own [is_speaking] when the result is built). *)
Theorem result_is_final_flag :
  (forall e w audio m,
     In (SendOffline m) (p_out (process_asr_offline model_punc e w audio)) ->
     (mode w = "offline" -> r_is_final m = true) /\
     (mode w = "2pass" -> r_is_final m = is_speaking w)) /\
  (forall e w audio m,
     In (SendOnline m) (p_out (process_asr_online e w audio)) ->
     r_is_final m = is_speaking w) /\
  (forall s i m,
     In (SendOffline m) (out (step model_punc s i)) ->
     (mode (ws s) = "offline" -> r_is_final m = true) /\
     (mode (ws s) = "2pass" ->
      r_is_final m = is_speaking (ws (st (step model_punc s i))))) /\
  (forall s i m,
     In (SendOnline m) (out (step model_punc s i)) ->
     r_is_final m = is_speaking (ws s) /\
     r_is_final m = is_speaking (ws (st (step model_punc s i)))).
Proof.
  assert (forall e w fa m,
            In (SendOffline m) (snd (offline_if_mode model_punc e w fa)) ->
            r_is_final m =
              (if String.eqb (mode w) "offline" then true
               else is_speaking w)) as OM.
  { intros e w fa m. unfold offline_if_mode.
    destruct (mode_in _ _); simpl; [| contradiction]. intros H.
    apply in_app_or in H. destruct H as [H | H].
    - eapply offline_pass_is_final; eauto.
    - destruct (p_raised _); in_cases H. }
  repeat split.
  - intros M. apply offline_pass_is_final in H. rewrite M in H. exact H.
  - intros M. apply offline_pass_is_final in H. rewrite M in H. exact H.
  - intros H. eapply online_pass_is_final; eauto.
  - intros M. apply step_offline_event in H; [| reflexivity].
    destruct H as [(m0 & _ & _ & _ & _ & H) | (b & s3 & _ & V & _ & H)];
      apply OM in H.
    + simpl in H. rewrite M in H. exact H.
    + assert (settings (ws s3) = settings (ws s)) as S.
      { rewrite (vad_stage_settings _ _ s3 b V).
        rewrite online_stage_settings. reflexivity. }
      apply settings_inv in S. destruct S as (S1 & S2 & S3 & S4).
      rewrite S1, M in H. exact H.
  - intros M. apply step_offline_event in H; [| reflexivity].
    destruct H as [(m0 & E & P & K & F & H) | (b & s3 & E & V & S & H)];
      apply OM in H.
    + simpl in H. rewrite M in H. simpl in H. rewrite H.
      destruct i as [msg e]; simpl in *; subst msg. unfold step; simpl.
      destruct (handle_json_ws model_punc e s m0 P) as (-> & _).
      rewrite F.
      destruct (flush_on_stop_state model_punc e
                  {| ws := set_online_is_final (set_is_speaking (ws s) false)
                             true;
                     loc := loc s |}) as [_ ->].
      simpl. rewrite offline_if_mode_ws. reflexivity.
    + assert (settings (ws s3) = settings (ws s)) as T.
      { rewrite (vad_stage_settings _ _ s3 b V).
        rewrite online_stage_settings. reflexivity. }
      apply settings_inv in T. destruct T as (T1 & T2 & T3 & T4).
      rewrite T1, M in H. simpl in H.
      rewrite H, S. simpl.
      pose proof (flush_on_vad_end_settings model_punc (snd i) s3) as U.
      apply settings_inv in U. destruct U as (U1 & U2 & U3 & U4). congruence.
  - apply step_online_event in H; [| reflexivity].
    destruct H as (b & fire & _ & H). unfold online_stage in H.
    destruct fire; [| contradiction].
    apply online_pass_is_final_flag in H. exact H.
  - pose proof H as H'.
    apply step_online_event in H; [| reflexivity].
    destruct H as (b & fire & E & H). unfold online_stage in H.
    destruct fire; [| contradiction].
    apply online_pass_is_final_flag in H. simpl in H. rewrite H.
    destruct i as [msg e]; simpl in *; subst msg.
    unfold step in *; simpl in *. rewrite handle_audio_eq in *.
    destruct (online_trigger (accumulate s b)) as [fire |]; [| reflexivity].
    cbv zeta in *.
    set (p2 := online_stage e (accumulate s b) fire) in *.
    assert (is_speaking (ws (fst p2)) = is_speaking (ws s)) as I2.
    { pose proof (online_stage_settings e (accumulate s b) fire) as T.
      apply settings_inv in T. destruct T as (T1 & T2 & T3 & T4). exact T2. }
    destruct (fst (vad_stage e (fst p2) b)) as [s3 |] eqn:V; simpl;
      [| congruence].
    pose proof (vad_stage_settings e (fst p2) s3 b V) as T.
    apply settings_inv in T. destruct T as (T1 & T2 & T3 & T4).
    unfold offline_stage. destruct (negb _); simpl; [| congruence].
    pose proof (flush_on_vad_end_settings model_punc e s3) as U.
    apply settings_inv in U. destruct U as (U1 & U2 & U3 & U4). congruence.
Qed.

End FlushPaths.

Section Flags.

Variable model_punc : bool.

(** C8, amended.  A text message on which [json.loads] raises
    [json.JSONDecodeError], the one exception the inner handler catches,
    changes nothing and sends nothing: the step returns the session as it
    was, with only the log line, and the receive loop goes on with the
    messages that follow exactly as it would have without it. *)
Theorem malformed_json_dropped (s : Session) (e : Engines)
    (rest : list (Message * Engines)) :
  step model_punc s (Str JSONDecodeError, e) =
    {| st := s; out := [Log InvalidJSON]; status := Running |} /\
  run model_punc s ((Str JSONDecodeError, e) :: rest) =
    {| st := st (run model_punc s rest);
       out := Log InvalidJSON :: out (run model_punc s rest);
       status := status (run model_punc s rest) |}.
Proof. split; reflexivity. Qed.

(** C10.  A control message may set [chunk_interval] to 0, and the session
    goes on; the next binary message then fails in the trigger check, before
    any engine is called, and the receive loop ends.  With a
    [chunk_interval] other than 0 the trigger check always yields a truth
    value. *)
Theorem zero_chunk_interval_ends_session :
  (forall s e m,
     is_ping m = false ->
     m_chunk_interval m = Some 0 ->
     m_chunk_size m <> Some ChunkBad ->
     let r := step model_punc s (Str (Dict m), e) in
     status r = Running /\ chunk_interval (ws (st r)) = 0) /\
  (forall s b e,
     chunk_interval (ws s) = 0 ->
     let r := step model_punc s (Bytes b, e) in
     status r = Ended /\ out r = [Log ExceptionLine]) /\
  (forall s,
     chunk_interval (ws s) <> 0 ->
     online_trigger s =
       Some ((len (frames_asr_online (loc s)) mod chunk_interval (ws s) =? 0)
             || online_is_final (ws s))) /\
  (forall s, online_trigger s = None <-> chunk_interval (ws s) = 0).
Proof.
  split; [| split; [| split]].
  - intros s e m P C K r. subst r. split.
    + destruct (handle_json_eq model_punc e s m P) as [_ D].
      destruct D as [(_ & R & _) | (_ & _ & B)]; [exact R | contradiction].
    + destruct (handle_json_ws model_punc e s m P)
        as (_ & _ & _ & _ & _ & D).
      unfold step; simpl. rewrite D, C. reflexivity.
  - intros s b e Z0 r. subst r.
    unfold step, handle_audio, online_trigger; simpl. rewrite Z0.
    split; reflexivity.
  - intros s N. unfold online_trigger.
    destruct (Z.eqb_spec (chunk_interval (ws s)) 0); [contradiction |].
    reflexivity.
  - intros s. unfold online_trigger.
    destruct (Z.eqb_spec (chunk_interval (ws s)) 0) as [-> |];
      split; auto; try discriminate. intros; contradiction.
Qed.

(** C4, amended.  [is_final] of the streaming cache is whatever was stored
    last: a control message with the key ["is_speaking"] stores the negation
    of its value; every binary message overwrites it with whether
    [speech_end_i], as the VAD stage of the previous binary message left it,
    is set, whatever the client declared; nothing else changes it, and no
    call of the online pass resets it. *)
Theorem is_final_last_writer (s : Session) (i : Message * Engines) :
  online_is_final (ws (st (step model_punc s i))) =
    match fst i with
    | Bytes _ => negb (speech_end_i (loc s) =? -1)
    | Str (Dict m) =>
        if is_ping m then online_is_final (ws s)
        else match m_is_speaking m with
             | Some v => negb v
             | None => online_is_final (ws s)
             end
    | Str _ => online_is_final (ws s)
    end.
Proof.
  destruct i as [[[| | | m] | b] e]; unfold step; simpl; try reflexivity.
  - destruct (is_ping m) eqn:P.
    + unfold handle_json. rewrite P. reflexivity.
    + destruct (handle_json_ws model_punc e s m P) as (_ & -> & _).
      unfold on_is_speaking. destruct (m_is_speaking m) as [v |];
        [| reflexivity].
      destruct (negb v && _); [| reflexivity].
      destruct (flush_on_stop_state model_punc e
                  {| ws := set_online_is_final (set_is_speaking (ws s) v)
                             (negb v);
                     loc := loc s |}) as [_ ->].
      simpl. rewrite offline_if_mode_ws. reflexivity.
  - rewrite handle_audio_eq.
    destruct (online_trigger (accumulate s b)) as [fire |]; [| reflexivity].
    cbv zeta. set (p2 := online_stage e (accumulate s b) fire).
    destruct (online_stage_caches e (accumulate s b) fire) as (_ & _ & I2).
    fold p2 in I2. simpl in I2.
    destruct (fst (vad_stage e (fst p2) b)) as [s3 |] eqn:V; simpl;
      [| exact I2].
    destruct (vad_stage_state e (fst p2) s3 b V) as (W & _).
    unfold offline_stage. destruct (negb (speech_end_i (loc s3) =? -1)).
    + destruct (flush_on_vad_end_state model_punc e s3) as [_ ->]. simpl.
      rewrite offline_if_mode_ws. simpl. rewrite W. exact I2.
    + simpl. rewrite W. exact I2.
Qed.

End Flags.

Section Idempotence.

Variable model_punc : bool.





End Idempotence.

Section Chunks.

Variable model_punc : bool.

Lemma len_app {A : Type} (l : list A) (x : A) : len (l ++ [x]) = len l + 1.
Proof. unfold len. rewrite length_app. simpl. lia. Qed.

Lemma len_cat {A : Type} (l l' : list A) : len (l ++ l') = len l + len l'.
Proof. unfold len. rewrite length_app. lia. Qed.






End Chunks.

Section Scheduling.

Variable model_punc : bool.

Lemma run_cons (s : Session) (i : Message * Engines)
    (rest : list (Message * Engines)) :
  status (step model_punc s i) = Running ->
  run model_punc s (i :: rest) =
    {| st := st (run model_punc (st (step model_punc s i)) rest);
       out := out (step model_punc s i) ++
              out (run model_punc (st (step model_punc s i)) rest);
       status := status (run model_punc (st (step model_punc s i)) rest) |}.
Proof. intros H. simpl. rewrite H. reflexivity. Qed.




End Scheduling.

(** C1 fails: a client stop after one frame, with an offline engine that
    raises, leaves both queues empty, not as they were. *)
Lemma failed_flush_drops_audio :
  ~ failed_flush_keeps_queues true after_one_frame
      (Str (Dict stop_message), deaf).
Proof.
  intros H. destruct H as (_ & _ & Q).
  - reflexivity.
  - exists frame1. vm_compute. auto.
  - vm_compute in Q. discriminate Q.
Qed.

Lemma failed_flush_clears_queues_witness :
  let r := step true after_one_frame (Str (Dict stop_message), deaf) in
  status r = Running /\
  (forall m, ~ In (SendOffline m) (out r)) /\
  In (Log ErrorOffline) (out r) /\
  frames_asr (loc (st r)) = [] /\
  frames_asr_online (loc (st r)) = [].
Proof.
  apply (failed_flush_clears_queues true after_one_frame
           (Str (Dict stop_message), deaf) frame1).
  - reflexivity.
  - vm_compute. auto.
  - vm_compute. discriminate.
Defined.

(** C4 fails in both directions.  After a client stop and one more frame,
    [is_final] is false although the client declared [is_speaking = false];
    after a VAD speech end and one more frame, [is_final] is true although
    the client is speaking and the online pass has run since the speech
    end. *)
Lemma is_final_not_as_specified :
  ~ is_final_as_specified true
      [(Str (Dict stop_message), silent); (Bytes frame1, silent)] /\
  ~ is_final_as_specified true
      [(Bytes frame1, ending); (Bytes frame1, silent)].
Proof.
  split; intros [H1 H2].
  - vm_compute in H2. discriminate H2. left. reflexivity.
  - vm_compute in H1. destruct H1 as [H | H]; [reflexivity | |];
      discriminate H.
Qed.

(** C6 fails: on the VAD path the frame history is not cleared (the frame
    just received stays in [frames]) and the VAD cache is left as the
    engine wrote it. *)
Lemma vad_end_path_keeps_history :
  ~ both_paths_reset_as_specified true initial (Bytes frame1, ending).
Proof.
  intros H. destruct (H 1) as (_ & _ & V & F & _).
  - right. vm_compute. auto.
  - vm_compute in F. discriminate F.
Qed.

Lemma flush_paths_reset_witness :
  let r := step true initial (Bytes frame1, ending) in
  frames_asr (loc (st r)) = [] /\
  frames_asr_online (loc (st r)) = [] /\
  online_cache (ws (st r)) = empty_cache /\
  speech_start (loc (st r)) = false /\
  vad_cache (ws (st r)) = [1] /\
  exists b,
    Bytes frame1 = Bytes b /\
    frames (loc (st r)) = last20 ([] ++ [b]) /\
    vad_pre_idx (ws (st r)) = 0 + len b / 32.
Proof.
  apply (proj2 (flush_paths_reset true initial (Bytes frame1, ending) 1)).
  vm_compute. auto.
Defined.

Lemma vad_end_resets_in_every_mode_witness :
  let r := step true initial (Bytes frame1, ending) in
  status r = Running /\
  frames_asr (loc (st r)) = [] /\
  frames_asr_online (loc (st r)) = [] /\
  online_cache (ws (st r)) = empty_cache /\
  frames (loc (st r)) = last20 ([] ++ [frame1]) /\
  (mode_in "2pass" ["2pass"; "offline"] = false ->
   offline_calls (out r) = [] /\ asr_engine_calls (out r) = []).
Proof.
  apply (vad_end_resets_in_every_mode true initial frame1 ending (-1) 3200).
  - vm_compute. discriminate.
  - reflexivity.
  - discriminate.
Defined.

Lemma zero_chunk_interval_ends_session_witness :
  (let r := step true initial (Str (Dict zero_interval), silent) in
   status r = Running /\ chunk_interval (ws (st r)) = 0) /\
  (let r := step true
              (st (step true initial (Str (Dict zero_interval), silent)))
              (Bytes frame1, talking) in
   status r = Ended /\ out r = [Log ExceptionLine]) /\
  online_trigger initial = Some (true || false).
Proof.
  destruct (zero_chunk_interval_ends_session true) as (Z1 & Z2 & Z3 & _).
  split; [| split].
  - apply Z1; [reflexivity | reflexivity | discriminate].
  - apply Z2. reflexivity.
  - apply (Z3 initial). vm_compute. discriminate.
Defined.

Lemma result_is_final_flag_witness :
  r_is_final (offline_message (ws initial) "hello") = true /\
  r_is_final (online_message (set_online_cache (ws initial) [3]) "he")
    = true.
Proof.
  destruct (result_is_final_flag false) as (F1 & F2 & _).
  split.
  - refine (proj2 (F1 talking (ws initial) frame1
                     (offline_message (ws initial) "hello") _) _);
      [vm_compute; auto | reflexivity].
  - refine (F2 talking (ws initial) frame1
              (online_message (set_online_cache (ws initial) [3]) "he") _).
    vm_compute. auto.
Defined.

(** * Further properties: the passes, the results, the schedule *)

Section Passes.

Variable model_punc : bool.

Lemma mode_in_two (x a b : string) :
  mode_in x [a; b] = true -> x = a \/ x = b.
Proof.
  unfold mode_in. simpl. rewrite orb_false_r. intros H.
  apply orb_true_iff in H. destruct H as [H | H]; apply String.eqb_eq in H;
    auto.
Qed.

Lemma str_len_pos (t : string) : (0 <? str_len t) = true -> t <> "".
Proof. intros H E. subst t. discriminate H. Qed.

Lemma len_zero_nil {A : Type} (l : list A) : (len l =? 0) = false -> l <> [].
Proof. intros H E. subst l. discriminate H. Qed.

(** X1.  [process_vad] hands back the pair of the engine's segment as it
    is when the engine returns exactly one segment (the two tests against
    -1 change nothing), and [(-1, -1)] when it returns none or several,
    whatever ends those carry; when the engine raises, so does
    [process_vad].  On the connection object it leaves everything but the
    VAD cache alone. *)
Theorem process_vad_single_segment (e : Engines) (w : Websocket)
    (audio_in : bytes) :
  fst (process_vad e w audio_in) = set_vad_cache w (cache_after (vad e)) /\
  snd (process_vad e w audio_in) =
    match value (vad e) with
    | None => None
    | Some [segment] => Some segment
    | Some _ => Some (-1, -1)
    end.
Proof.
  unfold process_vad.
  destruct (value (vad e)) as [[| [a c] [| x l]] |]; simpl; split;
    try reflexivity.
  destruct (Z.eqb_spec a (-1)), (Z.eqb_spec c (-1)); subst; reflexivity.
Qed.

(** What an offline result carries, in terms of the connection object the
    pass was called with. *)
Lemma process_asr_offline_sent (e : Engines) (w : Websocket) (audio : bytes)
    (m : ResultMsg) :
  In (SendOffline m) (p_out (process_asr_offline model_punc e w audio)) ->
  r_mode m = (if contains "2pass" (mode w) then "2pass-offline" else mode w) /\
  r_wav_name m = wav_name w /\
  r_text m <> "" /\
  audio <> [] /\
  exists text,
    asr e = Some text /\ text <> "" /\
    if model_punc then value (punc e) = Some (r_text m) else r_text m = text.
Proof.
  unfold process_asr_offline.
  destruct (len audio =? 0) eqn:L; [intros H; in_cases H |].
  apply len_zero_nil in L.
  destruct (asr e) as [text |]; [| intros H; in_cases H].
  destruct model_punc; simpl.
  - destruct (0 <? str_len text) eqn:T.
    + destruct (value (punc e)) as [text' |] eqn:P;
        [| intros H; in_cases H].
      destruct (0 <? str_len text') eqn:T'; intros H; in_cases H.
      inversion H; subst m; simpl. apply str_len_pos in T, T'.
      repeat split; auto. exists text. repeat split; auto.
    + intros H; in_cases H.
  - destruct (0 <? str_len text) eqn:T; intros H; in_cases H.
    inversion H; subst m; simpl. apply str_len_pos in T.
    repeat split; auto. exists text. repeat split; auto.
Qed.

Lemma process_asr_offline_punc (e : Engines) (w : Websocket) (audio : bytes)
    (t : string) :
  In (GeneratePunc t) (p_out (process_asr_offline model_punc e w audio)) ->
  model_punc = true /\ asr e = Some t /\ t <> "".
Proof.
  unfold process_asr_offline.
  destruct (len audio =? 0); [intros H; in_cases H |].
  destruct (asr e) as [text |]; [| intros H; in_cases H].
  destruct model_punc; simpl.
  - destruct (0 <? str_len text) eqn:T.
    + apply str_len_pos in T.
      destruct (value (punc e)) as [text' |];
        [destruct (0 <? str_len text') |];
        intros H; in_cases H; inversion H; subst; auto.
    + intros H; in_cases H.
  - destruct (0 <? str_len text); intros H; in_cases H.
Qed.

(** X2.  The text of an offline result.  When [process_asr_offline] sends
    a result, the audio was not empty, the offline engine returned a text
    that is not empty, and the text sent is not empty either: it is the
    punctuation engine's output if a punctuation model is loaded, and the
    offline engine's text as it is otherwise.  The punctuation engine is
    called only with a punctuation model loaded, and only on the non-empty
    text of the offline engine. *)
Theorem offline_result_text (e : Engines) (w : Websocket) (audio : bytes) :
  (forall m,
     In (SendOffline m) (p_out (process_asr_offline model_punc e w audio)) ->
     audio <> [] /\ r_text m <> "" /\
     exists text,
       asr e = Some text /\ text <> "" /\
       if model_punc then value (punc e) = Some (r_text m)
       else r_text m = text) /\
  (forall t,
     In (GeneratePunc t) (p_out (process_asr_offline model_punc e w audio)) ->
     model_punc = true /\ asr e = Some t /\ t <> "").
Proof.
  split.
  - intros m H. apply process_asr_offline_sent in H.
    destruct H as (_ & _ & T & A & X). auto.
  - intros t H. apply process_asr_offline_punc in H. exact H.
Qed.

Lemma process_asr_online_sent (e : Engines) (w : Websocket) (audio : bytes)
    (m : ResultMsg) :
  In (SendOnline m) (p_out (process_asr_online e w audio)) ->
  r_mode m = (if contains "2pass" (mode w) then "2pass-online" else mode w) /\
  r_wav_name m = wav_name w /\
  r_text m <> "" /\
  audio <> [] /\
  value (asr_streaming e) = Some (r_text m).
Proof.
  unfold process_asr_online.
  destruct (len audio =? 0) eqn:L; [intros H; in_cases H |].
  apply len_zero_nil in L.
  destruct (value (asr_streaming e)) as [text |]; [| intros H; in_cases H].
  destruct (0 <? str_len text) eqn:T; intros H; in_cases H.
  inversion H; subst m; simpl. apply str_len_pos in T.
  repeat split; auto.
Qed.

Lemma offline_if_mode_sent (e : Engines) (w : Websocket) (fa : list bytes)
    (m : ResultMsg) :
  In (SendOffline m) (snd (offline_if_mode model_punc e w fa)) ->
  mode_in (mode w) ["2pass"; "offline"] = true /\
  In (SendOffline m) (p_out (process_asr_offline model_punc e w (join fa))).
Proof.
  unfold offline_if_mode.
  destruct (mode_in _ _); simpl; [| contradiction]. intros H.
  split; [reflexivity |].
  apply in_app_or in H. destruct H as [H | H]; [exact H |].
  destruct (p_raised _); in_cases H.
Qed.

Lemma offline_if_mode_is_final (e : Engines) (w : Websocket)
    (fa : list bytes) (m : ResultMsg) :
  In (SendOffline m) (snd (offline_if_mode model_punc e w fa)) ->
  r_is_final m =
    (if String.eqb (mode w) "offline" then true else is_speaking w).
Proof.
  intros H. apply offline_if_mode_sent in H. destruct H as [_ H].
  eapply offline_pass_is_final. exact H.
Qed.

Lemma online_pass_sent (e : Engines) (s : Session) (m : ResultMsg) :
  In (SendOnline m) (snd (online_pass e s)) ->
  mode_in (mode (ws s)) ["2pass"; "online"] = true /\
  In (SendOnline m)
    (p_out (process_asr_online e (ws s) (join (frames_asr_online (loc s))))).
Proof.
  unfold online_pass.
  destruct (mode_in _ _); simpl; [| contradiction]. intros H.
  split; [reflexivity |].
  apply in_app_or in H. destruct H as [H | H]; [exact H |].
  destruct (p_raised _); in_cases H.
Qed.

(** The state in which the VAD path's flush runs has the settings the
    frame arrived with. *)
Lemma vad_path_settings (e : Engines) (s s3 : Session) (b : bytes)
    (fire : bool) :
  fst (vad_stage e (fst (online_stage e (accumulate s b) fire)) b) = Some s3 ->
  settings (ws s3) = settings (ws s).
Proof.
  intros V. rewrite (vad_stage_settings e _ s3 b V).
  rewrite online_stage_settings. reflexivity.
Qed.

(** X3.  How a result is labelled.  Every result a message makes the
    handler send carries the [wav_name] the session had before that
    message and a text that is not empty.  An offline result is sent only
    in the modes ["2pass"] and ["offline"] and is labelled
    ["2pass-offline"] and ["offline"]; an online result only in ["2pass"]
    and ["online"], labelled ["2pass-online"] and ["online"].  The mode is
    the one in force before the message: a control message that stops the
    utterance and sets [mode] or [wav_name] at once still labels the
    flushed result with the old values. *)
Theorem result_labels (s : Session) (i : Message * Engines) (m : ResultMsg) :
  (In (SendOffline m) (out (step model_punc s i)) ->
   r_wav_name m = wav_name (ws s) /\ r_text m <> "" /\
   (mode (ws s) = "2pass" /\ r_mode m = "2pass-offline" \/
    mode (ws s) = "offline" /\ r_mode m = "offline")) /\
  (In (SendOnline m) (out (step model_punc s i)) ->
   r_wav_name m = wav_name (ws s) /\ r_text m <> "" /\
   (mode (ws s) = "2pass" /\ r_mode m = "2pass-online" \/
    mode (ws s) = "online" /\ r_mode m = "online")).
Proof.
  split; intros H.
  - apply step_offline_event in H; [| reflexivity].
    assert (exists w,
              mode w = mode (ws s) /\ wav_name w = wav_name (ws s) /\
              exists fa,
                In (SendOffline m)
                  (snd (offline_if_mode model_punc (snd i) w fa))) as K.
    { destruct H as [(m0 & _ & _ & _ & _ & H) | (b & s3 & _ & V & _ & H)].
      - eexists. split; [| split; [| eexists; exact H]]; reflexivity.
      - apply vad_path_settings in V. apply settings_inv in V.
        destruct V as (V1 & _ & _ & V4).
        exists (ws s3). split; [| split; [| eexists; exact H]]; assumption. }
    destruct K as (w & M & W & fa & K).
    apply offline_if_mode_sent in K. destruct K as [G K].
    apply process_asr_offline_sent in K.
    destruct K as (L & N & T & _). rewrite M in *.
    apply mode_in_two in G.
    repeat split; [congruence | exact T |].
    destruct G as [G | G]; rewrite G in L; [left | right]; auto.
  - apply step_online_event in H; [| reflexivity].
    destruct H as (b & fire & _ & H). unfold online_stage in H.
    destruct fire; [| contradiction].
    apply online_pass_sent in H. destruct H as [G H].
    apply process_asr_online_sent in H.
    destruct H as (L & N & T & _). simpl in *.
    apply mode_in_two in G.
    repeat split; [exact N | exact T |].
    destruct G as [G | G]; rewrite G in L; [left | right]; auto.
Qed.

(** X4.  The result of a client stop.  An offline result sent in answer
    to a text message (the flush of a client stop) carries [is_final] true
    in mode ["offline"] and false in mode ["2pass"]: [is_speaking] has been
    stored as false before the pass builds the message.  So in 2pass mode
    the last result of an utterance that the client ends is never marked
    final. *)
Theorem stop_result_is_final (s : Session) (i : Message * Engines)
    (m : ResultMsg) :
  is_text i = true ->
  In (SendOffline m) (out (step model_punc s i)) ->
  client_stop i /\
  r_is_final m = String.eqb (mode (ws s)) "offline" /\
  (mode (ws s) = "2pass" -> r_is_final m = false).
Proof.
  intros T H. apply step_offline_event in H; [| reflexivity].
  destruct H as [(m0 & E & P & K & _ & H) | (b & s3 & E & _)].
  - apply offline_if_mode_is_final in H. simpl in H.
    split; [exists m0; auto |].
    split.
    + rewrite H. destruct (String.eqb _ _); reflexivity.
    + intros M. rewrite H, M. reflexivity.
  - unfold is_text in T. rewrite E in T. discriminate T.
Qed.

End Passes.

Section Readings.

Variable model_punc : bool.

(** What the events of each stage can and cannot be read as. *)
Lemma online_events_read (evs : list Event) :
  Forall (fun ev => online_event ev = true) evs ->
  offline_calls evs = [] /\ asr_engine_calls evs = [] /\
  vad_calls evs = [] /\ sent_offline evs = [] /\
  Forall (fun ev => chatter ev = false) evs.
Proof.
  induction 1 as [| ev evs H _ (I1 & I2 & I3 & I4 & I5)];
    [repeat split; constructor |].
  destruct ev as [| | | | | | | | | []]; try discriminate H; simpl;
    repeat split; auto.
Qed.

Lemma vad_events_read (evs : list Event) :
  Forall (fun ev => vad_event ev = true) evs ->
  offline_calls evs = [] /\ asr_engine_calls evs = [] /\
  online_calls evs = [] /\ streaming_engine_calls evs = [] /\
  sent_offline evs = [] /\ sent_online evs = [] /\
  Forall (fun ev => chatter ev = false) evs.
Proof.
  induction 1 as [| ev evs H _ (I1 & I2 & I3 & I4 & I5 & I6 & I7)];
    [repeat split; constructor |].
  destruct ev as [| | | | | | | | | []]; try discriminate H; simpl;
    repeat split; auto.
Qed.

(** The engine of a pass is called on the audio of the pass, unless that
    is empty. *)
Lemma process_asr_offline_engine (e : Engines) (w : Websocket)
    (audio : bytes) :
  let p := process_asr_offline model_punc e w audio in
  let evs := p_out p ++ (if p_raised p then [Log ErrorOffline] else []) in
  asr_engine_calls evs = (if len audio =? 0 then [] else [audio]) /\
  (List.length (sent_offline evs) <= 1)%nat.
Proof.
  unfold process_asr_offline.
  destruct (len audio =? 0); [split; simpl; auto |].
  repeat break_match; simpl; split; auto.
Qed.

Lemma process_asr_online_engine (e : Engines) (w : Websocket)
    (audio : bytes) :
  let p := process_asr_online e w audio in
  let evs := p_out p ++ (if p_raised p then [Log ErrorStreaming] else []) in
  streaming_engine_calls evs = (if len audio =? 0 then [] else [audio]) /\
  (List.length (sent_online evs) <= 1)%nat.
Proof.
  unfold process_asr_online.
  destruct (len audio =? 0); [split; simpl; auto |].
  repeat break_match; simpl; split; auto.
Qed.

Lemma offline_if_mode_engine (e : Engines) (w : Websocket)
    (fa : list bytes) :
  let evs := snd (offline_if_mode model_punc e w fa) in
  asr_engine_calls evs =
    filter (fun a => negb (len a =? 0)) (offline_calls evs) /\
  (List.length (sent_offline evs) <= 1)%nat.
Proof.
  cbv zeta.
  destruct (offline_if_mode_events model_punc e w fa) as [_ ->].
  unfold offline_if_mode. destruct (mode_in _ _); simpl; [| auto].
  destruct (process_asr_offline_engine e w (join fa)) as [-> L].
  split; [| exact L]. destruct (len (join fa) =? 0); reflexivity.
Qed.

Lemma online_stage_engine (e : Engines) (s : Session) (fire : bool) :
  let evs := snd (online_stage e s fire) in
  online_calls evs =
    (if fire && mode_in (mode (ws s)) ["2pass"; "online"]
     then [join (frames_asr_online (loc s))] else []) /\
  streaming_engine_calls evs =
    filter (fun a => negb (len a =? 0)) (online_calls evs) /\
  (List.length (sent_online evs) <= 1)%nat.
Proof.
  cbv zeta. unfold online_stage. destruct fire; [| simpl; auto].
  destruct (online_pass_events e s) as [_ ->].
  unfold online_pass. destruct (mode_in _ _); simpl; [| auto].
  destruct (process_asr_online_engine e (ws s)
              (join (frames_asr_online (loc s)))) as [-> L].
  repeat split; [| exact L].
  destruct (len (join (frames_asr_online (loc s))) =? 0); reflexivity.
Qed.

(** The stop path: what [on_is_speaking] emits. *)
Lemma on_is_speaking_out (e : Engines) (s : Session) (key : option bool) :
  let flushes :=
    match key with
    | Some false => negb (len (frames_asr (loc s)) =? 0)
    | _ => false
    end in
  snd (on_is_speaking model_punc e s key) =
    if flushes
    then Log (OfflineOnStop (len (frames_asr (loc s)))) ::
         snd (offline_if_mode model_punc e
                (set_online_is_final (set_is_speaking (ws s) false) true)
                (frames_asr (loc s)))
    else [].
Proof.
  unfold on_is_speaking. destruct key as [[|] |]; simpl; try reflexivity.
  destruct (len (frames_asr (loc s)) =? 0); simpl; [reflexivity |].
  rewrite flush_on_stop_events. reflexivity.
Qed.

Lemma on_is_speaking_config (e : Engines) (s : Session) (key : option bool) :
  config (ws (fst (on_is_speaking model_punc e s key))) = config (ws s).
Proof.
  unfold on_is_speaking. destruct key as [v |]; [| reflexivity].
  destruct (negb v && _); [| reflexivity].
  destruct (flush_on_stop_state model_punc e
              {| ws := set_online_is_final (set_is_speaking (ws s) v)
                         (negb v);
                 loc := loc s |}) as [_ ->].
  simpl. rewrite offline_if_mode_ws. reflexivity.
Qed.

Lemma config_inv (w w' : Websocket) :
  config w' = config w ->
  mode w' = mode w /\ chunk_interval w' = chunk_interval w /\
  wav_name w' = wav_name w /\ online_chunk_size w' = online_chunk_size w /\
  asr_hotword w' = asr_hotword w.
Proof. unfold config. intros H. injection H. auto. Qed.

(** What a handled control message does to the configuration. *)
Lemma handle_json_config (e : Engines) (s : Session) (m : ControlMsg) :
  is_ping m = false ->
  let w := ws (st (handle_json model_punc e s m)) in
  let stopped :=
    match m_chunk_size m with Some ChunkBad => true | _ => false end in
  chunk_interval w = match m_chunk_interval m with
                     | Some n => n
                     | None => chunk_interval (ws s)
                     end /\
  wav_name w = match m_wav_name m with
               | Some n => n
               | None => wav_name (ws s)
               end /\
  mode w = match m_mode m with
           | Some x => if stopped then mode (ws s) else x
           | None => mode (ws s)
           end /\
  asr_hotword w = match m_hotwords m with
                  | Some h => if stopped then asr_hotword (ws s) else Some h
                  | None => asr_hotword (ws s)
                  end /\
  online_chunk_size w = match m_chunk_size m with
                        | Some (ChunkInts l) => l
                        | _ => online_chunk_size (ws s)
                        end.
Proof.
  intros P. pose proof (on_is_speaking_config e s (m_is_speaking m)) as C.
  apply config_inv in C. destruct C as (C1 & C2 & C3 & C4 & C5).
  unfold handle_json. rewrite P.
  destruct (on_is_speaking model_punc e s (m_is_speaking m)) as [s1 evs].
  simpl in *.
  destruct (m_chunk_interval m), (m_wav_name m),
    (m_chunk_size m) as [[l |] |], (m_hotwords m), (m_mode m);
    simpl; repeat split; auto.
Qed.

Lemma on_is_speaking_flag (e : Engines) (s : Session) (key : option bool) :
  is_speaking (ws (fst (on_is_speaking model_punc e s key))) =
    match key with
    | Some v => v
    | None => is_speaking (ws s)
    end.
Proof.
  unfold on_is_speaking. destruct key as [v |]; [| reflexivity].
  destruct (negb v && _); [| reflexivity].
  destruct (flush_on_stop_state model_punc e
              {| ws := set_online_is_final (set_is_speaking (ws s) v)
                         (negb v);
                 loc := loc s |}) as [_ ->].
  simpl. rewrite offline_if_mode_ws. reflexivity.
Qed.

(** X5.  What a control message configures.  A control message that is
    handled (not a ping) stores the value of each of the keys
    [is_speaking], [chunk_interval], [wav_name], [chunk_size], [hotwords]
    and [mode] that it carries and leaves the others as they were, whether
    or not it also flushes; except that when the conversion of
    [chunk_size] raises, [chunk_size], [hotwords] and [mode] keep their old
    values. *)
Theorem control_message_config (e : Engines) (s : Session) (m : ControlMsg) :
  is_ping m = false ->
  let w := ws (st (step model_punc s (Str (Dict m), e))) in
  let stopped :=
    match m_chunk_size m with Some ChunkBad => true | _ => false end in
  is_speaking w = match m_is_speaking m with
                  | Some v => v
                  | None => is_speaking (ws s)
                  end /\
  chunk_interval w = match m_chunk_interval m with
                     | Some n => n
                     | None => chunk_interval (ws s)
                     end /\
  wav_name w = match m_wav_name m with
               | Some n => n
               | None => wav_name (ws s)
               end /\
  mode w = match m_mode m with
           | Some x => if stopped then mode (ws s) else x
           | None => mode (ws s)
           end /\
  asr_hotword w = match m_hotwords m with
                  | Some h => if stopped then asr_hotword (ws s) else Some h
                  | None => asr_hotword (ws s)
                  end /\
  online_chunk_size w = match m_chunk_size m with
                        | Some (ChunkInts l) => l
                        | _ => online_chunk_size (ws s)
                        end.
Proof.
  intros P. cbv zeta. unfold step. cbn [fst snd].
  split; [| apply (handle_json_config e s m P)].
  destruct (handle_json_ws model_punc e s m P) as (-> & _).
  apply on_is_speaking_flag.
Qed.

(** The shape of a step on a binary message. *)
Lemma step_bytes_shape (s : Session) (b : bytes) (e : Engines) :
  chunk_interval (ws s) <> 0 ->
  let p2 := online_stage e (accumulate s b) (fires s b) in
  let v := vad_stage e (fst p2) b in
  step model_punc s (Bytes b, e) =
    match fst v with
    | None =>
        {| st := {| ws := set_vad_cache (ws (fst p2)) (cache_after (vad e));
                    loc := loc (fst p2) |};
           out := snd p2 ++ snd v ++ [Log ExceptionLine];
           status := Ended |}
    | Some s3 =>
        {| st := fst (offline_stage model_punc e s3);
           out := snd p2 ++ snd v ++ snd (offline_stage model_punc e s3);
           status := Running |}
    end.
Proof.
  intros N. unfold step; simpl. rewrite handle_audio_eq.
  rewrite online_trigger_accumulate by exact N. reflexivity.
Qed.

Lemma step_bytes_zero (s : Session) (b : bytes) (e : Engines) :
  chunk_interval (ws s) = 0 ->
  step model_punc s (Bytes b, e) =
    {| st := accumulate s b; out := [Log ExceptionLine]; status := Ended |}.
Proof.
  intros Z0. unfold step, handle_audio, online_trigger; simpl.
  rewrite Z0. reflexivity.
Qed.

(** The locals after the online stage of a frame. *)
Lemma online_stage_accumulate (e : Engines) (s : Session) (b : bytes)
    (fire : bool) :
  let l := loc (fst (online_stage e (accumulate s b) fire)) in
  speech_start l = speech_start (loc s) /\
  speech_start_i l = speech_start_i (loc s) /\
  speech_end_i l = speech_end_i (loc s) /\
  frames l = frames (loc s) ++ [b] /\
  frames_asr l = frames_asr (loc s) ++ [b] /\
  frames_asr_online l =
    (if fire then [] else frames_asr_online (loc s) ++ [b]).
Proof.
  cbv zeta. rewrite online_stage_loc.
  destruct fire; simpl; repeat split; reflexivity.
Qed.

Lemma vad_stage_none (e : Engines) (s : Session) (b : bytes) :
  fst (vad_stage e s b) = None <->
  value (vad e) = None /\ speech_start_i (loc s) = None.
Proof.
  unfold vad_stage, process_vad.
  destruct (value (vad e)) as [[| [a c] [| x l]] |]; simpl;
    try (split; [discriminate | intros [H _]; discriminate H]).
  destruct (speech_start_i (loc s)); simpl; split; auto; try discriminate.
  intros [_ H]; discriminate H.
Qed.

Lemma vad_stage_end (e : Engines) (s s3 : Session) (b : bytes) :
  fst (vad_stage e s b) = Some s3 ->
  negb (speech_end_i (loc s3) =? -1) = vad_end_seen s e /\
  speech_start_i (loc s3) <> None /\
  (value (vad e) = None ->
   speech_end_i (loc s3) = speech_end_i (loc s) /\
   speech_start_i (loc s3) = speech_start_i (loc s) /\
   speech_start (loc s3) =
     if negb (speech_end_i (loc s) =? -1) then false
     else match speech_start_i (loc s) with
          | Some a => if negb (a =? -1) then true else speech_start (loc s)
          | None => speech_start (loc s)
          end).
Proof.
  unfold vad_stage, process_vad, vad_end_seen.
  destruct (value (vad e)) as [[| [a c] [| x l]] |]; simpl.
  - intros H; inversion H; subst; simpl.
    repeat split; try discriminate.
  - intros H; inversion H; subst; simpl.
    destruct (Z.eqb_spec c (-1)); subst; simpl;
      repeat split; try discriminate.
    destruct (Z.eqb_spec c (-1)); [contradiction | reflexivity].
  - intros H; inversion H; subst; simpl.
    repeat split; try discriminate.
  - destruct (speech_start_i (loc s)) as [a |]; simpl; [| discriminate].
    intros H; inversion H; subst; simpl.
    repeat split; try discriminate.
Qed.

Lemma vad_stage_calls (e : Engines) (s : Session) (b : bytes) :
  vad_calls (snd (vad_stage e s b)) = [b] /\
  (In (Log ErrorVad) (snd (vad_stage e s b)) <-> value (vad e) = None).
Proof.
  unfold vad_stage, process_vad.
  destruct (value (vad e)) as [[| [a c] [| x l]] |]; simpl;
    try (split; [reflexivity |];
         split; [intros [H | []]; discriminate H | discriminate]).
  destruct (speech_start_i (loc s)); simpl; split; auto; split; auto.
Qed.

Lemma vad_end_seen_ext (s s' : Session) (e : Engines) :
  speech_start_i (loc s') = speech_start_i (loc s) ->
  speech_end_i (loc s') = speech_end_i (loc s) ->
  vad_end_seen s' e = vad_end_seen s e.
Proof. unfold vad_end_seen. intros -> ->. reflexivity. Qed.

Lemma offline_stage_out (e : Engines) (s : Session) :
  snd (offline_stage model_punc e s) =
    if negb (speech_end_i (loc s) =? -1)
    then Log (OfflineOnVadEnd (len (frames_asr (loc s)))) ::
         snd (offline_if_mode model_punc e (ws s) (frames_asr (loc s)))
    else [].
Proof.
  unfold offline_stage. destruct (negb _); [| reflexivity].
  apply flush_on_vad_end_events.
Qed.

Lemma offline_stage_config (e : Engines) (s : Session) :
  let w := ws (fst (offline_stage model_punc e s)) in
  config w = config (ws s) /\ is_speaking w = is_speaking (ws s).
Proof.
  unfold offline_stage. destruct (negb _); [| split; reflexivity].
  destruct (flush_on_vad_end_state model_punc e s) as [_ ->].
  simpl. rewrite offline_if_mode_ws. split; reflexivity.
Qed.

Lemma online_stage_config (e : Engines) (s : Session) (fire : bool) :
  let w := ws (fst (online_stage e s fire)) in
  config w = config (ws s) /\ is_speaking w = is_speaking (ws s).
Proof.
  unfold online_stage. destruct fire; [| split; reflexivity].
  destruct (online_pass_state e s) as [-> _]. split; reflexivity.
Qed.

Lemma vad_stage_config (e : Engines) (s s' : Session) (b : bytes) :
  fst (vad_stage e s b) = Some s' ->
  config (ws s') = config (ws s) /\ is_speaking (ws s') = is_speaking (ws s).
Proof.
  intros H. apply vad_stage_state in H. destruct H as [-> _].
  split; reflexivity.
Qed.

Lemma bytes_step_config (s : Session) (b : bytes) (e : Engines) :
  let r := step model_punc s (Bytes b, e) in
  config (ws (st r)) = config (ws s) /\
  is_speaking (ws (st r)) = is_speaking (ws s).
Proof.
  cbv zeta.
  destruct (Z.eq_dec (chunk_interval (ws s)) 0) as [Z0 | N].
  - rewrite step_bytes_zero by exact Z0. split; reflexivity.
  - rewrite step_bytes_shape by exact N. cbv zeta.
    set (p2 := online_stage e (accumulate s b) (fires s b)).
    destruct (online_stage_config e (accumulate s b) (fires s b))
      as [C2 I2].
    fold p2 in C2, I2.
    change (config (ws (accumulate s b))) with (config (ws s)) in C2.
    change (is_speaking (ws (accumulate s b))) with (is_speaking (ws s))
      in I2.
    destruct (fst (vad_stage e (fst p2) b)) as [s3 |] eqn:V;
      cbn [st out status].
    + destruct (vad_stage_config e (fst p2) s3 b V) as [C3 I3].
      destruct (offline_stage_config e s3) as [C4 I4].
      split; congruence.
    + split; assumption.
Qed.

(** X6.  A binary message never changes what the client configured: the
    mode, the chunk interval, the wav name, the chunk size of the streaming
    engine, the hotwords and [is_speaking] are after the message what they
    were before it, whatever the engines answer and whether or not the
    message ends the session. *)
Theorem audio_keeps_config (s : Session) (b : bytes) (e : Engines) :
  let r := step model_punc s (Bytes b, e) in
  config (ws (st r)) = config (ws s) /\
  is_speaking (ws (st r)) = is_speaking (ws s).
Proof. apply bytes_step_config. Qed.

End Readings.

Section Schedule.

Variable model_punc : bool.

(** What a handled control message emits, and whether it goes on. *)
Lemma handle_json_out (e : Engines) (s : Session) (m : ControlMsg) :
  is_ping m = false ->
  let p := on_is_speaking model_punc e s (m_is_speaking m) in
  let bad :=
    match m_chunk_size m with Some ChunkBad => true | _ => false end in
  let r := handle_json model_punc e s m in
  out r = snd p ++ (if bad then [Log ExceptionLine] else []) /\
  status r = (if bad then Ended else Running) /\
  loc (st r) = loc (fst p).
Proof.
  intros P. unfold handle_json. rewrite P.
  destruct (on_is_speaking model_punc e s (m_is_speaking m)) as [s1 evs].
  destruct (m_chunk_size m) as [[l |] |]; simpl; rewrite ?app_nil_r;
    repeat split; reflexivity.
Qed.

Lemma offline_if_mode_reads (e : Engines) (w : Websocket) (fa : list bytes) :
  let evs := snd (offline_if_mode model_punc e w fa) in
  online_calls evs = [] /\ streaming_engine_calls evs = [] /\
  vad_calls evs = [] /\ sent_online evs = [] /\
  stop_flushes evs = [] /\ vad_flushes evs = [] /\
  Forall (fun ev => chatter ev = false) evs.
Proof.
  cbv zeta. destruct (offline_if_mode_events model_punc e w fa) as [F _].
  induction F as [| ev evs H _ (I1 & I2 & I3 & I4 & I5 & I6 & I7)];
    [repeat split; constructor |].
  destruct ev as [| | | | | | | | | []]; try discriminate H; simpl;
    repeat split; auto.
Qed.

(** The whole trace of a step, stage by stage: the online stage, the VAD
    call, the flush of a client stop, the flush of a VAD speech end, and
    what ends the turn. *)
Lemma step_out (s : Session) (i : Message * Engines) :
  exists ons vads w3 tail,
    out (step model_punc s i) =
      ons ++ vads ++
      (if stop_due s i
       then Log (OfflineOnStop (len (frames_asr (loc s)))) ::
            snd (offline_if_mode model_punc (snd i)
                   (set_online_is_final (set_is_speaking (ws s) false) true)
                   (frames_asr (loc s)))
       else []) ++
      (if vad_end_due s i
       then Log (OfflineOnVadEnd (len (frames_asr (loc s)) + 1)) ::
            snd (offline_if_mode model_punc (snd i) w3
                   (frames_asr (loc s) ++ frame_of i))
       else []) ++
      tail /\
    Forall (fun ev => online_event ev = true) ons /\
    online_calls ons =
      (if online_due s i && mode_in (mode (ws s)) ["2pass"; "online"]
       then [join (frames_asr_online (loc s) ++ frame_of i)] else []) /\
    streaming_engine_calls ons = filter nonempty (online_calls ons) /\
    (List.length (sent_online ons) <= 1)%nat /\
    Forall (fun ev => vad_event ev = true) vads /\
    vad_calls vads =
      (match fst i with
       | Bytes b => if chunk_interval (ws s) =? 0 then [] else [b]
       | Str _ => []
       end) /\
    config w3 = config (ws s) /\ is_speaking w3 = is_speaking (ws s) /\
    (tail = [] \/ tail = [Log ExceptionLine] \/
     tail = [SendPong] \/ tail = [Log InvalidJSON]) /\
    (ignorable i = false -> tail = [] \/ tail = [Log ExceptionLine]).
Proof.
  destruct i as [[[| | | m] | b] e]; unfold step, ignorable; cbn [fst snd].
  - exists [], [], (ws s), [Log InvalidJSON].
    repeat split; auto; discriminate.
  - exists [], [], (ws s), [Log ExceptionLine]. repeat split; auto.
  - exists [], [], (ws s), [Log ExceptionLine]. repeat split; auto.
  - unfold stop_due, vad_end_due, online_due.
    cbn [fst snd app andb].
    destruct (is_ping m) eqn:P.
    + exists [], [], (ws s), [SendPong]. unfold handle_json. rewrite P.
      repeat split; auto; discriminate.
    + destruct (handle_json_out e s m P) as (-> & _ & _).
      rewrite on_is_speaking_out.
      exists [], [], (ws s),
        (if match m_chunk_size m with Some ChunkBad => true | _ => false end
         then [Log ExceptionLine] else []).
      cbn [negb andb app].
      split; [| repeat split; auto].
      * destruct (m_is_speaking m) as [[|] |]; cbn [andb app];
          try reflexivity;
          destruct (negb (len (frames_asr (loc s)) =? 0)); reflexivity.
      * destruct (m_chunk_size m) as [[|] |]; auto.
      * destruct (m_chunk_size m) as [[|] |]; auto.
  - unfold stop_due, vad_end_due, online_due, frame_of.
    cbn [fst snd app].
    destruct (Z.eqb_spec (chunk_interval (ws s)) 0) as [Z0 | N].
    + exists [], [], (ws s), [Log ExceptionLine].
      change (handle_audio model_punc e s b)
        with (step model_punc s (Bytes b, e)).
      rewrite step_bytes_zero by exact Z0. cbn [negb andb].
      repeat split; auto.
    + change (handle_audio model_punc e s b)
        with (step model_punc s (Bytes b, e)).
      rewrite step_bytes_shape by exact N. cbv zeta. cbn [negb andb].
      set (p2 := online_stage e (accumulate s b) (fires s b)).
      destruct (online_stage_accumulate e s b (fires s b))
        as (_ & L1 & L2 & _ & L4 & _).
      destruct (online_stage_engine e (accumulate s b) (fires s b))
        as (O1 & O2 & O3).
      destruct (online_stage_config e (accumulate s b) (fires s b))
        as [C2 I2].
      fold p2 in L1, L2, L4, O1, O2, O3, C2, I2.
      change (config (ws (accumulate s b))) with (config (ws s)) in C2.
      change (is_speaking (ws (accumulate s b))) with (is_speaking (ws s))
        in I2.
      change (mode (ws (accumulate s b))) with (mode (ws s)) in O1.
      change (frames_asr_online (loc (accumulate s b)))
        with (frames_asr_online (loc s) ++ [b]) in O1.
      exists (snd p2), (snd (vad_stage e (fst p2) b)),
        (set_vad_cache (ws (fst p2)) (cache_after (vad e))).
      destruct (fst (vad_stage e (fst p2) b)) as [s3 |] eqn:V;
        cbn [out].
      * exists []. rewrite app_nil_r.
        destruct (vad_stage_end e (fst p2) s3 b V) as (E & _).
        rewrite (vad_end_seen_ext s (fst p2) e L1 L2) in E.
        destruct (vad_stage_state e (fst p2) s3 b V) as (W & _ & F & _).
        rewrite offline_stage_out, E, F, L4, W, len_app.
        repeat split; auto.
        -- apply online_stage_events.
        -- apply vad_stage_events.
        -- apply vad_stage_calls.
      * exists [Log ExceptionLine].
        apply vad_stage_none in V. destruct V as [V1 V2].
        assert (vad_end_seen s e = false) as E.
        { unfold vad_end_seen. rewrite V1, <- L1, V2. reflexivity. }
        rewrite E. repeat split; auto.
        -- apply online_stage_events.
        -- apply vad_stage_events.
        -- apply vad_stage_calls.
Qed.

Lemma stop_vad_exclusive (s : Session) (i : Message * Engines) :
  stop_due s i = true -> vad_end_due s i = false /\ frame_of i = [] /\
  online_due s i = false.
Proof.
  unfold stop_due, vad_end_due, frame_of, online_due.
  destruct (fst i) as [[| | | m] | b]; try discriminate. auto.
Qed.

Lemma tail_reads (tail : list Event) :
  tail = [] \/ tail = [Log ExceptionLine] \/
  tail = [SendPong] \/ tail = [Log InvalidJSON] ->
  offline_calls tail = [] /\ asr_engine_calls tail = [] /\
  online_calls tail = [] /\ streaming_engine_calls tail = [] /\
  vad_calls tail = [] /\ sent_offline tail = [] /\ sent_online tail = [] /\
  stop_flushes tail = [] /\ vad_flushes tail = [].
Proof.
  intros [-> | [-> | [-> | ->]]]; repeat split; reflexivity.
Qed.

(** Every reading of the trace of a step. *)
Lemma step_readings (s : Session) (i : Message * Engines) :
  let r := step model_punc s i in
  offline_calls (out r) =
    (if (stop_due s i || vad_end_due s i) &&
        mode_in (mode (ws s)) ["2pass"; "offline"]
     then [join (frames_asr (loc s) ++ frame_of i)] else []) /\
  asr_engine_calls (out r) = filter nonempty (offline_calls (out r)) /\
  online_calls (out r) =
    (if online_due s i && mode_in (mode (ws s)) ["2pass"; "online"]
     then [join (frames_asr_online (loc s) ++ frame_of i)] else []) /\
  streaming_engine_calls (out r) = filter nonempty (online_calls (out r)) /\
  vad_calls (out r) =
    (match fst i with
     | Bytes b => if chunk_interval (ws s) =? 0 then [] else [b]
     | Str _ => []
     end) /\
  stop_flushes (out r) =
    (if stop_due s i then [len (frames_asr (loc s))] else []) /\
  vad_flushes (out r) =
    (if vad_end_due s i then [len (frames_asr (loc s)) + 1] else []) /\
  (List.length (sent_offline (out r)) <= 1)%nat /\
  (List.length (sent_online (out r)) <= 1)%nat.
Proof.
  cbv zeta.
  destruct (step_out s i)
    as (ons & vads & w3 & tail & -> & FO & O1 & O2 & O3 & FV & VC & C3 & _
        & T & _).
  destruct (online_events_read ons FO) as (A1 & A2 & A3 & A4 & _).
  destruct (vad_events_read vads FV) as (B1 & B2 & B3 & B4 & B5 & B6 & _).
  assert (stop_flushes ons = [] /\ vad_flushes ons = []) as [A5 A6].
  { clear - FO. induction FO as [| ev evs H _ [I1 I2]]; [split; reflexivity |].
    destruct ev as [| | | | | | | | | []]; try discriminate H; simpl; auto. }
  assert (stop_flushes vads = [] /\ vad_flushes vads = []) as [B7 B8].
  { clear - FV. induction FV as [| ev evs H _ [I1 I2]]; [split; reflexivity |].
    destruct ev as [| | | | | | | | | []]; try discriminate H; simpl; auto. }
  assert (offline_calls tail = [] /\ asr_engine_calls tail = [] /\
          online_calls tail = [] /\ streaming_engine_calls tail = [] /\
          vad_calls tail = [] /\ sent_offline tail = [] /\
          sent_online tail = [] /\
          stop_flushes tail = [] /\ vad_flushes tail = [])
    as (T1 & T2 & T3 & T4 & T5 & T6 & T7 & T8 & T9).
  { apply tail_reads. exact T. }
  apply config_inv in C3. destruct C3 as (M3 & _).
  set (w1 := set_online_is_final (set_is_speaking (ws s) false) true).
  set (fa := frames_asr (loc s)) in *.
  destruct (offline_if_mode_events model_punc (snd i) w1 fa) as [_ S1].
  destruct (offline_if_mode_engine model_punc (snd i) w1 fa) as [S2 S3].
  destruct (offline_if_mode_reads (snd i) w1 fa)
    as (S4 & S5 & S6 & S7 & S8 & S9 & _).
  destruct (offline_if_mode_events model_punc (snd i) w3 (fa ++ frame_of i))
    as [_ V1].
  destruct (offline_if_mode_engine model_punc (snd i) w3 (fa ++ frame_of i))
    as [V2 V3].
  destruct (offline_if_mode_reads (snd i) w3 (fa ++ frame_of i))
    as (V4 & V5 & V6 & V7 & V8 & V9 & _).
  change (mode w1) with (mode (ws s)) in S1. rewrite M3 in V1.
  set (e1 := snd (offline_if_mode model_punc (snd i) w1 fa)) in *.
  set (e3 := snd (offline_if_mode model_punc (snd i) w3 (fa ++ frame_of i)))
    in *.
  unfold nonempty in *.
  destruct (stop_due s i) eqn:SD;
    [destruct (stop_vad_exclusive s i SD) as (-> & FR & OD);
     rewrite FR, OD in *; rewrite app_nil_r in * |
     destruct (vad_end_due s i) eqn:VD];
    cbn [orb andb] in *; readings; rewrite !flat_map_app;
    cbn [flat_map app];
    repeat (progress
              (rewrite ?A1, ?A2, ?A3, ?A4, ?A5, ?A6, ?B1, ?B2, ?B3, ?B4,
                 ?B5, ?B6, ?B7, ?B8, ?T1, ?T2, ?T3, ?T4, ?T5, ?T6, ?T7,
                 ?T8, ?T9, ?S2, ?S4, ?S5, ?S6, ?S7, ?S8, ?S9, ?V2, ?V4,
                 ?V5, ?V6, ?V7, ?V8, ?V9, ?O2, ?S1, ?V1, ?O1, ?VC,
                 ?app_nil_r));
    cbn [app filter List.length]; repeat split; auto.
Qed.

(** X7.  When the offline pass runs, and on what.  A message makes the
    handler call [process_asr_offline] at most once: when the mode is
    ["2pass"] or ["offline"] and either a handled control message says
    [is_speaking] false while [frames_asr] is not empty, or a binary message
    gets past the trigger check and leaves [speech_end_i] set.  The pass
    then gets all of [frames_asr] joined, the frame just received included.
    The offline engine is called on that same audio, unless it is empty:
    then there is no engine call. *)
Theorem offline_pass_schedule (s : Session) (i : Message * Engines) :
  let r := step model_punc s i in
  offline_calls (out r) =
    (if (stop_due s i || vad_end_due s i) &&
        mode_in (mode (ws s)) ["2pass"; "offline"]
     then [join (frames_asr (loc s) ++ frame_of i)] else []) /\
  asr_engine_calls (out r) = filter nonempty (offline_calls (out r)).
Proof.
  destruct (step_readings s i) as (H1 & H2 & _). split; assumption.
Qed.

(** X8.  When the online pass and the VAD engine run, and on what.  Only a
    binary message calls them.  With a chunk interval other than 0 the VAD
    engine is called exactly once, on the frame alone; the online pass is
    called when the mode is ["2pass"] or ["online"] and the trigger of
    lines 273-274 holds, on the whole online queue joined, that frame
    included; the streaming engine is called on the same audio unless it
    is empty.  With chunk interval 0 nothing is called. *)
Theorem online_pass_schedule (s : Session) (i : Message * Engines) :
  let r := step model_punc s i in
  online_calls (out r) =
    (if online_due s i && mode_in (mode (ws s)) ["2pass"; "online"]
     then [join (frames_asr_online (loc s) ++ frame_of i)] else []) /\
  streaming_engine_calls (out r) = filter nonempty (online_calls (out r)) /\
  vad_calls (out r) =
    (match fst i with
     | Bytes b => if chunk_interval (ws s) =? 0 then [] else [b]
     | Str _ => []
     end).
Proof.
  destruct (step_readings s i) as (_ & _ & H3 & H4 & H5 & _).
  repeat split; assumption.
Qed.

Lemma in_stop_flushes (evs : list Event) (n : Z) :
  In (Log (OfflineOnStop n)) evs <-> In n (stop_flushes evs).
Proof.
  induction evs as [| ev evs IH]; simpl; [tauto |].
  unfold stop_flushes in *. simpl. rewrite in_app_iff, <- IH.
  destruct ev as [| | | | | | | | | []]; simpl; split; intros [H | H]; auto;
    try discriminate H; try contradiction.
  - inversion H. auto.
  - destruct H as [H | []]. subst. auto.
Qed.

Lemma in_vad_flushes (evs : list Event) (n : Z) :
  In (Log (OfflineOnVadEnd n)) evs <-> In n (vad_flushes evs).
Proof.
  induction evs as [| ev evs IH]; simpl; [tauto |].
  unfold vad_flushes in *. simpl. rewrite in_app_iff, <- IH.
  destruct ev as [| | | | | | | | | []]; simpl; split; intros [H | H]; auto;
    try discriminate H; try contradiction.
  - inversion H. auto.
  - destruct H as [H | []]. subst. auto.
Qed.

(** X9.  When a flush block runs.  The flush of the stop path runs exactly
    on a handled control message (not a ping) that carries [is_speaking]
    false while [frames_asr] is not empty; the flush of the VAD path runs
    exactly on a binary message, with a chunk interval other than 0, on
    which the VAD engine returns a single segment with an end, or raises
    after an earlier call has left [speech_end_i] set.  Each prints the
    number of frames it flushes. *)
Theorem flush_triggers (s : Session) (i : Message * Engines) (n : Z) :
  let r := step model_punc s i in
  (In (Log (OfflineOnStop n)) (out r) <->
   stop_due s i = true /\ n = len (frames_asr (loc s))) /\
  (In (Log (OfflineOnVadEnd n)) (out r) <->
   vad_end_due s i = true /\ n = len (frames_asr (loc s)) + 1).
Proof.
  cbv zeta.
  destruct (step_readings s i) as (_ & _ & _ & _ & _ & H6 & H7 & _).
  rewrite in_stop_flushes, in_vad_flushes, H6, H7.
  destruct (stop_due s i), (vad_end_due s i); simpl; intuition congruence.
Qed.

Lemma no_member_nil {A B : Type} (f : A -> list B) (l : list A) :
  (forall x y, In x l -> ~ In y (f x)) -> flat_map f l = [].
Proof.
  induction l as [| a l IH]; intros H; simpl; [reflexivity |].
  rewrite IH by (intros x y I; apply H; right; exact I).
  destruct (f a) as [| y ys] eqn:E; [reflexivity |].
  exfalso. apply (H a y); [left; reflexivity | rewrite E; left; reflexivity].
Qed.

(** X10.  At most one result of each pass per message.  A message makes
    the handler send at most one offline result and at most one online
    result; a text message sends no online result; where both are sent
    the online one comes first; and an offline result is sent only by a
    flush. *)
Theorem one_result_per_pass (s : Session) (i : Message * Engines) :
  let r := step model_punc s i in
  (List.length (sent_offline (out r)) <= 1)%nat /\
  (List.length (sent_online (out r)) <= 1)%nat /\
  (is_text i = true -> sent_online (out r) = []) /\
  (sent_offline (out r) <> [] -> stop_due s i || vad_end_due s i = true) /\
  exists before after,
    out r = before ++ after /\
    sent_offline before = [] /\ sent_online after = [].
Proof.
  cbv zeta.
  destruct (step_readings s i) as (_ & _ & _ & _ & _ & _ & _ & H8 & H9).
  split; [exact H8 | split; [exact H9 | split; [| split]]].
  - intros T. apply no_member_nil. intros ev m I M.
    destruct ev; try contradiction. destruct M as [M | []]. subst m0.
    apply step_online_event in I; [| reflexivity].
    destruct I as (b & fire & E & _). unfold is_text in T.
    rewrite E in T. discriminate T.
  - destruct (step_out s i)
      as (ons & vads & w3 & tail & E & FO & _ & _ & _ & FV & _ & _ & _ & T
          & _).
    rewrite E.
    destruct (stop_due s i); [reflexivity |].
    destruct (vad_end_due s i); [reflexivity |].
    intros N. exfalso. apply N. clear N.
    destruct (online_events_read ons FO) as (_ & _ & _ & A4 & _).
    destruct (vad_events_read vads FV) as (_ & _ & _ & _ & B5 & _).
    destruct (tail_reads tail T) as (_ & _ & _ & _ & _ & T6 & _).
    unfold sent_offline in *. rewrite !flat_map_app, A4, B5, T6.
    reflexivity.
  - destruct (step_out s i)
      as (ons & vads & w3 & tail & E & FO & _ & _ & _ & FV & _ & _ & _ & T
          & _).
    rewrite E. eexists ons, _. split; [reflexivity |].
    destruct (online_events_read ons FO) as (_ & _ & _ & A4 & _).
    destruct (vad_events_read vads FV) as (_ & _ & _ & _ & _ & B6 & _).
    destruct (tail_reads tail T) as (_ & _ & _ & _ & _ & _ & T7 & _).
    split; [exact A4 |].
    destruct (offline_if_mode_reads (snd i)
                (set_online_is_final (set_is_speaking (ws s) false) true)
                (frames_asr (loc s))) as (_ & _ & _ & S7 & _).
    destruct (offline_if_mode_reads (snd i) w3
                (frames_asr (loc s) ++ frame_of i)) as (_ & _ & _ & V7 & _).
    unfold sent_online in *. rewrite !flat_map_app, B6, T7.
    destruct (stop_due s i), (vad_end_due s i); cbn [flat_map app];
      rewrite ?S7, ?V7; reflexivity.
Qed.

Lemma offline_stage_loc (e : Engines) (s : Session) :
  let l := loc (fst (offline_stage model_punc e s)) in
  speech_start_i l = speech_start_i (loc s) /\
  speech_end_i l = speech_end_i (loc s).
Proof.
  unfold offline_stage. destruct (negb _); [| split; reflexivity].
  destruct (flush_on_vad_end_state model_punc e s) as [-> _].
  split; reflexivity.
Qed.

(** After a binary message that leaves the session running,
    [speech_start_i] is bound. *)
Lemma bytes_step_binds (s : Session) (b : bytes) (e : Engines) :
  status (step model_punc s (Bytes b, e)) = Running ->
  speech_start_i (loc (st (step model_punc s (Bytes b, e)))) <> None.
Proof.
  destruct (Z.eq_dec (chunk_interval (ws s)) 0) as [Z0 | N].
  - rewrite step_bytes_zero by exact Z0. discriminate.
  - rewrite step_bytes_shape by exact N. cbv zeta.
    destruct (fst (vad_stage e _ b)) as [s3 |] eqn:V; cbn [st status];
      [| discriminate].
    intros _. destruct (offline_stage_loc e s3) as [-> _].
    apply (vad_stage_end e _ s3 b V).
Qed.

(** X11.  When the VAD engine raises.  The failure is logged.  If no VAD
    call of this connection has returned yet, [speech_start_i] is still
    unbound and the session ends, with no flush.  Otherwise the session
    goes on with [speech_start_i] and [speech_end_i] as the last call that
    returned left them: so if that call had reported a speech end, the
    flush of the VAD path runs again on this frame.  (And after any binary
    message that leaves the session running [speech_start_i] is bound, so
    only the first frames of a connection can end it this way.) *)
Theorem vad_failure (s : Session) (b : bytes) (e : Engines) :
  chunk_interval (ws s) <> 0 ->
  value (vad e) = None ->
  let r := step model_punc s (Bytes b, e) in
  In (Log ErrorVad) (out r) /\
  (speech_start_i (loc s) = None ->
   status r = Ended /\ vad_flushes (out r) = [] /\
   offline_calls (out r) = []) /\
  (forall a,
     speech_start_i (loc s) = Some a ->
     status r = Running /\
     speech_start_i (loc (st r)) = Some a /\
     speech_end_i (loc (st r)) = speech_end_i (loc s) /\
     vad_flushes (out r) =
       (if speech_end_i (loc s) =? -1 then []
        else [len (frames_asr (loc s)) + 1])) /\
  (forall e',
     status (step model_punc s (Bytes b, e')) = Running ->
     speech_start_i (loc (st (step model_punc s (Bytes b, e')))) <> None).
Proof.
  intros N V r.
  destruct (step_readings s (Bytes b, e))
    as (H1 & _ & _ & _ & _ & _ & H7 & _).
  fold r in H1, H7. unfold vad_end_due, vad_end_seen in H1, H7.
  cbn [fst snd] in H1, H7. rewrite V in H1, H7.
  destruct (Z.eqb_spec (chunk_interval (ws s)) 0) as [| _];
    [contradiction |].
  cbn [negb andb] in H1, H7.
  assert (stop_due s (Bytes b, e) = false) as SD by reflexivity.
  rewrite SD in H1. cbn [orb] in H1.
  subst r. rewrite step_bytes_shape in * by exact N. cbv zeta in *.
  set (p2 := online_stage e (accumulate s b) (fires s b)) in *.
  destruct (online_stage_accumulate e s b (fires s b))
    as (_ & L1 & L2 & _).
  fold p2 in L1, L2.
  pose proof (vad_stage_none e (fst p2) b) as VN.
  destruct (vad_stage_calls e (fst p2) b) as [_ VC].
  split; [| split; [| split]].
  - assert (In (Log ErrorVad) (snd (vad_stage e (fst p2) b))) as I
      by (apply VC; exact V).
    destruct (fst (vad_stage e (fst p2) b)); cbn [out];
      apply in_or_app; right; apply in_or_app; left; exact I.
  - intros U. rewrite U in H1, H7.
    destruct (fst (vad_stage e (fst p2) b)) as [s3 |] eqn:W.
    + exfalso.
      assert (Some s3 = None) as X
        by (apply VN; split; [exact V | congruence]).
      discriminate X.
    + cbn [status out] in *. repeat split; assumption.
  - intros a U. rewrite U in H7.
    destruct (fst (vad_stage e (fst p2) b)) as [s3 |] eqn:W.
    + cbn [status st out] in *.
      destruct (vad_stage_end e (fst p2) s3 b W) as (_ & _ & K).
      destruct (K V) as (K1 & K2 & _).
      destruct (offline_stage_loc e s3) as [-> ->].
      repeat split; try congruence.
      rewrite H7. destruct (speech_end_i (loc s) =? -1); reflexivity.
    + exfalso. destruct VN as [VN _]. destruct (VN eq_refl) as [_ X].
      congruence.
  - intros e'. apply bytes_step_binds.
Qed.

(** X12.  A control message whose ["chunk_size"] cannot be converted ends
    the session, but only after the keys handled before it have taken
    effect: [is_speaking] with its flush (an offline result is still sent),
    [chunk_interval] and [wav_name].  The trace is that of the same message
    without the keys ["chunk_size"], ["hotwords"] and ["mode"], followed by
    the exception line, and the session is left in the same state:
    [hotwords] and [mode] of the message are never stored. *)
Theorem bad_chunk_size_ends_after_flush (s : Session) (e : Engines)
    (m : ControlMsg) :
  is_ping m = false ->
  m_chunk_size m = Some ChunkBad ->
  let r := step model_punc s (Str (Dict m), e) in
  let r0 := step model_punc s (Str (Dict (before_chunk_size m)), e) in
  status r = Ended /\ status r0 = Running /\
  out r = out r0 ++ [Log ExceptionLine] /\
  st r = st r0.
Proof.
  intros P B. unfold step. cbn [fst snd]. unfold handle_json.
  assert (is_ping (before_chunk_size m) = false) as P0 by exact P.
  rewrite P, P0, B. cbn [before_chunk_size m_is_speaking m_chunk_interval
                         m_wav_name m_chunk_size m_hotwords m_mode].
  destruct (on_is_speaking model_punc e s (m_is_speaking m)) as [s1 evs].
  repeat split.
Qed.

Lemma ignorable_step (s : Session) (i : Message * Engines) :
  ignorable i = true ->
  exists ev,
    chatter ev = true /\ is_pong ev = is_ping_message i /\
    step model_punc s i = {| st := s; out := [ev]; status := Running |}.
Proof.
  unfold ignorable, is_ping_message, step.
  destruct (fst i) as [[| | | m] | b]; try discriminate.
  - intros _. exists (Log InvalidJSON). repeat split.
  - intros P. exists SendPong. unfold handle_json. rewrite P.
    repeat split.
Qed.

Lemma heard_step (s : Session) (i : Message * Engines) :
  ignorable i = false ->
  Forall (fun ev => chatter ev = false) (out (step model_punc s i)) /\
  is_ping_message i = false.
Proof.
  intros G.
  destruct (step_out s i)
    as (ons & vads & w3 & tail & E & FO & _ & _ & _ & FV & _ & _ & _ & _
        & T).
  rewrite E.
  destruct (online_events_read ons FO) as (_ & _ & _ & _ & A5).
  destruct (vad_events_read vads FV) as (_ & _ & _ & _ & _ & _ & B7).
  destruct (offline_if_mode_reads (snd i)
              (set_online_is_final (set_is_speaking (ws s) false) true)
              (frames_asr (loc s))) as (_ & _ & _ & _ & _ & _ & S).
  destruct (offline_if_mode_reads (snd i) w3
              (frames_asr (loc s) ++ frame_of i))
    as (_ & _ & _ & _ & _ & _ & V).
  split.
  - repeat (apply Forall_app; split); auto.
    + destruct (stop_due s i); constructor; auto.
    + destruct (vad_end_due s i); constructor; auto.
    + destruct (T G) as [-> | ->]; repeat constructor.
  - revert G. unfold ignorable, is_ping_message.
    destruct (fst i) as [[| | | m] | b]; auto.
Qed.

Lemma filter_quiet (evs : list Event) :
  Forall (fun ev => chatter ev = false) evs ->
  filter (fun ev => negb (chatter ev)) evs = evs /\ filter is_pong evs = [].
Proof.
  induction 1 as [| ev evs H _ [I1 I2]]; [split; reflexivity |].
  simpl. rewrite H, I1. simpl. split; [reflexivity |].
  destruct ev; try discriminate H; auto.
Qed.

Lemma run_stop (s : Session) (i : Message * Engines)
    (rest : list (Message * Engines)) :
  status (step model_punc s i) = Ended ->
  run model_punc s (i :: rest) = step model_punc s i.
Proof. intros H. simpl. rewrite H. reflexivity. Qed.

(** X13.  Pings and texts on which [json.loads] raises
    [json.JSONDecodeError] are transparent.  Taking them out of the
    messages of a connection changes neither the state the session ends in
    nor whether it is still running, and takes out of the trace exactly
    the pongs and the invalid-JSON lines: a ping is answered without any
    of its other keys being looked at, however often it comes.  As long as
    the session runs, every ping is answered by exactly one pong.  (A text
    on which [json.loads] raises another exception is not among them: it
    ends the session.) *)
Theorem ignorable_messages_transparent (s : Session)
    (inputs : list (Message * Engines)) :
  let r := run model_punc s inputs in
  let r' := run model_punc s (filter heard inputs) in
  st r = st r' /\ status r = status r' /\
  filter (fun ev => negb (chatter ev)) (out r) = out r' /\
  (status r = Running ->
   List.length (filter is_pong (out r)) =
     List.length (filter is_ping_message inputs)).
Proof.
  cbv zeta. revert s.
  induction inputs as [| i rest IH]; intros s; [repeat split |].
  cbn [filter]. change (heard i) with (negb (ignorable i)).
  destruct (ignorable i) eqn:G; cbn [negb].
  - destruct (ignorable_step s i G) as (ev & C & PG & E).
    rewrite run_cons by (rewrite E; reflexivity).
    rewrite E. cbn [st out status app filter]. rewrite C, PG. cbn [negb].
    destruct (IH s) as (I1 & I2 & I3 & I4).
    repeat split; auto.
    intros R. specialize (I4 R).
    destruct (is_ping_message i); cbn [List.length]; congruence.
  - destruct (heard_step s i G) as [F NP]. rewrite NP.
    destruct (filter_quiet _ F) as [Q1 Q2].
    destruct (status (step model_punc s i)) eqn:R.
    + rewrite !run_cons by exact R. cbn [st out status].
      rewrite !filter_app, Q1, Q2. cbn [app].
      destruct (IH (st (step model_punc s i))) as (I1 & I2 & I3 & I4).
      repeat split; auto. rewrite I3. reflexivity.
    + rewrite !run_stop by exact R. rewrite R.
      repeat split; auto. discriminate.
Qed.

End Schedule.

Section Invariants.

Variable model_punc : bool.

(** The queues, the frame history and the duration counter after a step,
    whether or not the step ends the session. *)
Lemma step_queues (s : Session) (i : Message * Engines) :
  let l := loc (st (step model_punc s i)) in
  frames_asr l =
    (if stop_due s i || vad_end_due s i then []
     else frames_asr (loc s) ++ frame_of i) /\
  frames_asr_online l =
    (if stop_due s i || vad_end_due s i || online_due s i then []
     else frames_asr_online (loc s) ++ frame_of i) /\
  frames l =
    (if stop_due s i then []
     else if vad_end_due s i then last20 (frames (loc s) ++ frame_of i)
          else frames (loc s) ++ frame_of i) /\
  vad_pre_idx (ws (st (step model_punc s i))) =
    (if stop_due s i then 0
     else vad_pre_idx (ws s) + total_ms (frame_of i)).
Proof.
  destruct i as [[[| | | m] | b] e];
    unfold step, stop_due, vad_end_due, online_due, frame_of;
    cbn [fst snd orb total_ms].
  - rewrite !app_nil_r, Z.add_0_r. repeat split.
  - rewrite !app_nil_r, Z.add_0_r. repeat split.
  - rewrite !app_nil_r, Z.add_0_r. repeat split.
  - rewrite !app_nil_r, Z.add_0_r, !orb_false_r.
    destruct (is_ping m) eqn:P; cbn [negb andb].
    + unfold handle_json. rewrite P. repeat split.
    + destruct (handle_json_out model_punc e s m P) as (_ & _ & ->).
      destruct (handle_json_ws model_punc e s m P)
        as (_ & _ & _ & _ & -> & _).
      unfold on_is_speaking.
      destruct (m_is_speaking m) as [[|] |]; cbn [negb andb];
        try (repeat split; reflexivity).
      destruct (negb (len (frames_asr (loc s)) =? 0));
        [| repeat split; reflexivity].
      destruct (flush_on_stop_state model_punc e
                  {| ws := set_online_is_final (set_is_speaking (ws s) false)
                             true;
                     loc := loc s |}) as [-> ->].
      repeat split.
  - change (handle_audio model_punc e s b)
      with (step model_punc s (Bytes b, e)).
    rewrite Z.add_0_r.
    destruct (Z.eqb_spec (chunk_interval (ws s)) 0) as [Z0 | N];
      cbn [negb andb orb].
    + rewrite step_bytes_zero by exact Z0. repeat split.
    + rewrite step_bytes_shape by exact N. cbv zeta.
      set (p2 := online_stage e (accumulate s b) (fires s b)).
      destruct (online_stage_accumulate e s b (fires s b))
        as (_ & L1 & L2 & L3 & L4 & L5).
      destruct (online_stage_caches e (accumulate s b) (fires s b))
        as (_ & D2 & _).
      fold p2 in L1, L2, L3, L4, L5, D2.
      change (vad_pre_idx (ws (accumulate s b)))
        with (vad_pre_idx (ws s) + len b / 32) in D2.
      destruct (fst (vad_stage e (fst p2) b)) as [s3 |] eqn:V; cbn [st].
      * destruct (vad_stage_end e (fst p2) s3 b V) as (E & _).
        rewrite (vad_end_seen_ext s (fst p2) e L1 L2) in E.
        destruct (vad_stage_state e (fst p2) s3 b V) as (W & F1 & F2 & F3).
        unfold offline_stage. rewrite E.
        destruct (vad_end_seen s e).
        -- destruct (flush_on_vad_end_state model_punc e s3) as [-> ->].
           cbn [frames_asr frames_asr_online frames].
           destruct (offline_if_mode_caches model_punc e (ws s3)
                       (frames_asr (loc s3))) as (_ & C2 & _).
           change (vad_pre_idx (set_online_cache ?w _))
             with (vad_pre_idx w).
           rewrite C2, W, F1, L3. cbn [vad_pre_idx set_vad_cache].
           rewrite D2. repeat split.
        -- cbn [fst]. rewrite F1, F2, F3, L3, L4, L5, W.
           cbn [vad_pre_idx set_vad_cache]. rewrite D2.
           destruct (fires s b); repeat split.
      * apply vad_stage_none in V. destruct V as [V1 V2].
        assert (vad_end_seen s e = false) as E.
        { unfold vad_end_seen. rewrite V1, <- L1, V2. reflexivity. }
        cbn [ws loc vad_pre_idx set_vad_cache].
        rewrite E, L3, L4, L5, D2.
        destruct (fires s b); repeat split.
Qed.

(** X14.  The queues after a message.  Whatever the message and whatever
    the engines answer, [frames_asr] afterwards is empty if a flush ran and
    has grown by the frame received otherwise; [frames_asr_online] is empty
    if a flush ran or the online trigger held (in every mode) and has grown
    by the frame otherwise; the frame history [frames] is empty after the
    flush of a client stop, cut to its last 20 entries (the frame received
    among them) after the flush of a VAD speech end, and has grown by the
    frame otherwise; and the duration counter is 0 after the flush of a
    client stop and has advanced by [len(frame) // 32] otherwise. *)
Theorem queues_after_message (s : Session) (i : Message * Engines) :
  let r := step model_punc s i in
  frames_asr (loc (st r)) =
    (if stop_due s i || vad_end_due s i then []
     else frames_asr (loc s) ++ frame_of i) /\
  frames_asr_online (loc (st r)) =
    (if stop_due s i || vad_end_due s i || online_due s i then []
     else frames_asr_online (loc s) ++ frame_of i) /\
  frames (loc (st r)) =
    (if stop_due s i then []
     else if vad_end_due s i then last20 (frames (loc s) ++ frame_of i)
          else frames (loc s) ++ frame_of i) /\
  vad_pre_idx (ws (st r)) =
    (if stop_due s i then 0
     else vad_pre_idx (ws s) + total_ms (frame_of i)).
Proof. apply step_queues. Qed.

Lemma step_config (s : Session) (i : Message * Engines) :
  let w := ws (st (step model_punc s i)) in
  (keeps_mode i = true -> mode w = mode (ws s)) /\
  (keeps_chunk_interval i = true ->
   chunk_interval w = chunk_interval (ws s)) /\
  (keeps_offline_pass i = true ->
   mode_in (mode (ws s)) ["2pass"; "offline"] = true ->
   mode_in (mode w) ["2pass"; "offline"] = true).
Proof.
  destruct i as [[[| | | m] | b] e];
    unfold step, keeps_mode, keeps_chunk_interval, keeps_offline_pass;
    cbn [fst snd]; try (repeat split; auto; fail).
  - destruct (is_ping m) eqn:P; cbn [orb].
    + unfold handle_json. rewrite P. repeat split; auto.
    + destruct (handle_json_config model_punc e s m P)
        as (C1 & _ & C3 & _).
      rewrite C1, C3.
      destruct (m_mode m) as [x |], (m_chunk_interval m) as [n |],
        (m_chunk_size m) as [[l |] |];
        repeat split; auto; discriminate.
  - change (handle_audio model_punc e s b)
      with (step model_punc s (Bytes b, e)).
    destruct (bytes_step_config model_punc s b e) as [C _].
    apply config_inv in C. destruct C as (C1 & C2 & _).
    rewrite C1, C2. repeat split; auto.
Qed.

Lemma join_app (a b : list bytes) : join (a ++ b) = join a ++ join b.
Proof. apply concat_app. Qed.

Lemma join_nonempty (l : list bytes) : join (filter nonempty l) = join l.
Proof.
  induction l as [| a l IH]; [reflexivity |].
  cbn [filter]. unfold join in *.
  destruct a as [| x a]; simpl; [exact IH |]. rewrite IH. reflexivity.
Qed.

Lemma audio_of_cons (i : Message * Engines)
    (rest : list (Message * Engines)) :
  audio_of (i :: rest) = frame_of i ++ audio_of rest.
Proof.
  unfold audio_of, frame_of. cbn [flat_map].
  destruct (fst i); reflexivity.
Qed.

Lemma run_running (s : Session) (i : Message * Engines)
    (rest : list (Message * Engines)) :
  status (run model_punc s (i :: rest)) = Running ->
  status (step model_punc s i) = Running /\
  status (run model_punc (st (step model_punc s i)) rest) = Running.
Proof.
  destruct (status (step model_punc s i)) eqn:R.
  - rewrite run_cons by exact R. auto.
  - rewrite run_stop by exact R. rewrite R. discriminate.
Qed.

(** One step neither loses nor repeats audio on its way to the offline
    engine. *)
Lemma step_conserves (s : Session) (i : Message * Engines) :
  mode_in (mode (ws s)) ["2pass"; "offline"] = true ->
  let r := step model_punc s i in
  join (asr_engine_calls (out r)) ++ join (frames_asr (loc (st r))) =
    join (frames_asr (loc s)) ++ join (frame_of i).
Proof.
  intros M. cbv zeta.
  destruct (step_readings model_punc s i) as (H1 & H2 & _).
  destruct (step_queues s i) as (Q1 & _).
  rewrite H2, join_nonempty, H1, Q1, M, andb_true_r.
  destruct (stop_due s i || vad_end_due s i).
  - unfold join. simpl. rewrite !app_nil_r. apply concat_app.
  - simpl. apply join_app.
Qed.

(** X15.  No audio is lost or repeated on its way to the offline engine.
    As long as the mode is one with an offline pass (["2pass"] or
    ["offline"], at the start and in every control message that sets it)
    and the session runs, the audio handed to the offline engine so far,
    followed by the audio still in [frames_asr], is exactly the audio that
    was pending at the start followed by all the audio received since, in
    order: every byte reaches the offline engine exactly once, or is still
    queued.  This holds whatever the engines answer, the offline engine
    raising included: audio the engine failed on is not handed to it
    again. *)
Theorem offline_audio_conserved (s : Session)
    (inputs : list (Message * Engines)) :
  mode_in (mode (ws s)) ["2pass"; "offline"] = true ->
  forallb keeps_offline_pass inputs = true ->
  status (run model_punc s inputs) = Running ->
  let r := run model_punc s inputs in
  join (asr_engine_calls (out r)) ++ join (frames_asr (loc (st r))) =
    join (frames_asr (loc s)) ++ join (audio_of inputs).
Proof.
  cbv zeta. revert s.
  induction inputs as [| i rest IH]; intros s M K R.
  - simpl. unfold join. simpl. rewrite app_nil_r. reflexivity.
  - cbn [forallb] in K. apply andb_true_iff in K. destruct K as [K1 K2].
    apply run_running in R. destruct R as [R1 R2].
    rewrite run_cons by exact R1. cbn [st out].
    destruct (step_config s i) as (_ & _ & C).
    specialize (IH _ (C K1 M) K2 R2).
    pose proof (step_conserves s i M) as S. cbv zeta in S.
    unfold asr_engine_calls in *. rewrite flat_map_app, join_app.
    rewrite <- app_assoc, IH, app_assoc, S, audio_of_cons, join_app.
    rewrite app_assoc. reflexivity.
Qed.

Lemma total_ms_app (a b : list bytes) :
  total_ms (a ++ b) = total_ms a + total_ms b.
Proof. induction a as [| f a IH]; simpl; [reflexivity | lia]. Qed.

Lemma total_ms_le (fs : list bytes) : total_ms fs <= len (join fs) / 32.
Proof.
  induction fs as [| f fs IH]; [reflexivity |].
  cbn [total_ms]. unfold join in *. cbn [List.concat].
  rewrite len_cat. apply Z.div_le_lower_bound; [lia |].
  pose proof (Z.mul_div_le (len f) 32).
  pose proof (Z.mul_div_le (len (List.concat fs)) 32). lia.
Qed.

Lemma flat_map_nil_app {A B : Type} (f : A -> list B) (l l' : list A) :
  flat_map f (l ++ l') = [] -> flat_map f l = [] /\ flat_map f l' = [].
Proof. rewrite flat_map_app. apply app_eq_nil. Qed.

(** X16.  Between flushes everything is kept.  Over any messages during
    which the session runs and no flush block runs, every frame received is
    appended to [frames_asr] and to the frame history [frames], neither of
    which is ever cut, and the duration counter advances by
    [len(frame) // 32] per frame: the sum of the rounded-down durations,
    which is at most the duration of the audio taken together. *)
Theorem history_grows_between_flushes (s : Session)
    (inputs : list (Message * Engines)) :
  status (run model_punc s inputs) = Running ->
  stop_flushes (out (run model_punc s inputs)) = [] ->
  vad_flushes (out (run model_punc s inputs)) = [] ->
  let r := run model_punc s inputs in
  frames_asr (loc (st r)) = frames_asr (loc s) ++ audio_of inputs /\
  frames (loc (st r)) = frames (loc s) ++ audio_of inputs /\
  vad_pre_idx (ws (st r)) = vad_pre_idx (ws s) + total_ms (audio_of inputs) /\
  total_ms (audio_of inputs) <= len (join (audio_of inputs)) / 32.
Proof.
  cbv zeta. revert s.
  induction inputs as [| i rest IH]; intros s R F1 F2.
  - simpl. rewrite !app_nil_r, Z.add_0_r. repeat split. reflexivity.
  - apply run_running in R. destruct R as [R1 R2].
    rewrite run_cons in * by exact R1. cbn [st out] in *.
    unfold stop_flushes, vad_flushes in F1, F2.
    apply flat_map_nil_app in F1, F2.
    destruct F1 as [F1 F1'], F2 as [F2 F2'].
    destruct (IH _ R2 F1' F2') as (I1 & I2 & I3 & _).
    destruct (step_readings model_punc s i)
      as (_ & _ & _ & _ & _ & H6 & H7 & _).
    unfold stop_flushes, vad_flushes in H6, H7.
    rewrite F1 in H6. rewrite F2 in H7.
    destruct (step_queues s i) as (Q1 & _ & Q3 & Q4).
    destruct (stop_due s i); [discriminate H6 |].
    destruct (vad_end_due s i); [discriminate H7 |].
    cbn [orb] in *.
    rewrite I1, I2, I3, Q1, Q3, Q4, audio_of_cons, total_ms_app.
    rewrite <- !app_assoc.
    repeat split; try lia.
    rewrite <- total_ms_app. apply total_ms_le.
Qed.

Lemma step_queue_bound (N : Z) (s : Session) (i : Message * Engines) :
  0 < N ->
  chunk_interval (ws s) = N ->
  len (frames_asr_online (loc s)) < N ->
  len (frames_asr_online (loc (st (step model_punc s i)))) < N.
Proof.
  intros N0 C L. destruct (step_queues s i) as (_ & -> & _).
  destruct (stop_due s i || vad_end_due s i); [exact N0 |].
  cbn [orb]. unfold online_due, frame_of, fires.
  destruct (fst i) as [j | b]; [rewrite app_nil_r; exact L |].
  rewrite C. destruct (Z.eqb_spec N 0) as [| _]; [lia |]. cbn [negb andb].
  rewrite len_app.
  destruct (Z.eqb_spec ((len (frames_asr_online (loc s)) + 1) mod N) 0)
    as [| E]; [exact N0 |].
  cbn [orb]. destruct (negb _); [exact N0 |]. rewrite len_app.
  destruct (Z.eq_dec (len (frames_asr_online (loc s)) + 1) N) as [EQ |];
    [| lia].
  rewrite EQ, Z.mod_same in E by lia. contradiction.
Qed.

(** X17.  The online queue stays short.  With a chunk interval [N > 0]
    that no control message changes, a queue that holds fewer than [N]
    frames holds fewer than [N] frames after any messages, whatever the
    mode and whatever the engines answer: [frames_asr_online] is emptied at
    the latest when its length reaches [N], also in the modes that have no
    online pass. *)
Theorem online_queue_bounded (N : Z) (s : Session)
    (inputs : list (Message * Engines)) :
  0 < N ->
  chunk_interval (ws s) = N ->
  len (frames_asr_online (loc s)) < N ->
  forallb keeps_chunk_interval inputs = true ->
  let r := run model_punc s inputs in
  chunk_interval (ws (st r)) = N /\
  len (frames_asr_online (loc (st r))) < N.
Proof.
  intros N0. cbv zeta. revert s.
  induction inputs as [| i rest IH]; intros s C L K; [split; assumption |].
  cbn [forallb] in K. apply andb_true_iff in K. destruct K as [K1 K2].
  destruct (step_config s i) as (_ & C' & _).
  pose proof (step_queue_bound N s i N0 C L) as L'.
  specialize (C' K1). rewrite C in C'.
  destruct (status (step model_punc s i)) eqn:R.
  - rewrite run_cons by exact R. cbn [st]. apply IH; assumption.
  - rewrite run_stop by exact R. split; assumption.
Qed.

(** The results a step sends come from passes the mode allows. *)
Lemma step_sent_modes (s : Session) (i : Message * Engines) (m : ResultMsg) :
  (In (SendOffline m) (out (step model_punc s i)) ->
   mode_in (mode (ws s)) ["2pass"; "offline"] = true) /\
  (In (SendOnline m) (out (step model_punc s i)) ->
   mode_in (mode (ws s)) ["2pass"; "online"] = true).
Proof.
  split; intros H.
  - apply step_offline_event in H; [| reflexivity].
    destruct H as [(m0 & _ & _ & _ & _ & H) | (b & s3 & _ & V & _ & H)];
      apply offline_if_mode_sent in H; destruct H as [H _].
    + exact H.
    + apply vad_path_settings in V. apply settings_inv in V.
      destruct V as (V1 & _). rewrite <- V1. exact H.
  - apply step_online_event in H; [| reflexivity].
    destruct H as (b & fire & _ & H). unfold online_stage in H.
    destruct fire; [| contradiction].
    apply online_pass_sent in H. destruct H as [H _]. exact H.
Qed.

Lemma step_gated (s : Session) (i : Message * Engines) :
  let r := step model_punc s i in
  (mode_in (mode (ws s)) ["2pass"; "online"] = false ->
   online_calls (out r) = [] /\ streaming_engine_calls (out r) = [] /\
   sent_online (out r) = []) /\
  (mode_in (mode (ws s)) ["2pass"; "offline"] = false ->
   offline_calls (out r) = [] /\ asr_engine_calls (out r) = [] /\
   sent_offline (out r) = []).
Proof.
  cbv zeta.
  destruct (step_readings model_punc s i) as (H1 & H2 & H3 & H4 & _).
  split; intros M.
  - rewrite H4, H3, M, andb_false_r. repeat split.
    apply no_member_nil. intros ev m I X.
    destruct ev; try contradiction. destruct X as [X | []]. subst m0.
    apply step_sent_modes in I. congruence.
  - rewrite H2, H1, M, andb_false_r. repeat split.
    apply no_member_nil. intros ev m I X.
    destruct ev; try contradiction. destruct X as [X | []]. subst m0.
    apply step_sent_modes in I. congruence.
Qed.

(** X18.  The mode gates the passes.  As long as no control message sets
    the mode, it stays what it was, and over the whole connection: in a
    mode other than ["2pass"] and ["online"] the online pass and the
    streaming engine are never called and no online result is sent; in a
    mode other than ["2pass"] and ["offline"] the offline pass and the
    offline engine are never called and no offline result is sent.  In a
    mode that is none of the three (the comparison is exact), the server
    sends no result at all, though it goes on queueing and flushing. *)
Theorem mode_gates_passes (s : Session) (inputs : list (Message * Engines)) :
  forallb keeps_mode inputs = true ->
  let r := run model_punc s inputs in
  mode (ws (st r)) = mode (ws s) /\
  (mode_in (mode (ws s)) ["2pass"; "online"] = false ->
   online_calls (out r) = [] /\ streaming_engine_calls (out r) = [] /\
   sent_online (out r) = []) /\
  (mode_in (mode (ws s)) ["2pass"; "offline"] = false ->
   offline_calls (out r) = [] /\ asr_engine_calls (out r) = [] /\
   sent_offline (out r) = []).
Proof.
  cbv zeta. revert s.
  induction inputs as [| i rest IH]; intros s K; [repeat split |].
  cbn [forallb] in K. apply andb_true_iff in K. destruct K as [K1 K2].
  destruct (step_config s i) as (C & _). specialize (C K1).
  destruct (step_gated s i) as [G1 G2].
  destruct (status (step model_punc s i)) eqn:R.
  - rewrite run_cons by exact R. cbn [st out].
    destruct (IH (st (step model_punc s i)) K2) as (I0 & I1 & I2).
    rewrite C in I0, I1, I2.
    split; [exact I0 |].
    unfold online_calls, streaming_engine_calls, sent_online,
      offline_calls, asr_engine_calls, sent_offline in *.
    rewrite !flat_map_app.
    split; intros M.
    + destruct (G1 M) as (-> & -> & ->). destruct (I1 M) as (-> & -> & ->).
      repeat split.
    + destruct (G2 M) as (-> & -> & ->). destruct (I2 M) as (-> & -> & ->).
      repeat split.
  - rewrite run_stop by exact R. split; [exact C | split; assumption].
Qed.

(** X19.  What ends a session.  A message ends the receive loop exactly
    when it is a text on which [json.loads] raises an exception other than
    [json.JSONDecodeError] ([RecursionError] on deep nesting, [ValueError]
    on an integer literal beyond the conversion limit), a text that is
    JSON but not an object, a handled control message whose [chunk_size]
    cannot be converted, a binary message while the chunk interval is 0,
    or a binary message on which the VAD engine raises before any VAD call
    of the connection has returned.  Nothing else does: no answer of the
    offline, the punctuation or the streaming engine, raising included,
    ends a session.  The exception line is logged exactly in these cases,
    as the last thing the handler does.  (As everywhere here,
    [websocket.send] is taken to succeed and the values of a control
    message to have their types.) *)
Theorem session_end_causes (s : Session) (i : Message * Engines) :
  let r := step model_punc s i in
  status r = (if fatal s i then Ended else Running) /\
  (fatal s i = true -> exists evs, out r = evs ++ [Log ExceptionLine]) /\
  (fatal s i = false -> ~ In (Log ExceptionLine) (out r)).
Proof.
  cbv zeta.
  destruct i as [[[| | | m] | b] e]; unfold fatal, step; cbn [fst snd].
  - repeat split; try discriminate.
    intros _ [H | []]. discriminate H.
  - repeat split; try discriminate. intros _. exists []. reflexivity.
  - repeat split; try discriminate. intros _. exists []. reflexivity.
  - destruct (is_ping m) eqn:P; cbn [negb andb].
    + unfold handle_json. rewrite P. repeat split; try discriminate.
      intros _ [H | []]. discriminate H.
    + destruct (handle_json_out model_punc e s m P) as (O & R & _).
      rewrite O, R.
      pose proof (on_is_speaking_events model_punc e s (m_is_speaking m))
        as F.
      destruct (m_chunk_size m) as [[l |] |]; repeat split;
        try discriminate; try (intros _; eexists; reflexivity);
        intros _ H; rewrite app_nil_r in H;
        clash H F; destruct H as [H | H]; discriminate H.
  - change (handle_audio model_punc e s b)
      with (step model_punc s (Bytes b, e)).
    destruct (Z.eqb_spec (chunk_interval (ws s)) 0) as [Z0 | N];
      cbn [orb].
    + rewrite step_bytes_zero by exact Z0. repeat split; try discriminate.
      intros _. exists []. reflexivity.
    + rewrite step_bytes_shape by exact N. cbv zeta.
      set (p2 := online_stage e (accumulate s b) (fires s b)).
      destruct (online_stage_accumulate e s b (fires s b))
        as (_ & L1 & _).
      fold p2 in L1.
      pose proof (vad_stage_none e (fst p2) b) as VN. rewrite L1 in VN.
      pose proof (online_stage_events e (accumulate s b) (fires s b)) as FO.
      pose proof (vad_stage_events e (fst p2) b) as FV.
      fold p2 in FO.
      destruct (fst (vad_stage e (fst p2) b)) as [s3 |] eqn:V;
        cbn [status out].
      * pose proof (offline_stage_events model_punc e s3) as FF.
        assert (match value (vad e), speech_start_i (loc s) with
                | None, None => true
                | _, _ => false
                end = false) as X.
        { destruct (value (vad e)); [reflexivity |].
          destruct (speech_start_i (loc s)); [reflexivity |].
          destruct VN as [_ VN]. discriminate (VN (conj eq_refl eq_refl)). }
        rewrite X. repeat split; try discriminate.
        intros _ H.
        apply in_app_or in H. destruct H as [H | H]; [clash H FO |].
        apply in_app_or in H. destruct H as [H | H]; [clash H FV |].
        clash H FF.
      * destruct VN as [VN _]. destruct (VN eq_refl) as [-> ->].
        repeat split; try discriminate.
        intros _. eexists. rewrite app_assoc. reflexivity.
Qed.

Lemma online_stage_cache (e : Engines) (s : Session) (fire : bool) :
  online_cache (ws (fst (online_stage e s fire))) =
    if fire && mode_in (mode (ws s)) ["2pass"; "online"] &&
       nonempty (join (frames_asr_online (loc s)))
    then cache_after (asr_streaming e)
    else online_cache (ws s).
Proof.
  unfold online_stage, online_pass, process_asr_online, nonempty.
  destruct fire; [| reflexivity].
  destruct (mode_in _ _); [| reflexivity]. cbn [andb].
  destruct (len (join (frames_asr_online (loc s))) =? 0); [reflexivity |].
  destruct (value (asr_streaming e)); reflexivity.
Qed.

(** The two engine caches after a step. *)
Lemma step_caches (s : Session) (i : Message * Engines) :
  let r := step model_punc s i in
  online_cache (ws (st r)) =
    (if stop_due s i || vad_end_due s i then empty_cache
     else if online_due s i && mode_in (mode (ws s)) ["2pass"; "online"] &&
             nonempty (join (frames_asr_online (loc s) ++ frame_of i))
          then cache_after (asr_streaming (snd i))
          else online_cache (ws s)) /\
  (status r = Running ->
   vad_cache (ws (st r)) =
     if stop_due s i then empty_cache
     else match fst i with
          | Bytes _ => cache_after (vad (snd i))
          | Str _ => vad_cache (ws s)
          end).
Proof.
  destruct i as [[[| | | m] | b] e];
    unfold step, stop_due, vad_end_due, online_due, frame_of;
    cbn [fst snd orb andb]; try (split; reflexivity).
  - rewrite !orb_false_r.
    destruct (is_ping m) eqn:P; cbn [negb andb].
    + unfold handle_json. rewrite P. split; reflexivity.
    + destruct (handle_json_ws model_punc e s m P)
        as (_ & _ & -> & -> & _).
      unfold on_is_speaking.
      destruct (m_is_speaking m) as [[|] |]; cbn [negb andb];
        try (split; reflexivity).
      destruct (negb (len (frames_asr (loc s)) =? 0));
        [| split; reflexivity].
      destruct (flush_on_stop_state model_punc e
                  {| ws := set_online_is_final (set_is_speaking (ws s) false)
                             true;
                     loc := loc s |}) as [_ ->].
      split; reflexivity.
  - change (handle_audio model_punc e s b)
      with (step model_punc s (Bytes b, e)).
    destruct (Z.eqb_spec (chunk_interval (ws s)) 0) as [Z0 | N];
      cbn [negb andb orb].
    + rewrite step_bytes_zero by exact Z0. split; [reflexivity | discriminate].
    + rewrite step_bytes_shape by exact N. cbv zeta.
      set (p2 := online_stage e (accumulate s b) (fires s b)).
      destruct (online_stage_accumulate e s b (fires s b))
        as (_ & L1 & L2 & _).
      pose proof (online_stage_cache e (accumulate s b) (fires s b)) as OC.
      fold p2 in L1, L2, OC.
      change (mode (ws (accumulate s b))) with (mode (ws s)) in OC.
      change (frames_asr_online (loc (accumulate s b)))
        with (frames_asr_online (loc s) ++ [b]) in OC.
      change (online_cache (ws (accumulate s b)))
        with (online_cache (ws s)) in OC.
      destruct (fst (vad_stage e (fst p2) b)) as [s3 |] eqn:V;
        cbn [st status].
      * destruct (vad_stage_end e (fst p2) s3 b V) as (E & _).
        rewrite (vad_end_seen_ext s (fst p2) e L1 L2) in E.
        destruct (vad_stage_state e (fst p2) s3 b V) as (W & _).
        unfold offline_stage. rewrite E.
        destruct (vad_end_seen s e).
        -- destruct (flush_on_vad_end_state model_punc e s3) as [_ ->].
           destruct (offline_if_mode_caches model_punc e (ws s3)
                       (frames_asr (loc s3))) as (C1 & _).
           split; [reflexivity |]. intros _.
           change (vad_cache (set_online_cache ?w _)) with (vad_cache w).
           rewrite C1, W. reflexivity.
        -- cbn [fst]. rewrite W. split; [exact OC | reflexivity].
      * apply vad_stage_none in V. destruct V as [V1 V2].
        assert (vad_end_seen s e = false) as E.
        { unfold vad_end_seen. rewrite V1, <- L1, V2. reflexivity. }
        rewrite E. split; [exact OC | discriminate].
Qed.

(** X20.  The engine caches after a message.  The streaming cache is
    [{}] after either flush; otherwise it is what the streaming engine
    left if that engine was called on this message, and unchanged if not:
    within an utterance it is carried from chunk to chunk.  The VAD cache,
    when the message leaves the session running, is [{}] after the flush of
    a client stop, what the VAD engine left after any binary message (a
    VAD speech end does not reset it), and otherwise unchanged. *)
Theorem caches_after_message (s : Session) (i : Message * Engines) :
  let r := step model_punc s i in
  online_cache (ws (st r)) =
    (if stop_due s i || vad_end_due s i then empty_cache
     else if online_due s i && mode_in (mode (ws s)) ["2pass"; "online"] &&
             nonempty (join (frames_asr_online (loc s) ++ frame_of i))
          then cache_after (asr_streaming (snd i))
          else online_cache (ws s)) /\
  (status r = Running ->
   vad_cache (ws (st r)) =
     if stop_due s i then empty_cache
     else match fst i with
          | Bytes _ => cache_after (vad (snd i))
          | Str _ => vad_cache (ws s)
          end).
Proof. apply step_caches. Qed.



(** ** Flushes, repeated triggers and the rhythm of the online pass *)

Lemma stop_due_intro (s : Session) (e : Engines) (m : ControlMsg) :
  is_ping m = false -> m_is_speaking m = Some false ->
  frames_asr (loc s) <> [] ->
  stop_due s (Str (Dict m), e) = true.
Proof.
  intros P K F. unfold stop_due. cbn [fst]. rewrite P, K.
  destruct (frames_asr (loc s)); [contradiction | reflexivity].
Qed.

Lemma vad_end_due_intro (s : Session) (b : bytes) (e : Engines) :
  chunk_interval (ws s) <> 0 -> vad_end_seen s e = true ->
  vad_end_due s (Bytes b, e) = true.
Proof.
  intros N V. unfold vad_end_due. cbn [fst snd]. rewrite V.
  destruct (Z.eqb_spec (chunk_interval (ws s)) 0); [contradiction |].
  reflexivity.
Qed.

(** A binary message on which the VAD path flushes leaves the session
    running. *)
Lemma vad_end_step_running (s : Session) (b : bytes) (e : Engines) :
  chunk_interval (ws s) <> 0 -> vad_end_seen s e = true ->
  status (step model_punc s (Bytes b, e)) = Running.
Proof.
  intros N V. rewrite step_bytes_shape by exact N. cbv zeta.
  set (p2 := online_stage e (accumulate s b) (fires s b)).
  destruct (online_stage_accumulate e s b (fires s b)) as (_ & L1 & _).
  fold p2 in L1.
  destruct (fst (vad_stage e (fst p2) b)) as [s3 |] eqn:K; [reflexivity |].
  apply vad_stage_none in K. destruct K as [K1 K2].
  unfold vad_end_seen in V. rewrite K1, <- L1, K2 in V. discriminate V.
Qed.

(** C5.  Right after an offline flush, of either kind, both queues are
    empty and the frame history holds at most 20 frames.  A control
    message that is handled (not a ping) and says [is_speaking] false
    while [frames_asr] is not empty runs the flush of the stop path and
    leaves [frames_asr], [frames_asr_online] and [frames] empty.  A binary
    message, with a chunk interval other than 0, on which the VAD path
    sees a speech end runs the flush of the VAD path, leaves the session
    running, [frames_asr] and [frames_asr_online] empty, and of [frames]
    the last 20 entries, the frame just received included.  The VAD path
    sees a speech end in particular whenever the engine returns a single
    segment whose end is not -1.  And whenever the log line of a flush is
    in the trace of a message, the queues are empty after it and the
    history is at most 20 long. *)
Theorem flush_empties_queues :
  (forall (s : Session) (e : Engines) (m : ControlMsg),
     is_ping m = false ->
     m_is_speaking m = Some false ->
     frames_asr (loc s) <> [] ->
     let r := step model_punc s (Str (Dict m), e) in
     In (Log (OfflineOnStop (len (frames_asr (loc s))))) (out r) /\
     frames_asr (loc (st r)) = [] /\
     frames_asr_online (loc (st r)) = [] /\
     frames (loc (st r)) = []) /\
  (forall (s : Session) (b : bytes) (e : Engines),
     chunk_interval (ws s) <> 0 ->
     vad_end_seen s e = true ->
     let r := step model_punc s (Bytes b, e) in
     status r = Running /\
     In (Log (OfflineOnVadEnd (len (frames_asr (loc s)) + 1))) (out r) /\
     frames_asr (loc (st r)) = [] /\
     frames_asr_online (loc (st r)) = [] /\
     frames (loc (st r)) = last20 (frames (loc s) ++ [b]) /\
     (List.length (frames (loc (st r))) <= 20)%nat) /\
  (forall (s : Session) (e : Engines) (a c : Z),
     value (vad e) = Some [(a, c)] -> c <> -1 -> vad_end_seen s e = true) /\
  (forall (s : Session) (i : Message * Engines) (n : Z),
     let r := step model_punc s i in
     In (Log (OfflineOnStop n)) (out r) \/
     In (Log (OfflineOnVadEnd n)) (out r) ->
     frames_asr (loc (st r)) = [] /\
     frames_asr_online (loc (st r)) = [] /\
     (List.length (frames (loc (st r))) <= 20)%nat).
Proof.
  split; [| split; [| split]].
  - intros s e m P K F. cbv zeta.
    pose proof (stop_due_intro s e m P K F) as D.
    destruct (step_queues s (Str (Dict m), e)) as (Q1 & Q2 & Q3 & _).
    destruct (step_readings model_punc s (Str (Dict m), e))
      as (_ & _ & _ & _ & _ & R6 & _).
    rewrite D in *. cbn [orb] in *.
    repeat split; try assumption.
    apply in_stop_flushes. rewrite R6. left. reflexivity.
  - intros s b e N V. cbv zeta.
    pose proof (vad_end_due_intro s b e N V) as D.
    destruct (step_queues s (Bytes b, e)) as (Q1 & Q2 & Q3 & _).
    destruct (step_readings model_punc s (Bytes b, e))
      as (_ & _ & _ & _ & _ & _ & R7 & _).
    rewrite D in *.
    change (stop_due s (Bytes b, e)) with false in *.
    change (frame_of (Bytes b, e)) with [b] in *.
    cbn [orb] in *.
    split; [apply vad_end_step_running; assumption |].
    split; [apply in_vad_flushes; rewrite R7; left; reflexivity |].
    repeat split; try assumption.
    rewrite Q3. apply last20_length.
  - intros s e a c V C. unfold vad_end_seen. rewrite V.
    destruct (Z.eqb_spec c (-1)); [contradiction | reflexivity].
  - intros s i n. apply flushed_step_queues.
Qed.









End Invariants.



Lemma flush_empties_queues_witness :
  (let r := step true after_one_frame (Str (Dict stop_message), talking) in
   In (Log (OfflineOnStop 1)) (out r) /\
   frames_asr (loc (st r)) = [] /\
   frames_asr_online (loc (st r)) = [] /\
   frames (loc (st r)) = []) /\
  (let r := step true after_one_frame (Bytes frame1, talking_end) in
   status r = Running /\
   In (Log (OfflineOnVadEnd 2)) (out r) /\
   frames_asr (loc (st r)) = [] /\
   frames_asr_online (loc (st r)) = [] /\
   frames (loc (st r)) = [frame1; frame1] /\
   (List.length (frames (loc (st r))) <= 20)%nat).
Proof.
  destruct (flush_empties_queues true) as (S & V & E & _).
  split.
  - apply (S after_one_frame talking stop_message);
      [reflexivity | reflexivity | vm_compute; discriminate].
  - apply (V after_one_frame frame1 talking_end);
      [vm_compute; discriminate |].
    apply (E after_one_frame talking_end (-1) 3200);
      [reflexivity | discriminate].
Defined.



(** C8 fails: a text on which [json.loads] raises something else than
    [json.JSONDecodeError], such as a hundred thousand opening brackets
    ([RecursionError]), is not parseable JSON, yet it is not dropped: the
    exception passes the inner handler and ends the session. *)
Lemma deep_nesting_ends_session :
  ~ unparseable_dropped_as_specified true initial (Str OtherError, silent).
Proof.
  intros H. destruct (H eq_refl) as (_ & _ & R). discriminate R.
Qed.

(** * Further properties: the server around the sessions *)

Section Lifecycle.

Import Server.

Variable args : Args.

Lemma load_models_failed (ld : Loading) (g : Globals) :
  models_loaded g = false ->
  raised (load_models args ld g) = true ->
  models_loaded (globals (load_models args ld g)) = false /\
  websocket_users (globals (load_models args ld g)) = websocket_users g.
Proof.
  unfold load_models, AutoModel. intros L. rewrite L.
  destruct ld as [[] [] [] [] []]; cbn -[String.eqb];
    destruct (String.eqb (punc_model args) ""); cbn;
    intros H; try discriminate H; split; auto.
Qed.

Lemma load_models_fresh (ld : Loading) (g g' : Globals) :
  models_loaded g = false ->
  models_loaded g' = false ->
  websocket_users g' = websocket_users g ->
  calls (load_models args ld g') = calls (load_models args ld g) /\
  raised (load_models args ld g') = raised (load_models args ld g) /\
  (raised (load_models args ld g) = false ->
   globals (load_models args ld g') = globals (load_models args ld g)).
Proof.
  unfold load_models, AutoModel. intros -> -> U.
  destruct ld as [[] [] [] [] []]; cbn -[String.eqb];
    destruct (String.eqb (punc_model args) ""); cbn;
    repeat split; try discriminate; intros _;
    unfold set_models_loaded, set_model_punc, set_model_vad,
      set_model_asr_streaming, set_model_asr; cbn; rewrite U; reflexivity.
Qed.

Lemma load_models_done (ld : Loading) (g : Globals) :
  raised (load_models args ld g) = false ->
  models_loaded (globals (load_models args ld g)) = true /\
  websocket_users (globals (load_models args ld g)) = websocket_users g /\
  (models_loaded g = false ->
   models (globals (load_models args ld g)) = expected_models args) /\
  (models_loaded g = true ->
   load_models args ld g = {| globals := g; calls := []; raised := false |}).
Proof.
  unfold load_models, AutoModel, expected_models, models.
  destruct (models_loaded g) eqn:L; cbn -[String.eqb].
  - intros _. split; [exact L | split; [reflexivity |]].
    split; [discriminate | reflexivity].
  - destruct ld as [[] [] [] [] []]; cbn -[String.eqb];
      destruct (String.eqb (punc_model args) ""); cbn;
      intros H; try discriminate H; repeat split; discriminate.
Qed.

(** X22.  When loading the models fails.  If [load_models] raises on a
    connection, that connection is closed without being served: it does
    not join [websocket_users] and no message of it is handled.
    [models_loaded] stays false, so the next connection loads again, and
    from the start: it makes the same [AutoModel] calls, with the same
    outcome, as if the failed attempt had not happened, building again
    the models the failed attempt had built. *)
Theorem failed_load_rejects_connection (ld : Loading) (g : Globals)
    (websocket : nat) :
  models_loaded g = false ->
  raised (load_models args ld g) = true ->
  let o := ws_serve_open args ld g websocket in
  accepted o = false /\
  websocket_users (o_globals o) = websocket_users g /\
  models_loaded (o_globals o) = false /\
  (forall during inputs,
     s_result (ws_serve args ld g websocket during inputs) = None) /\
  (forall ld',
     calls (load_models args ld' (o_globals o)) =
       calls (load_models args ld' g) /\
     raised (load_models args ld' (o_globals o)) =
       raised (load_models args ld' g) /\
     (raised (load_models args ld' g) = false ->
      globals (load_models args ld' (o_globals o)) =
        globals (load_models args ld' g))).
Proof.
  intros L R. destruct (load_models_failed ld g L R) as [L' U'].
  unfold ws_serve, ws_serve_open. rewrite L. cbn [negb]. rewrite R.
  cbn [accepted o_globals].
  repeat split; auto; apply load_models_fresh; auto.
Qed.

Lemma ws_serve_open_loaded (ld : Loading) (g : Globals) (websocket : nat) :
  models_loaded g = true ->
  ws_serve_open args ld g websocket =
    {| o_globals :=
         set_websocket_users g (add websocket (websocket_users g));
       o_calls := []; accepted := true |}.
Proof. unfold ws_serve_open. intros ->. reflexivity. Qed.

Lemma happen_loaded (g : Globals) (h : Happening) :
  models_loaded g = true ->
  snd (happen args g h) = [] /\
  models (fst (happen args g h)) = models g /\
  models_loaded (fst (happen args g h)) = true.
Proof.
  intros L. destruct h as [websocket ld | websocket]; cbn [happen].
  - rewrite ws_serve_open_loaded by exact L. repeat split; auto.
  - repeat split; auto.
Qed.

Lemma serve_cons (g : Globals) (h : Happening) (hs : list Happening) :
  serve args g (h :: hs) =
    (fst (serve args (fst (happen args g h)) hs),
     snd (happen args g h) ++ snd (serve args (fst (happen args g h)) hs)).
Proof.
  cbn [serve]. destruct (happen args g h) as [g1 c1]. cbn [fst snd].
  destruct (serve args g1 hs) as [g2 c2]. reflexivity.
Qed.

Lemma serve_loaded (g : Globals) (hs : list Happening) :
  models_loaded g = true ->
  snd (serve args g hs) = [] /\
  models (fst (serve args g hs)) = models g /\
  models_loaded (fst (serve args g hs)) = true.
Proof.
  revert g.
  induction hs as [| h hs IH]; intros g L; [repeat split; auto |].
  rewrite serve_cons. cbn [fst snd].
  destruct (happen_loaded g h L) as (H1 & H2 & H3).
  destruct (IH _ H3) as (I1 & I2 & I3).
  rewrite H1, I1, I2, H2. repeat split; auto.
Qed.

(** X23.  The models are loaded once.  Once [models_loaded] is true,
    whatever connections open and end afterwards, no [AutoModel] call is
    made any more and the four models stay the objects they are: later
    connections are served by the models the first successful load
    built. *)
Theorem models_loaded_once (g : Globals) (hs : list Happening) :
  models_loaded g = true ->
  let r := serve args g hs in
  snd r = [] /\ models (fst r) = models g /\ models_loaded (fst r) = true.
Proof.
  cbv zeta. revert g.
  induction hs as [| h hs IH]; intros g L; [repeat split; auto |].
  rewrite serve_cons. cbn [fst snd].
  destruct (happen_loaded g h L) as (H1 & H2 & H3).
  destruct (IH _ H3) as (I1 & I2 & I3).
  rewrite H1, I1, I2, H2. repeat split; auto.
Qed.

Lemma happen_complete (g : Globals) (h : Happening) :
  (models_loaded g = true -> models g = expected_models args) ->
  models_loaded (fst (happen args g h)) = true ->
  models (fst (happen args g h)) = expected_models args.
Proof.
  intros I. destruct (models_loaded g) eqn:L.
  - intros _. destruct (happen_loaded g h L) as (_ & -> & _). auto.
  - destruct h as [websocket ld | websocket]; cbn [happen fst];
      [| cbn; congruence].
    unfold ws_serve_open. rewrite L. cbn [negb].
    destruct (raised (load_models args ld g)) eqn:R; cbn [o_globals].
    + destruct (load_models_failed ld g L R) as [L' _]. congruence.
    + intros _. destruct (load_models_done ld g R) as (_ & _ & M & _).
      specialize (M L). exact M.
Qed.

Lemma serve_complete (g : Globals) (hs : list Happening) :
  (models_loaded g = true -> models g = expected_models args) ->
  models_loaded (fst (serve args g hs)) = true ->
  models (fst (serve args g hs)) = expected_models args.
Proof.
  revert g. induction hs as [| h hs IH]; intros g I; [exact I |].
  rewrite serve_cons. cbn [fst]. apply IH. apply happen_complete. exact I.
Qed.

(** X24.  What is loaded.  However the server got there from its start
    (connections opening, loads failing and being tried again,
    connections ending), once [models_loaded] is true the offline, the
    streaming and the VAD model are the ones the arguments name, and there
    is a punctuation model exactly if [--punc_model] is not the empty
    string. *)
Theorem loaded_models_complete (hs : list Happening) :
  let g := fst (serve args startup hs) in
  models_loaded g = true ->
  models g = expected_models args /\
  punctuates g = negb (String.eqb (punc_model args) "").
Proof.
  cbv zeta. intros L.
  assert (models (fst (serve args startup hs)) = expected_models args) as M
    by (apply serve_complete; [discriminate | exact L]).
  split; [exact M |].
  unfold punctuates. unfold models, expected_models in M.
  injection M as _ _ _ ->.
  destruct (String.eqb (punc_model args) ""); reflexivity.
Qed.

Lemma in_add (x websocket : nat) (users : list nat) :
  In x (add websocket users) <-> x = websocket \/ In x users.
Proof.
  unfold add. destruct (existsb (Nat.eqb websocket) users) eqn:E.
  - apply existsb_exists in E. destruct E as (y & I & E).
    apply Nat.eqb_eq in E. subst y. intuition congruence.
  - simpl. intuition congruence.
Qed.

Lemma in_discard (x websocket : nat) (users : list nat) :
  In x (discard websocket users) <-> In x users /\ x <> websocket.
Proof.
  unfold discard. rewrite filter_In, negb_true_iff, Nat.eqb_neq.
  intuition congruence.
Qed.

Lemma ws_serve_open_users (ld : Loading) (g : Globals) (websocket : nat) :
  let o := ws_serve_open args ld g websocket in
  websocket_users (o_globals o) =
    if accepted o then add websocket (websocket_users g)
    else websocket_users g.
Proof.
  cbv zeta. unfold ws_serve_open.
  destruct (models_loaded g) eqn:L; cbn [negb raised]; [reflexivity |].
  destruct (raised (load_models args ld g)) eqn:R;
    cbn [accepted o_globals].
  - apply (load_models_failed ld g L R).
  - destruct (load_models_done ld g R) as (_ & U & _).
    cbn [websocket_users set_websocket_users]. rewrite U. reflexivity.
Qed.

Lemma ws_serve_open_accepted (ld : Loading) (g : Globals) (websocket : nat) :
  accepted (ws_serve_open args ld g websocket) = true ->
  models_loaded (o_globals (ws_serve_open args ld g websocket)) = true.
Proof.
  unfold ws_serve_open.
  destruct (models_loaded g) eqn:L; cbn [negb raised accepted].
  - intros _. exact L.
  - destruct (raised (load_models args ld g)) eqn:R; cbn; [discriminate |].
    intros _. apply (load_models_done ld g R).
Qed.

(** What happens to other connections leaves a connection's membership
    alone. *)
Lemma serve_users_other (x : nat) (hs : list Happening) (g : Globals) :
  (forall h, In h hs -> concerns h <> x) ->
  (In x (websocket_users (fst (serve args g hs))) <->
   In x (websocket_users g)).
Proof.
  revert g. induction hs as [| h hs IH]; intros g H; [reflexivity |].
  rewrite serve_cons. cbn [fst].
  rewrite IH by (intros h' I; apply H; right; exact I).
  assert (concerns h <> x) as N by (apply H; left; reflexivity).
  destruct h as [websocket ld | websocket]; cbn [happen fst concerns] in *.
  - pose proof (ws_serve_open_users ld g websocket) as U. cbv zeta in U.
    rewrite U.
    destruct (accepted (ws_serve_open args ld g websocket));
      [| reflexivity].
    rewrite in_add. intuition congruence.
  - unfold ws_serve_finally. cbn [websocket_users set_websocket_users].
    rewrite in_discard. intuition congruence.
Qed.

(** X25.  A connection leaves no trace in [websocket_users].  When
    [ws_serve] returns for a connection it accepted, however its receive
    loop ended and whatever connections opened and ended while it was
    served, the connection is not in [websocket_users].  Its [finally]
    changes the membership of no other connection: every other connection
    is in the set exactly if it was just before, and a connection to which
    nothing happened meanwhile exactly if it was when this one opened.
    At every point of the session the models are the ones the connection
    was accepted with.  A connection that was turned away never entered
    the set.  A session is run exactly for the accepted connections. *)
Theorem connection_deregistered (ld : Loading) (g : Globals)
    (websocket : nat) (during : list Happening)
    (inputs : list (Message * Engines)) :
  let o := ws_serve_open args ld g websocket in
  let r := ws_serve args ld g websocket during inputs in
  (s_accepted r = true ->
   ~ In websocket (websocket_users (s_globals r)) /\
   (forall x,
      x <> websocket ->
      (In x (websocket_users (s_globals r)) <->
       In x (websocket_users (fst (serve args (o_globals o) during))))) /\
   (forall x,
      x <> websocket ->
      (forall h, In h during -> concerns h <> x) ->
      (In x (websocket_users (s_globals r)) <->
       In x (websocket_users g))) /\
   (forall d1 d2,
      during = d1 ++ d2 ->
      models (fst (serve args (o_globals o) d1)) = models (o_globals o)) /\
   models (s_globals r) = models (o_globals o)) /\
  (s_accepted r = false ->
   websocket_users (s_globals r) = websocket_users g) /\
  (s_accepted r = true <-> s_result r <> None).
Proof.
  cbv zeta. unfold ws_serve.
  pose proof (ws_serve_open_users ld g websocket) as U. cbv zeta in U.
  pose proof (ws_serve_open_accepted ld g websocket) as L.
  destruct (accepted (ws_serve_open args ld g websocket));
    cbn [s_accepted s_globals s_result].
  - split; [| split; [discriminate | split; [discriminate | reflexivity]]].
    intros _. unfold ws_serve_finally.
    cbn [websocket_users set_websocket_users].
    split; [| split; [| split; [| split]]].
    + rewrite in_discard. intros [_ H]. apply H. reflexivity.
    + intros x N. rewrite in_discard. intuition congruence.
    + intros x N H. rewrite in_discard, serve_users_other by exact H.
      rewrite U, in_add. intuition congruence.
    + intros d1 d2 _.
      apply (serve_loaded (o_globals (ws_serve_open args ld g websocket))
               d1 (L eq_refl)).
    + destruct (serve_loaded (o_globals (ws_serve_open args ld g websocket))
                  during (L eq_refl)) as (_ & M & _).
      exact M.
  - split; [discriminate | split; [intros _; exact U |]].
    split; [discriminate | intros H; contradiction].
Qed.

(** X26.  Every session punctuates, or none does.  A connection that the
    server accepts, at whatever point of the server's life, is served by
    the receive loop started from the initial session state, and its
    offline results are punctuated exactly if [--punc_model] is not the
    empty string. *)
Theorem session_punctuates_iff_configured (hs : list Happening)
    (ld : Loading) (websocket : nat) (during : list Happening)
    (inputs : list (Message * Engines)) :
  let g := fst (serve args startup hs) in
  let r := ws_serve args ld g websocket during inputs in
  s_accepted r = true ->
  s_result r =
    Some (run (negb (String.eqb (punc_model args) "")) initial inputs) /\
  models_loaded (s_globals r) = true.
Proof.
  cbv zeta. set (g := fst (serve args startup hs)).
  assert (models_loaded g = true -> models g = expected_models args) as I
    by (apply serve_complete; discriminate).
  pose proof (happen_complete g (Opens websocket ld) I) as C.
  unfold ws_serve. cbn [happen fst] in C.
  destruct (accepted (ws_serve_open args ld g websocket)) eqn:A;
    cbn [s_accepted s_result s_globals]; [| discriminate].
  intros _.
  assert (models_loaded (o_globals (ws_serve_open args ld g websocket))
          = true) as L.
  { revert A. unfold ws_serve_open.
    destruct (models_loaded g) eqn:L; cbn [negb raised accepted].
    - intros _. exact L.
    - destruct (raised (load_models args ld g)) eqn:R; cbn; [discriminate |].
      intros _. apply (load_models_done ld g R). }
  specialize (C L).
  split;
    [| apply (serve_loaded
                (o_globals (ws_serve_open args ld g websocket)) during L)].
  unfold punctuates. unfold models, expected_models in C.
  injection C as _ _ _ ->.
  destruct (String.eqb (punc_model args) ""); reflexivity.
Qed.

End Lifecycle.

(** * Instances of the further properties *)

Lemma offline_result_text_witness :
  let m := offline_message (set_punc_cache (ws initial) [2]) "hello." in
  frame1 <> [] /\ r_text m <> "" /\
  exists text,
    asr talking = Some text /\ text <> "" /\
    value (punc talking) = Some (r_text m).
Proof.
  apply (proj1 (offline_result_text true talking (ws initial) frame1)).
  member.
Defined.

Lemma result_labels_witness :
  let i := (Str (Dict stop_bad_chunk), talking) in
  let m := offline_message
             (set_punc_cache
                (set_online_is_final
                   (set_is_speaking (ws after_one_frame) false) true) [2])
             "hello." in
  r_wav_name m = wav_name (ws after_one_frame) /\ r_text m <> "" /\
  (mode (ws after_one_frame) = "2pass" /\ r_mode m = "2pass-offline" \/
   mode (ws after_one_frame) = "offline" /\ r_mode m = "offline").
Proof.
  apply (proj1 (result_labels true after_one_frame
                  (Str (Dict stop_bad_chunk), talking) _)).
  member.
Defined.

Lemma stop_result_is_final_witness :
  let i := (Str (Dict stop_message), talking) in
  let m := offline_message
             (set_punc_cache
                (set_online_is_final
                   (set_is_speaking (ws after_one_frame) false) true) [2])
             "hello." in
  client_stop i /\
  r_is_final m = String.eqb (mode (ws after_one_frame)) "offline" /\
  (mode (ws after_one_frame) = "2pass" -> r_is_final m = false).
Proof.
  apply (stop_result_is_final true after_one_frame
           (Str (Dict stop_message), talking)).
  - reflexivity.
  - member.
Defined.

Lemma one_result_per_pass_witness :
  sent_online (out (step true after_one_frame
                      (Str (Dict stop_message), talking))) = [] /\
  stop_due after_one_frame (Str (Dict stop_message), talking)
  || vad_end_due after_one_frame (Str (Dict stop_message), talking) = true.
Proof.
  destruct (one_result_per_pass true after_one_frame
              (Str (Dict stop_message), talking)) as (_ & _ & T & F & _).
  split; [apply T; reflexivity | apply F; vm_compute; discriminate].
Defined.

Lemma vad_failure_witness :
  let s := st (step true initial (Bytes frame1, ending)) in
  let r := step true s (Bytes frame1, vad_down) in
  In (Log ErrorVad) (out r) /\
  status r = Running /\
  speech_end_i (loc (st r)) = 3200 /\
  vad_flushes (out r) = [1] /\
  status (step true initial (Bytes frame1, vad_down)) = Ended.
Proof.
  destruct (vad_failure true (st (step true initial (Bytes frame1, ending)))
              frame1 vad_down) as (E & _ & K & _);
    [vm_compute; discriminate | reflexivity |].
  destruct (K (-1) eq_refl) as (R & _ & X & F).
  destruct (vad_failure true initial frame1 vad_down) as (_ & U & _);
    [vm_compute; discriminate | reflexivity |].
  destruct (U eq_refl) as (R0 & _).
  repeat split; assumption.
Defined.

Lemma bad_chunk_size_ends_after_flush_witness :
  let r := step true after_one_frame (Str (Dict stop_bad_chunk), talking) in
  let r0 := step true after_one_frame
              (Str (Dict (before_chunk_size stop_bad_chunk)), talking) in
  status r = Ended /\ status r0 = Running /\
  out r = out r0 ++ [Log ExceptionLine] /\
  st r = st r0.
Proof.
  apply (bad_chunk_size_ends_after_flush true after_one_frame talking
           stop_bad_chunk); reflexivity.
Defined.

Lemma control_message_config_witness :
  let w := ws (st (step true after_one_frame
                     (Str (Dict stop_bad_chunk), talking))) in
  is_speaking w = false /\ chunk_interval w = 10 /\ wav_name w = "b" /\
  mode w = "2pass" /\ asr_hotword w = None /\
  online_chunk_size w = [5; 10; 5].
Proof.
  apply (control_message_config true talking after_one_frame
           stop_bad_chunk).
  reflexivity.
Defined.

Lemma ignorable_messages_transparent_witness :
  let inputs := [(Bytes frame1, silent); (Str (Dict ping_message), talking);
                 (Str JSONDecodeError, talking); (Bytes frame1, silent)] in
  let r := run true initial inputs in
  let r' := run true initial
              [(Bytes frame1, silent); (Bytes frame1, silent)] in
  st r = st r' /\ status r = status r' /\
  filter (fun ev => negb (chatter ev)) (out r) = out r' /\
  (status r = Running ->
   List.length (filter is_pong (out r)) = 1%nat).
Proof.
  apply (ignorable_messages_transparent true initial
           [(Bytes frame1, silent); (Str (Dict ping_message), talking);
            (Str JSONDecodeError, talking); (Bytes frame1, silent)]).
Defined.

Lemma offline_audio_conserved_witness :
  let inputs := [(Bytes frame1, deaf); (Bytes frame1, talking_end);
                 (Str (Dict offline_mode), silent); (Bytes frame1, silent)] in
  let r := run true initial inputs in
  join (asr_engine_calls (out r)) ++ join (frames_asr (loc (st r))) =
    join (frames_asr (loc initial)) ++ join (audio_of inputs).
Proof.
  apply (offline_audio_conserved true initial
           [(Bytes frame1, deaf); (Bytes frame1, talking_end);
            (Str (Dict offline_mode), silent); (Bytes frame1, silent)]);
    reflexivity.
Defined.

Lemma history_grows_between_flushes_witness :
  let inputs := [(Bytes frame1, silent);
                 (Str (Dict scenario_B_control), silent);
                 (Bytes frame1, two_segments)] in
  let r := run true initial inputs in
  frames_asr (loc (st r)) = frames_asr (loc initial) ++ audio_of inputs /\
  frames (loc (st r)) = frames (loc initial) ++ audio_of inputs /\
  vad_pre_idx (ws (st r)) =
    vad_pre_idx (ws initial) + total_ms (audio_of inputs) /\
  total_ms (audio_of inputs) <= len (join (audio_of inputs)) / 32.
Proof.
  apply (history_grows_between_flushes true initial
           [(Bytes frame1, silent);
            (Str (Dict scenario_B_control), silent);
            (Bytes frame1, two_segments)]);
    reflexivity.
Defined.

Lemma online_queue_bounded_witness :
  let s := st (step true initial (Str (Dict offline_mode), silent)) in
  let r := run true s
             [(Bytes frame1, silent); (Str (Dict stop_message), talking);
              (Bytes frame1, vad_down)] in
  chunk_interval (ws (st r)) = 10 /\
  len (frames_asr_online (loc (st r))) < 10.
Proof.
  apply (online_queue_bounded true 10
           (st (step true initial (Str (Dict offline_mode), silent)))
           [(Bytes frame1, silent); (Str (Dict stop_message), talking);
            (Bytes frame1, vad_down)]);
    reflexivity.
Defined.

Lemma mode_gates_passes_witness :
  let s := st (step true initial (Str (Dict online_mode), silent)) in
  let r := run true s
             [(Bytes frame1, talking); (Str (Dict stop_message), talking);
              (Bytes frame1, talking_end)] in
  mode (ws (st r)) = "online" /\
  offline_calls (out r) = [] /\ asr_engine_calls (out r) = [] /\
  sent_offline (out r) = [].
Proof.
  destruct (mode_gates_passes true
              (st (step true initial (Str (Dict online_mode), silent)))
              [(Bytes frame1, talking); (Str (Dict stop_message), talking);
               (Bytes frame1, talking_end)]) as (M & _ & G);
    [reflexivity |].
  split; [exact M | apply G; reflexivity].
Defined.

Lemma session_end_causes_witness :
  (exists evs,
     out (step true initial (Bytes frame1, vad_down)) =
       evs ++ [Log ExceptionLine]) /\
  (exists evs,
     out (step true after_one_frame (Str OtherError, talking)) =
       evs ++ [Log ExceptionLine]) /\
  ~ In (Log ExceptionLine)
      (out (step true after_one_frame (Bytes frame1, vad_down))).
Proof.
  split; [| split].
  - apply (session_end_causes true initial (Bytes frame1, vad_down)).
    reflexivity.
  - apply (session_end_causes true after_one_frame
             (Str OtherError, talking)).
    reflexivity.
  - apply (session_end_causes true after_one_frame (Bytes frame1, vad_down)).
    reflexivity.
Defined.


Lemma failed_load_rejects_connection_witness :
  let o := Server.ws_serve_open Server.defaults Server.vad_missing
             Server.startup 7 in
  Server.accepted o = false /\
  Server.websocket_users (Server.o_globals o) = [] /\
  Server.models_loaded (Server.o_globals o) = false /\
  Server.calls
    (Server.load_models Server.defaults Server.all_ok (Server.o_globals o)) =
  Server.calls
    (Server.load_models Server.defaults Server.all_ok Server.startup).
Proof.
  destruct (failed_load_rejects_connection Server.defaults
              Server.vad_missing Server.startup 7) as (A & U & L & _ & F);
    [reflexivity | reflexivity |].
  destruct (F Server.all_ok) as (C & _).
  repeat split; assumption.
Defined.

Lemma models_loaded_once_witness :
  let g := Server.o_globals
             (Server.ws_serve_open Server.defaults Server.all_ok
                Server.startup 1) in
  let r := Server.serve Server.defaults g
             [Server.Opens 2 Server.vad_missing; Server.Ends 1;
              Server.Opens 3 Server.all_ok] in
  snd r = [] /\ Server.models (fst r) = Server.models g /\
  Server.models_loaded (fst r) = true.
Proof.
  apply (models_loaded_once Server.defaults
           (Server.o_globals
              (Server.ws_serve_open Server.defaults Server.all_ok
                 Server.startup 1))
           [Server.Opens 2 Server.vad_missing; Server.Ends 1;
            Server.Opens 3 Server.all_ok]).
  reflexivity.
Defined.

Lemma loaded_models_complete_witness :
  let g := fst (Server.serve Server.defaults Server.startup
                  [Server.Opens 1 Server.vad_missing;
                   Server.Opens 2 Server.all_ok]) in
  Server.models g = Server.expected_models Server.defaults /\
  Server.punctuates g =
    negb (String.eqb (Server.punc_model Server.defaults) "").
Proof.
  apply (loaded_models_complete Server.defaults
           [Server.Opens 1 Server.vad_missing;
            Server.Opens 2 Server.all_ok]).
  reflexivity.
Defined.

Lemma connection_deregistered_witness :
  let r := Server.ws_serve Server.defaults Server.all_ok Server.startup 1
             [Server.Opens 2 Server.vad_missing; Server.Opens 3 Server.all_ok;
              Server.Ends 3]
             [(Bytes frame1, silent)] in
  ~ In 1%nat (Server.websocket_users (Server.s_globals r)) /\
  In 2%nat (Server.websocket_users (Server.s_globals r)) /\
  ~ In 3%nat (Server.websocket_users (Server.s_globals r)) /\
  (In 4%nat (Server.websocket_users (Server.s_globals r)) <->
   In 4%nat (Server.websocket_users Server.startup)) /\
  Server.s_result r <> None.
Proof.
  destruct (connection_deregistered Server.defaults Server.all_ok
              Server.startup 1
              [Server.Opens 2 Server.vad_missing;
               Server.Opens 3 Server.all_ok; Server.Ends 3]
              [(Bytes frame1, silent)]) as (A & _ & R).
  destruct (A eq_refl) as (A1 & A2 & A3 & _).
  split; [exact A1 | split; [| split; [| split]]].
  - apply A2; [discriminate | vm_compute; auto].
  - intros H. apply A2 in H; [| discriminate].
    vm_compute in H. destruct H as [H | [H | []]]; discriminate H.
  - apply A3; [discriminate |].
    intros h [<- | [<- | [<- | []]]]; discriminate.
  - apply R. reflexivity.
Defined.

Lemma session_punctuates_iff_configured_witness :
  let g := fst (Server.serve Server.defaults Server.startup
                  [Server.Opens 1 Server.vad_missing]) in
  let r := Server.ws_serve Server.defaults Server.all_ok g 2
             [Server.Opens 3 Server.all_ok; Server.Ends 3]
             [(Bytes frame1, talking_end)] in
  Server.s_result r =
    Some (run (negb (String.eqb (Server.punc_model Server.defaults) ""))
            initial [(Bytes frame1, talking_end)]) /\
  Server.models_loaded (Server.s_globals r) = true.
Proof.
  apply (session_punctuates_iff_configured Server.defaults
           [Server.Opens 1 Server.vad_missing] Server.all_ok 2
           [Server.Opens 3 Server.all_ok; Server.Ends 3]
           [(Bytes frame1, talking_end)]).
  reflexivity.
Defined.
